(** * The homework service of [html/backend/app.py]

    A shallow embedding of the Flask handlers [get_homeworks],
    [add_homework], [update_homework], [delete_homework] and
    [uploaded_file], of [get_db_connection], of the routing of the five
    kinds of request, and of the parts of their environment the handlers
    depend on: the two SQLite tables with the transaction of one connection,
    the directory tree below which the uploads are stored, the clock and the
    random UUIDs.

    The environment is modelled as follows.
    - Tables. A connection works on its own view of the tables. Python's
      [sqlite3] opens a transaction before the first INSERT, UPDATE or DELETE
      of a connection; [conn.commit()] makes the view durable, and
      [conn.close()] without it leaves the transaction to SQLite, which rolls
      it back. Binding an id of 2^63 or more raises [OverflowError]; apart
      from that, statements on an open connection are taken not to raise.
    - Files. Paths are resolved component by component through directories,
      with [.] and [..], without symbolic links. [file.save] and [os.unlink]
      can fail for reasons outside the tree (a full disk, a denied call); the
      environment of a request says where.
    - SQLite's files. The database file and its companions lie in the tree of
      the uploads. The world records whether a handler has written to them;
      what the tables are after that is not modelled.
    - Requests. A form whose [Content-Length] is above [MAX_CONTENT_LENGTH]
      is refused with 413 where the handler reads it. [GET /uploads/...] is
      answered by Flask's static view, whose rule is registered before the
      one of [uploaded_file].
    - Time and chance. [datetime.now()], [uuid.uuid4()] and SQLite's
      [CURRENT_TIMESTAMP] are answers of the environment.
    - Effects. The calls whose order matters are recorded in a trace.
    Logging is left out. *)

From Stdlib Require Import Ascii String.
From stdpp Require Import base numbers list sorting strings gmap.

Local Open Scope N_scope.

(** ** Text *)

Module Text.

(** [needle in haystack] of Python, on strings. *)
Fixpoint contains (needle haystack : string) : bool :=
  String.prefix needle haystack ||
  match haystack with
  | EmptyString => false
  | String _ rest => contains needle rest
  end.

(** The digit characters used by [%d]/[%x] style conversions. *)
Definition digit_char (d : N) : ascii :=
  match d with
  | 0 => "0" | 1 => "1" | 2 => "2" | 3 => "3" | 4 => "4"
  | 5 => "5" | 6 => "6" | 7 => "7" | 8 => "8" | 9 => "9"
  | 10 => "a" | 11 => "b" | 12 => "c" | 13 => "d" | 14 => "e"
  | _ => "f"
  end%char.

(** [width] digits of [v] in base [base], most significant first, padded
    with zeros: the conversions [%02d], [%04d] and [%032x]. *)
Fixpoint fixed_digits (base : N) (width : nat) (v : N) : string :=
  match width with
  | O => EmptyString
  | S w => fixed_digits base w (v / base) +:+ String (digit_char (v mod base)) EmptyString
  end.

(** Whether a character occurs in a string. *)
Fixpoint occurs (c : ascii) (s : string) : bool :=
  match s with
  | EmptyString => false
  | String c' rest => Ascii.eqb c c' || occurs c rest
  end.

(** [s.split("/")]: the components between the separators, empty ones
    included. [cur] is the component being read. *)
Fixpoint split_from (cur : string) (s : string) : list string :=
  match s with
  | EmptyString => [cur]
  | String c rest =>
      if Ascii.eqb c "/" then cur :: split_from EmptyString rest
      else split_from (cur +:+ String c EmptyString) rest
  end.

Definition split_slash (s : string) : list string := split_from EmptyString s.

(** ["/".join(comps)] *)
Fixpoint join_slash (comps : list string) : string :=
  match comps with
  | [] => EmptyString
  | [comp] => comp
  | comp :: rest => comp +:+ String "/" (join_slash rest)
  end.

(** [s.startswith("/")] and [s.endswith("/")]. *)
Definition starts_with_slash (s : string) : bool := String.prefix "/" s.

Fixpoint ends_with_slash (s : string) : bool :=
  match s with
  | EmptyString => false
  | String c EmptyString => Ascii.eqb c "/"
  | String _ rest => ends_with_slash rest
  end.

End Text.

(** ** Clock and stored names *)

(** [datetime.now()], to the second. *)
Record datetime := {
  year : N; month : N; day : N; hour : N; minute : N; second : N
}.

(** [strftime('%Y%m%d%H%M%S')] for the four-digit years of [datetime.now()]. *)
Definition strftime_YmdHMS (d : datetime) : string :=
  Text.fixed_digits 10 4 (year d) +:+ Text.fixed_digits 10 2 (month d) +:+
  Text.fixed_digits 10 2 (day d) +:+ Text.fixed_digits 10 2 (hour d) +:+
  Text.fixed_digits 10 2 (minute d) +:+ Text.fixed_digits 10 2 (second d).

(** [uuid.uuid4().hex]: the 128-bit integer of the UUID as 32 lowercase
    hexadecimal digits. *)
Definition uuid_hex (u : N) : string := Text.fixed_digits 16 32 u.

(** [f"{datetime.now().strftime('%Y%m%d%H%M%S')}_{uuid.uuid4().hex}_{file.filename}"] *)
Definition unique_filename (now : datetime) (uuid4 : N) (filename : string) : string :=
  strftime_YmdHMS now +:+ "_" +:+ uuid_hex uuid4 +:+ "_" +:+ filename.


(** ** The two tables

    [homeworks] and [attachments] as [init_db] creates them. Rows are kept in
    rowid order. [created_at] is the [CURRENT_TIMESTAMP] of the insertion, in
    seconds: SQLite stores it as fixed-width text whose order is the order of
    time. SQLite does not enforce the foreign key (the pragma is never
    switched on), so [homework_id] is an unchecked number. *)

Module Homework.
Record row := {
  id : N; time : string; subject : string; title : string;
  content : string; created_at : N
}.
End Homework.

Module Attachment.
Record row := {
  id : N; homework_id : N; filename : string; filepath : string
}.
End Attachment.

Record database := {
  homeworks : list Homework.row;
  attachments : list Attachment.row;
  (** the [sqlite_sequence] counters behind [AUTOINCREMENT] *)
  seq_homeworks : N;
  seq_attachments : N
}.

Module Sql.

(** [AUTOINCREMENT]: one more than the largest rowid ever used. *)
Definition next_rowid (seq : N) (ids : list N) : N :=
  N.succ (N.max seq (foldr N.max 0 ids)).

(** [INSERT INTO homeworks (time, subject, title, content) VALUES (?, ?, ?, ?)];
    the first component is [cursor.lastrowid]. *)
Definition insert_homework (timestamp : N) (time subject title content : string)
    (db : database) : N * database :=
  let rowid := next_rowid (seq_homeworks db) (Homework.id <$> homeworks db) in
  (rowid,
   {| homeworks := homeworks db ++
        [ {| Homework.id := rowid; Homework.time := time;
             Homework.subject := subject; Homework.title := title;
             Homework.content := content; Homework.created_at := timestamp |} ];
      attachments := attachments db;
      seq_homeworks := rowid;
      seq_attachments := seq_attachments db |}).

(** [INSERT INTO attachments (homework_id, filename, filepath) VALUES (?, ?, ?)] *)
Definition insert_attachment (homework_id : N) (filename filepath : string)
    (db : database) : database :=
  let rowid := next_rowid (seq_attachments db) (Attachment.id <$> attachments db) in
  {| homeworks := homeworks db;
     attachments := attachments db ++
       [ {| Attachment.id := rowid; Attachment.homework_id := homework_id;
            Attachment.filename := filename; Attachment.filepath := filepath |} ];
     seq_homeworks := seq_homeworks db;
     seq_attachments := rowid |}.

(** [SELECT * FROM homeworks WHERE id = ?] with [fetchone()]. *)
Definition select_homework (id : N) (db : database) : option Homework.row :=
  head (filter (λ hw, Homework.id hw = id) (homeworks db)).

Definition set_fields (time subject title content : string) (hw : Homework.row)
    : Homework.row :=
  {| Homework.id := Homework.id hw; Homework.time := time;
     Homework.subject := subject; Homework.title := title;
     Homework.content := content; Homework.created_at := Homework.created_at hw |}.

(** [UPDATE homeworks SET time=?, subject=?, title=?, content=? WHERE id=?] *)
Definition update_homework (id : N) (time subject title content : string)
    (db : database) : database :=
  {| homeworks :=
       (λ hw, if decide (Homework.id hw = id)
              then set_fields time subject title content hw else hw) <$> homeworks db;
     attachments := attachments db;
     seq_homeworks := seq_homeworks db;
     seq_attachments := seq_attachments db |}.

(** The order of [ORDER BY created_at DESC]. *)
Definition newer_first (a b : Homework.row) : Prop :=
  Homework.created_at b ≤ Homework.created_at a.

#[global] Instance newer_first_dec a b : Decision (newer_first a b).
Proof. unfold newer_first. apply _. Defined.

(** [SELECT * FROM homeworks ORDER BY created_at DESC]. SQLite leaves the
    order of rows with equal keys open; nothing below depends on it. *)
Definition select_homeworks_newest_first (db : database) : list Homework.row :=
  merge_sort newer_first (homeworks db).

(** [SELECT id, filepath FROM attachments WHERE homework_id = ?] *)
Definition select_attachments_of (id : N) (db : database) : list Attachment.row :=
  filter (λ att, Attachment.homework_id att = id) (attachments db).

(** [DELETE FROM attachments WHERE homework_id = ?] *)
Definition delete_attachments_of (id : N) (db : database) : database :=
  {| homeworks := homeworks db;
     attachments := filter (λ att, Attachment.homework_id att ≠ id) (attachments db);
     seq_homeworks := seq_homeworks db;
     seq_attachments := seq_attachments db |}.

(** [DELETE FROM homeworks WHERE id = ?] *)
Definition delete_homework (id : N) (db : database) : database :=
  {| homeworks := filter (λ hw, Homework.id hw ≠ id) (homeworks db);
     attachments := attachments db;
     seq_homeworks := seq_homeworks db;
     seq_attachments := seq_attachments db |}.

End Sql.

(** ** The directory tree

    What [os.path.exists], [os.makedirs], [FileStorage.save], [os.unlink] and
    [send_file] see: directories and regular files, without symbolic links.
    A location is the list of the names on the way from the root, the
    innermost name first; [[]] is the root directory. *)

Module Fs.

Inductive node :=
  | Dir
  | File (content : list Byte.byte).

Definition is_dir (fs : gmap (list string) node) (l : list string) : bool :=
  match l with
  | [] => true
  | _ => match fs !! l with Some Dir => true | _ => false end
  end.

Definition present (fs : gmap (list string) node) (l : list string) : bool :=
  match l with
  | [] => true
  | _ => bool_decide (is_Some (fs !! l))
  end.

(** One path component followed from the directory [cur]. *)
Definition step (cur : list string) (c : string) : list string :=
  if decide (c = "" ∨ c = ".") then cur
  else if decide (c = "..") then tail cur
  else c :: cur.

(** Path resolution: every component is looked up in a directory. *)
Fixpoint walk (fs : gmap (list string) node) (cur : list string) (cs : list string)
    : option (list string) :=
  match cs with
  | [] => Some cur
  | c :: cs' => if is_dir fs cur then walk fs (step cur c) cs' else None
  end.

(** The location an absolute path names, when its directories exist. *)
Definition resolve (fs : gmap (list string) node) (path : string) : option (list string) :=
  walk fs [] (Text.split_slash path).

(** [mkdir -p] along the components: missing directories are created; a
    regular file in the way raises, which the first component reports as
    [false], and the directories made so far stay. *)
Fixpoint mkdirs (fs : gmap (list string) node) (cur : list string) (cs : list string)
    : bool * gmap (list string) node :=
  match cs with
  | [] => (true, fs)
  | c :: cs' =>
      let next := step cur c in
      match next with
      | [] => mkdirs fs next cs'
      | _ => match fs !! next with
             | Some Dir => mkdirs fs next cs'
             | Some (File _) => (false, fs)
             | None => mkdirs (<[next := Dir]> fs) next cs'
             end
      end
  end.

End Fs.

(** [os.path.join(a, b)] of [posixpath]. *)
Definition os_path_join (a b : string) : string :=
  if Text.starts_with_slash b then b
  else if bool_decide (a = "") || Text.ends_with_slash a then a +:+ b
  else a +:+ "/" +:+ b.

(** The loop of [posixpath.normpath] over the components of a path:
    [new_comps] grows at its end, and a [..] takes the last component away
    unless there is none to take or it is a [..] itself. *)
Fixpoint normpath_loop (initial_slashes : bool) (new_comps comps : list string)
    : list string :=
  match comps with
  | [] => new_comps
  | comp :: rest =>
      if decide (comp = "" ∨ comp = ".") then normpath_loop initial_slashes new_comps rest
      else if decide (comp ≠ ".." ∨ (initial_slashes = false ∧ new_comps = []) ∨
                      last new_comps = Some "..")
           then normpath_loop initial_slashes (new_comps ++ [comp]) rest
           else normpath_loop initial_slashes (removelast new_comps) rest
  end.

(** [posixpath.normpath(path)]; two slashes in front are kept, three or more
    are one. *)
Definition normpath (path : string) : string :=
  if decide (path = "") then "."
  else
    let initial_slashes := Text.starts_with_slash path in
    let comps := normpath_loop initial_slashes [] (Text.split_slash path) in
    let front :=
      if String.prefix "//" path && negb (String.prefix "///" path) then "//"
      else if initial_slashes then "/" else "" in
    let path := front +:+ Text.join_slash comps in
    if decide (path = "") then "." else path.

(** ** Effects *)

Inductive exn :=
  | OperationalError (msg : string)   (* sqlite3.OperationalError *)
  | OSError                           (* raised by the file system calls *)
  | KeyError (key : string)           (* a form field that is not there *)
  | OverflowError                     (* an integer that SQLite cannot hold *)
  | NotFound                          (* werkzeug.exceptions.NotFound *)
  | OtherError.

Inductive result (A : Type) :=
  | Ok (a : A)
  | Raise (e : exn).
Arguments Ok {A} a.
Arguments Raise {A} e.

(** What the calls of a handler do outside the tables, in order. *)
Inductive event :=
  | EvConnect                 (* sqlite3.connect and the pragma *)
  | EvSleep (ms : N)          (* time.sleep *)
  | EvCommit                  (* conn.commit() *)
  | EvClose                   (* conn.close() *)
  | EvSave (path : string)    (* file.save(path) has returned *)
  | EvUnlink (path : string). (* os.unlink(path) is called *)

#[global] Instance event_eq_dec : EqDecision event.
Proof. solve_decision. Defined.

(** The state that outlives a request: the committed tables, the directory
    tree and the effects so far.

    The tables are what SQLite keeps in [homework.db] and in the [-wal],
    [-shm] and [-journal] files next to it, and those files lie in the same
    directory tree as the uploads. [intact] says that they were left to
    SQLite: it is [false] from the first call on in which a handler opens one
    of them for writing, unlinks one or makes a directory in its place. What a
    connection finds after such a call depends on the bytes written and on
    SQLite's caches, so [durable] describes the tables only as long as the
    world is [intact], and so do the answers of a handler from that call on.
    The bytes the tree itself shows for SQLite's files are not kept in step
    with the tables. *)
Record world := {
  durable : database;
  disk : gmap (list string) Fs.node;
  trace : list event;
  intact : bool
}.

Definition log (ev : event) (w : world) : world :=
  {| durable := durable w; disk := disk w; trace := trace w ++ [ev]; intact := intact w |}.

Definition set_disk (fs : gmap (list string) Fs.node) (w : world) : world :=
  {| durable := durable w; disk := fs; trace := trace w; intact := intact w |}.

(** A call on one of SQLite's files, when [hit] says so. *)
Definition spoil (hit : bool) (w : world) : world :=
  {| durable := durable w; disk := disk w; trace := trace w;
     intact := intact w && negb hit |}.

(** An open connection: [conn] holds the tables as the connection sees them,
    with the statements executed since the last commit. The module's
    [db_lock], taken by [with_db_lock] around every handler that uses the
    tables, admits one handler at a time, so no other connection is open. *)
Record session := {
  conn : database;
  outer : world
}.

Definition M (A : Type) : Type := session → result A * session.

#[global] Instance M_ret : MRet M := λ A a s, (Ok a, s).
#[global] Instance M_bind : MBind M := λ A B k m s,
  match m s with
  | (Ok a, s') => k a s'
  | (Raise e, s') => (Raise e, s')
  end.

Definition raise {A : Type} (e : exn) : M A := λ s, (Raise e, s).

(** [conn.execute] of a statement that changes rows: inside the implicit
    transaction of the connection. *)
Definition execute (stmt : database → database) : M () :=
  λ s, (Ok (), {| conn := stmt (conn s); outer := outer s |}).

(** [conn.execute(...).fetchall()] and the like. *)
Definition query {A : Type} (q : database → A) : M A :=
  λ s, (Ok (q (conn s)), s).

(** [conn.commit()]: the statements of the transaction become durable. *)
Definition commit : M () :=
  λ s, (Ok (), {| conn := conn s;
                  outer := log EvCommit {| durable := conn s; disk := disk (outer s);
                                           trace := trace (outer s);
                                           intact := intact (outer s) |} |}).

(** Opening a connection, and [conn.close()]: what was not committed is
    rolled back by SQLite. *)
Definition connected (w : world) : session := {| conn := durable w; outer := w |}.
Definition close (s : session) : world := log EvClose (outer s).

(** A file system call inside a handler. *)
Definition on_disk {A : Type}
    (op : gmap (list string) Fs.node → result A * gmap (list string) Fs.node) : M A :=
  λ s, let '(r, fs) := op (disk (outer s)) in
       (r, {| conn := conn s; outer := set_disk fs (outer s) |}).

Definition emit (ev : event) : M () :=
  λ s, (Ok (), {| conn := conn s; outer := log ev (outer s) |}).

(** A call that goes to one of SQLite's files when [hit] says so of the
    tree it finds. *)
Definition touching (hit : gmap (list string) Fs.node → bool) : M () :=
  λ s, (Ok (), {| conn := conn s; outer := spoil (hit (disk (outer s))) (outer s) |}).

(** Binding a Python [int] to a [?] of a statement: SQLite's integers are
    signed 64-bit numbers, and [sqlite3] raises [OverflowError] for an [int]
    that does not fit. *)
Definition bind_integer (n : N) : M () :=
  if decide (n < 2 ^ 63) then mret () else raise OverflowError.

Definition try_except {A : Type} (body : M A) (handler : exn → M A) : M A :=
  λ s, match body s with
       | (Ok a, s') => (Ok a, s')
       | (Raise e, s') => handler e s'
       end.

(** ** File system calls *)

(** What the disk answers to one [file.save]: the write goes through, the
    file cannot be opened, or the write breaks off after [written] bytes. *)
Inductive io_outcome :=
  | IoOk
  | IoOpenFails
  | IoWriteFails (written : nat).

(** [os.path.exists(path)] *)
Definition os_path_exists (fs : gmap (list string) Fs.node) (path : string) : bool :=
  match Fs.resolve fs path with
  | Some l => Fs.present fs l
  | None => false
  end.

(** [os.makedirs(os.path.dirname(path), exist_ok=True)]: the directories of
    all components but the last. *)
Definition os_makedirs_dirname (path : string) (fs : gmap (list string) Fs.node)
    : result () * gmap (list string) Fs.node :=
  match Fs.mkdirs fs [] (removelast (Text.split_slash path)) with
  | (true, fs') => (Ok (), fs')
  | (false, fs') => (Raise OSError, fs')
  end.

(** [file.save(path)]: [open(path, "wb")] and the copy of the stream. *)
Definition file_save (stream : list Byte.byte) (io : io_outcome) (path : string)
    (fs : gmap (list string) Fs.node) : result () * gmap (list string) Fs.node :=
  match Fs.resolve fs path with
  | Some (c :: parent) =>
      match fs !! (c :: parent) with
      | Some Fs.Dir => (Raise OSError, fs)
      | _ =>
          match io with
          | IoOk => (Ok (), <[c :: parent := Fs.File stream]> fs)
          | IoOpenFails => (Raise OSError, fs)
          | IoWriteFails written =>
              (Raise OSError, <[c :: parent := Fs.File (take written stream)]> fs)
          end
      end
  | _ => (Raise OSError, fs)
  end.

(** [os.unlink(path)]; [refused] says that the system call is denied. *)
Definition os_unlink (refused : bool) (path : string) (fs : gmap (list string) Fs.node)
    : result () * gmap (list string) Fs.node :=
  if refused then (Raise OSError, fs)
  else match Fs.resolve fs path with
       | Some l =>
           match fs !! l with
           | Some (Fs.File _) => (Ok (), delete l fs)
           | _ => (Raise OSError, fs)
           end
       | None => (Raise OSError, fs)
       end.

(** [send_file(path, as_attachment=True)]: the bytes of a regular file. *)
Definition send_file (fs : gmap (list string) Fs.node) (path : string)
    : result (list Byte.byte) :=
  match Fs.resolve fs path with
  | Some l =>
      match fs !! l with
      | Some (Fs.File content) => Ok content
      | _ => Raise OSError
      end
  | None => Raise OSError
  end.

(** [os.path.isfile(path)] *)
Definition os_path_isfile (fs : gmap (list string) Fs.node) (path : string) : bool :=
  match Fs.resolve fs path with
  | Some l => match fs !! l with Some (Fs.File _) => true | _ => false end
  | None => false
  end.

(** [werkzeug.security.safe_join(directory, filename)]: [None] for a name
    that is absolute or whose normal form begins with [..]. *)
Definition safe_join (directory filename : string) : option string :=
  let directory := if decide (directory = "") then "." else directory in
  let filename := if decide (filename = "") then "" else normpath filename in
  if Text.starts_with_slash filename || bool_decide (filename = "..") ||
     String.prefix "../" filename
  then None
  else Some (os_path_join directory filename).

(** [send_from_directory(directory, path)] of Flask, which hands its
    [root_path] to werkzeug's: the path has to pass [safe_join] and to name a
    regular file. *)
Definition send_from_directory (root_path directory path : string)
    (fs : gmap (list string) Fs.node) : result (list Byte.byte) :=
  match safe_join directory path with
  | None => Raise NotFound
  | Some path_str =>
      let path_str := os_path_join root_path path_str in
      if negb (os_path_isfile fs path_str) then Raise NotFound
      else send_file fs path_str
  end.

(** ** Requests, environment and responses *)

(** One entry of [request.files.getlist('attachments')]. *)
Module FileStorage.
Record t := { filename : string; stream : list Byte.byte }.
End FileStorage.

(** What the environment answers while one upload entry is processed:
    [datetime.now()], [uuid.uuid4()] and the fate of [file.save]. *)
Record observation := {
  now : datetime;
  uuid4 : N;
  io : io_outcome
}.

(** What the environment answers during one request. *)
Record environ := {
  (** the exception of the [k]-th attempt to connect, if it raises *)
  connect_raises : nat → option exn;
  (** SQLite's [CURRENT_TIMESTAMP] *)
  current_timestamp : N;
  (** the paths on which [os.unlink] is denied *)
  unlink_refused : string → bool
}.

Module AttachmentJson.
Record t := { id : N; filename : string; filepath : string }.
End AttachmentJson.

Module HomeworkJson.
Record t := {
  id : N; time : string; subject : string; title : string; content : string;
  createdAt : N; attachments : list AttachmentJson.t
}.
End HomeworkJson.

Module SavedJson.
Record t := { filename : string; filepath : string }.
End SavedJson.

Inductive payload :=
  | Page                                                   (* werkzeug's page for an error *)
  | Error                                                  (* {'error': ...} *)
  | Homeworks (data : gmap string (list HomeworkJson.t))   (* subject -> {'homeworks': [...]} *)
  | Saved (id : N) (attachments : list SavedJson.t)        (* {'id', 'message', 'attachments'} *)
  | Message                                                (* {'message': ...} *)
  | Download (content : list Byte.byte).

Record response := { status : N; body : payload }.

(** The error handlers (lines 307-315): what Flask answers when an
    exception leaves a handler, and when [NotFound] is raised. *)
Definition internal_error : response := {| status := 500; body := Error |}.
Definition not_found : response := {| status := 404; body := Error |}.

(** [app.config['MAX_CONTENT_LENGTH']] (line 25) *)
Definition MAX_CONTENT_LENGTH : N := 16 * 1024 * 1024.

(** ** get_db_connection (lines 34-52) *)

Definition max_attempts : nat := 5.

(** What [get_db_connection] returns: a connection, or [None] when the
    [while] loop ends. *)
Inductive connection := Connection | NoConnection.

(** The [while attempts < max_attempts] loop. [budget] is
    [max_attempts - attempts], so the test of the loop fails when it is [0];
    one attempt is [sqlite3.connect] with the pragma, inside the [try]. *)
Fixpoint retry_connect (env : environ) (budget : nat) (attempts : nat) (w : world)
    : result connection * world :=
  match budget with
  | O => (Ok NoConnection, w)
  | S budget' =>
      match connect_raises env attempts with
      | None => (Ok Connection, log EvConnect w)
      | Some (OperationalError msg) =>
          if Text.contains "locked" msg && bool_decide (attempts < max_attempts - 1)%nat
          then retry_connect env budget' (S attempts) (log (EvSleep 500) (log EvConnect w))
          else (Raise (OperationalError msg), log EvConnect w)
      | Some e => (Raise e, log EvConnect w)
      end
  end.

Definition get_db_connection (env : environ) (w : world) : result connection * world :=
  retry_connect env (max_attempts - 0) 0 w.

(** ** The handlers *)

Section App.

(** [os.path.dirname(os.path.abspath(__file__))]: the absolute path of the
    directory of [app.py]. *)
Variable BASE_DIR : string.

Definition UPLOAD_FOLDER : string := os_path_join BASE_DIR "uploads".
Definition DB_PATH : string := os_path_join BASE_DIR "homework.db".

(** SQLite's files: the database, and what SQLite keeps next to it while a
    connection is open or a transaction is under way (line 43 switches the
    journal to WAL). *)
Definition sqlite_files : list string :=
  [DB_PATH; DB_PATH +:+ "-wal"; DB_PATH +:+ "-shm"; DB_PATH +:+ "-journal"].

(** Whether [path] leads to one of SQLite's files. *)
Definition is_sqlite_file (fs : gmap (list string) Fs.node) (path : string) : bool :=
  match Fs.resolve fs path with
  | Some l => bool_decide (Exists (λ f, Fs.resolve fs f = Some l) sqlite_files)
  | None => false
  end.

(** Whether [fs'] has an entry where one of SQLite's files would lie and
    [fs] has none: [os.makedirs] has made a directory there. *)
Definition takes_place_of_sqlite_file (fs fs' : gmap (list string) Fs.node) : bool :=
  existsb (λ f, match Fs.resolve fs f with
                | Some l => bool_decide (fs !! l = None ∧ is_Some (fs' !! l))
                | None => false
                end) sqlite_files.

Definition required_fields : list string := ["time"; "subject"; "title"; "content"].

(** [all(field in data for field in required_fields)] *)
Definition has_required_fields (data : gmap string string) : bool :=
  forallb (λ field, bool_decide (is_Some (data !! field))) required_fields.

(** [data[key]] *)
Definition field (data : gmap string string) (key : string) : M string :=
  match data !! key with
  | Some v => mret v
  | None => raise (KeyError key)
  end.

(** *** GET /api/homeworks: [get_homeworks] (lines 89-125) *)

Definition attachment_json (att : Attachment.row) : AttachmentJson.t :=
  {| AttachmentJson.id := Attachment.id att;
     AttachmentJson.filename := Attachment.filename att;
     AttachmentJson.filepath := Attachment.filepath att |}.

Definition homework_json (attachments : list Attachment.row) (hw : Homework.row)
    : HomeworkJson.t :=
  let hw_attachments :=
    filter (λ att, Attachment.homework_id att = Homework.id hw) attachments in
  {| HomeworkJson.id := Homework.id hw;
     HomeworkJson.time := Homework.time hw;
     HomeworkJson.subject := Homework.subject hw;
     HomeworkJson.title := Homework.title hw;
     HomeworkJson.content := Homework.content hw;
     HomeworkJson.createdAt := Homework.created_at hw;
     HomeworkJson.attachments := attachment_json <$> hw_attachments |}.

(** The body of [for hw in homeworks]. *)
Definition group_homework (attachments : list Attachment.row)
    (data : gmap string (list HomeworkJson.t)) (hw : Homework.row)
    : gmap string (list HomeworkJson.t) :=
  let subject := Homework.subject hw in
  let data := if bool_decide (is_Some (data !! subject)) then data
              else <[subject := []]> data in
  alter (λ homeworks, homeworks ++ [homework_json attachments hw]) subject data.

(** The handler has no [except]: when no connection can be made the
    exception leaves the handler and Flask answers 500. *)
Definition get_homeworks (env : environ) (w : world) : response * world :=
  match get_db_connection env w with
  | (Ok Connection, w1) =>
      let s := connected w1 in
      let homeworks := Sql.select_homeworks_newest_first (conn s) in
      let attachments := attachments (conn s) in
      let data := foldl (group_homework attachments) ∅ homeworks in
      ({| status := 200; body := Homeworks data |}, close s)
  | (_, w1) => ({| status := 500; body := Error |}, w1)
  end.

(** *** POST /api/homeworks: [add_homework] (lines 127-186) *)

(** The loop [for file in files] of [add_homework] and of
    [update_homework], which have the same body. *)
Fixpoint save_attachments (homework_id : N)
    (files : list (FileStorage.t * observation)) (saved_files : list SavedJson.t)
    : M (list SavedJson.t) :=
  match files with
  | [] => mret saved_files
  | (file, obs) :: files' =>
      if decide (FileStorage.filename file = "") then
        save_attachments homework_id files' saved_files
      else
        let unique_filename :=
          unique_filename (now obs) (uuid4 obs) (FileStorage.filename file) in
        let file_path := os_path_join UPLOAD_FOLDER unique_filename in
        touching (λ fs, takes_place_of_sqlite_file fs (os_makedirs_dirname file_path fs).2);;
        on_disk (os_makedirs_dirname file_path);;
        touching (λ fs, is_sqlite_file fs file_path);;
        on_disk (file_save (FileStorage.stream file) (io obs) file_path);;
        emit (EvSave file_path);;
        execute (Sql.insert_attachment homework_id (FileStorage.filename file)
                   unique_filename);;
        save_attachments homework_id files'
          (saved_files ++ [ {| SavedJson.filename := FileStorage.filename file;
                               SavedJson.filepath := unique_filename |} ])
  end.

(** What [except Exception] and [finally: conn.close()] make of the [try]
    block of a handler. *)
Definition guarded (body : M response) (w : world) : response * world :=
  let '(r, s) := body (connected w) in
  (match r with
   | Ok resp => resp
   | Raise _ => {| status := 500; body := Error |}
   end, close s).

Definition add_homework_try (env : environ) (data : gmap string string)
    (files : list (FileStorage.t * observation)) : M response :=
  time ← field data "time";
  subject ← field data "subject";
  title ← field data "title";
  content ← field data "content";
  homework_id ← (λ s,
    let '(rowid, db) :=
      Sql.insert_homework (current_timestamp env) time subject title content (conn s) in
    (Ok rowid, {| conn := db; outer := outer s |}));
  saved_files ← save_attachments homework_id files [];
  commit;;
  mret {| status := 201; body := Saved homework_id saved_files |}.

(** The handler once [request.form] and [request.files] are read (lines 130
    and 131); the reading itself is [request_form] below, and [dispatch]
    puts the two together. The form is checked first; then the connection is
    made, outside the [try]: its exception leaves the handler and Flask
    answers 500. *)
Definition add_homework (env : environ) (data : gmap string string)
    (files : list (FileStorage.t * observation)) (w : world) : response * world :=
  if negb (has_required_fields data) then ({| status := 400; body := Error |}, w)
  else
    match get_db_connection env w with
    | (Ok Connection, w1) => guarded (add_homework_try env data files) w1
    | (_, w1) => ({| status := 500; body := Error |}, w1)
    end.

(** *** PUT /api/homeworks/<id>: [update_homework] (lines 188-252) *)

(** The [return] of the 404 is inside the [try]: the connection is closed
    without a commit. *)
Definition update_homework_try (id : N) (data : gmap string string)
    (files : list (FileStorage.t * observation)) : M response :=
  bind_integer id;;
  homework ← query (Sql.select_homework id);
  match homework with
  | None => mret {| status := 404; body := Error |}
  | Some _ =>
      time ← field data "time";
      subject ← field data "subject";
      title ← field data "title";
      content ← field data "content";
      execute (Sql.update_homework id time subject title content);;
      saved_files ← save_attachments id files [];
      commit;;
      mret {| status := 200; body := Saved id saved_files |}
  end.

(** As [add_homework]: the handler once the form is read (lines 191 and
    192). The id is what the converter of [<int:id>] made of the digits in
    the URL, a number of any size. *)
Definition update_homework (env : environ) (id : N) (data : gmap string string)
    (files : list (FileStorage.t * observation)) (w : world) : response * world :=
  if negb (has_required_fields data) then ({| status := 400; body := Error |}, w)
  else
    match get_db_connection env w with
    | (Ok Connection, w1) => guarded (update_homework_try id data files) w1
    | (_, w1) => ({| status := 500; body := Error |}, w1)
    end.

(** *** DELETE /api/homeworks/<id>: [delete_homework] (lines 254-288) *)

(** The loop [for att in attachments] of [delete_homework]: the inner
    [try] ... [except Exception] around [os.unlink] logs the failure and goes
    on. *)
Fixpoint unlink_attachments (env : environ) (attachments : list Attachment.row) : M () :=
  match attachments with
  | [] => mret ()
  | att :: rest =>
      let file_path := os_path_join UPLOAD_FOLDER (Attachment.filepath att) in
      touching (λ fs, is_sqlite_file fs file_path);;
      fs ← on_disk (λ fs, (Ok fs, fs));
      (if os_path_exists fs file_path then
         try_except
           (emit (EvUnlink file_path);;
            on_disk (os_unlink (unlink_refused env file_path) file_path))
           (λ _, mret ())
       else mret ());;
      unlink_attachments env rest
  end.

(** The rows are selected (the loop reads their [filepath] only), deleted
    and committed; then the files are unlinked. *)
Definition delete_homework_try (env : environ) (id : N) : M response :=
  bind_integer id;;
  attachments ← query (Sql.select_attachments_of id);
  execute (Sql.delete_attachments_of id);;
  execute (Sql.delete_homework id);;
  commit;;
  unlink_attachments env attachments;;
  mret {| status := 200; body := Message |}.

Definition delete_homework (env : environ) (id : N) (w : world) : response * world :=
  match get_db_connection env w with
  | (Ok Connection, w1) => guarded (delete_homework_try env id) w1
  | (_, w1) => ({| status := 500; body := Error |}, w1)
  end.

(** *** GET /uploads/<path:filename>: [uploaded_file] (lines 290-304) *)

Definition uploaded_file (filename : string) (w : world) : response * world :=
  let file_path := os_path_join UPLOAD_FOLDER filename in
  if negb (os_path_exists (disk w) file_path) then
    ({| status := 404; body := Error |}, w)
  else
    match send_file (disk w) file_path with
    | Ok content => ({| status := 200; body := Download content |}, w)
    | Raise _ => ({| status := 500; body := Error |}, w)
    end.

(** *** The static route

    [Flask(__name__, static_folder='../uploads')] (line 15) registers the
    rule [/uploads/<path:filename>] for Flask's static view when the
    application object is made, before line 290 registers the same rule for
    [uploaded_file]. Of two rules that match alike the one registered first
    answers: a request for [/uploads/...] goes to [send_static_file], which
    serves the folder [../uploads] next to the directory of [app.py], and
    [uploaded_file] is not called. The converter hands over a name that is
    not empty and does not start with a slash. Requests are taken without
    conditions and ranges. *)
Definition static_folder : string := os_path_join BASE_DIR "../uploads".

Definition send_static_file (filename : string) (w : world) : response * world :=
  match send_from_directory BASE_DIR static_folder filename (disk w) with
  | Ok content => ({| status := 200; body := Download content |}, w)
  | Raise NotFound => (not_found, w)
  | Raise _ => (internal_error, w)
  end.

(** [request.form] (lines 130 and 191), the first thing [add_homework] and
    [update_homework] do: reading the form of a request whose
    [Content-Length] is above [MAX_CONTENT_LENGTH] raises
    [RequestEntityTooLarge]. No handler is registered for it, so the answer
    is werkzeug's page for 413 and nothing else happens. *)
Definition request_form (content_length : N) (handler : world → response * world)
    (w : world) : response * world :=
  if decide (MAX_CONTENT_LENGTH < content_length)
  then ({| status := 413; body := Page |}, w)
  else handler w.

End App.

(** ** Vocabulary of the properties *)

(** The value of a digit character, to read [Text.digit_char] back. *)
Definition hex_value (c : ascii) : N :=
  match list_find (λ d, Text.digit_char (N.of_nat d) = c) (seq 0 16) with
  | Some (_, d) => N.of_nat d
  | None => 0
  end.

(** The exceptions [get_db_connection] answers with another attempt. *)
Definition locked (e : exn) : bool :=
  match e with
  | OperationalError msg => Text.contains "locked" msg
  | _ => false
  end.

(** The effects of [k] attempts that were followed by a sleep. *)
Fixpoint retried (k : nat) : list event :=
  match k with
  | O => []
  | S k' => EvConnect :: EvSleep 500 :: retried k'
  end.

Definition add_events (evs : list event) (w : world) : world :=
  {| durable := durable w; disk := disk w; trace := trace w ++ evs; intact := intact w |}.

Arguments UPLOAD_FOLDER : simpl never.
Arguments os_path_join : simpl never.
Arguments unique_filename : simpl never.

(** The directory tree only gains entries, and directories stay. *)
Definition grows (fs fs' : gmap (list string) Fs.node) : Prop :=
  (∀ l, fs !! l = Some Fs.Dir → fs' !! l = Some Fs.Dir) ∧
  (∀ l, is_Some (fs !! l) → is_Some (fs' !! l)).

(** The directory tree only loses regular files. *)
Definition shrinks (fs fs' : gmap (list string) Fs.node) : Prop :=
  (∀ l, Fs.is_dir fs' l = Fs.is_dir fs l) ∧
  (∀ l, Fs.present fs' l = true → Fs.present fs l = true).

(** An upload entry that the loop does not skip. *)
Definition supplied (entry : FileStorage.t * observation) : Prop :=
  FileStorage.filename entry.1 ≠ "".

#[global] Instance supplied_dec entry : Decision (supplied entry).
Proof. unfold supplied. apply _. Defined.

(** The stored name the loop gives an upload entry. *)
Definition stored_name (entry : FileStorage.t * observation) : string :=
  unique_filename (now entry.2) (uuid4 entry.2) (FileStorage.filename entry.1).

(** The attachment rows of the entries that are not skipped, inserted one
    after the other. *)
Definition record_uploads (homework_id : N) (files : list (FileStorage.t * observation))
    (db : database) : database :=
  foldl (λ db entry,
           Sql.insert_attachment homework_id (FileStorage.filename entry.1)
             (stored_name entry) db)
        db (filter supplied files).

Definition saved_json (entry : FileStorage.t * observation) : SavedJson.t :=
  {| SavedJson.filename := FileStorage.filename entry.1;
     SavedJson.filepath := stored_name entry |}.

(** The session after the body of the loop of [delete_homework] for one
    attachment: the file is unlinked when its path exists, and a failure of
    [os.unlink] is logged and passed over. *)
Definition after_unlink (BASE_DIR : string) (env : environ) (att : Attachment.row)
    (s : session) : session :=
  let path := os_path_join (UPLOAD_FOLDER BASE_DIR) (Attachment.filepath att) in
  let w := spoil (is_sqlite_file BASE_DIR (disk (outer s)) path) (outer s) in
  if os_path_exists (disk (outer s)) path then
    {| conn := conn s;
       outer := set_disk (os_unlink (unlink_refused env path) path (disk (outer s))).2
                  (log (EvUnlink path) w) |}
  else {| conn := conn s; outer := w |}.

(** The foreign key that SQLite leaves unchecked: every attachment row
    refers to a homework row. *)
Definition referential (db : database) : Prop :=
  ∀ att, att ∈ attachments db →
         ∃ hw, hw ∈ homeworks db ∧ Homework.id hw = Attachment.homework_id att.

(** ** Sample requests and worlds *)

Module Sample.

Definition base : string := "/srv/app".

(** An environment in which the first connection succeeds and no
    [os.unlink] is refused, and one in which every [os.unlink] is. *)
Definition calm : environ :=
  {| connect_raises := λ _, None; current_timestamp := 100;
     unlink_refused := λ _, false |}.

Definition read_only : environ :=
  {| connect_raises := λ _, None; current_timestamp := 200;
     unlink_refused := λ _, true |}.

(** The database is locked during the first [n] attempts to connect; and
    the database file cannot be opened at all. *)
Definition busy (n : nat) : environ :=
  {| connect_raises := λ k, if decide (k < n)%nat
                            then Some (OperationalError "database is locked") else None;
     current_timestamp := 100; unlink_refused := λ _, false |}.

Definition unreadable : environ :=
  {| connect_raises := λ _, Some (OperationalError "unable to open database file");
     current_timestamp := 100; unlink_refused := λ _, false |}.

Definition empty_db : database :=
  {| homeworks := []; attachments := []; seq_homeworks := 0; seq_attachments := 0 |}.

(** [/srv/app/uploads], and [/srv/app/homework.db] next to it. *)
Definition tree : gmap (list string) Fs.node :=
  <[ ["homework.db"; "app"; "srv"] := Fs.File [Byte.x53; Byte.x51; Byte.x4c] ]>
  (<[ ["uploads"; "app"; "srv"] := Fs.Dir ]>
  (<[ ["app"; "srv"] := Fs.Dir ]>
  (<[ ["srv"] := Fs.Dir ]> ∅))).

Definition fresh : world :=
  {| durable := empty_db; disk := tree; trace := []; intact := true |}.

Definition math : gmap string string :=
  <["time" := "2024-01-01"]> (<["subject" := "Math"]> (<["title" := "Ch1"]>
  (<["content" := "Do problems 1-10"]> ∅))).

(** The same form with [time] left blank, and without [title]. *)
Definition blank_time : gmap string string := <["time" := ""]> math.
Definition no_title : gmap string string := delete "title" math.

Definition noon : datetime :=
  {| year := 2024; month := 1; day := 2; hour := 12; minute := 0; second := 0 |}.

Definition upload (filename : string) (byte : Byte.byte) (uuid : N) (io : io_outcome)
    : FileStorage.t * observation :=
  ({| FileStorage.filename := filename; FileStorage.stream := [byte] |},
   {| now := noon; uuid4 := uuid; io := io |}).

Definition stored_a : string := "20240102120000_00000000000000000000000000000007_a.txt".

(** The world after homework 1 was created with the attachment [a.txt]. *)
Definition with_homework : world :=
  (add_homework base calm math [upload "a.txt" Byte.x41 7 IoOk] fresh).2.

End Sample.

(** ** The routes, and the start of the server *)

(** A request as the rules of the application tell them apart, with what
    the environment answers while it is handled. A POST and a PUT come with
    the [Content-Length] of their body and the form it holds. *)
Inductive request :=
  | GetHomeworks (env : environ)
  | PostHomework (env : environ) (content_length : N) (data : gmap string string)
      (files : list (FileStorage.t * observation))
  | PutHomework (env : environ) (id : N) (content_length : N) (data : gmap string string)
      (files : list (FileStorage.t * observation))
  | DeleteHomework (env : environ) (id : N)
  | GetUpload (filename : string).

(** The view of a request. *)
Definition dispatch (BASE_DIR : string) (req : request) (w : world) : response * world :=
  match req with
  | GetHomeworks env => get_homeworks env w
  | PostHomework env content_length data files =>
      request_form content_length (add_homework BASE_DIR env data files) w
  | PutHomework env id content_length data files =>
      request_form content_length (update_homework BASE_DIR env id data files) w
  | DeleteHomework env id => delete_homework BASE_DIR env id w
  | GetUpload filename => send_static_file BASE_DIR filename w
  end.

(** Requests handled one after the other, as [db_lock] lets the handlers of
    the tables run; the responses come in the order of the requests. *)
Fixpoint serve (BASE_DIR : string) (reqs : list request) (w : world)
    : list response * world :=
  match reqs with
  | [] => ([], w)
  | req :: reqs' =>
      let '(resp, w1) := dispatch BASE_DIR req w in
      let '(resps, w2) := serve BASE_DIR reqs' w1 in
      (resp :: resps, w2)
  end.

(** The database file as [init_db] finds it: each of the two tables is there
    or not; the [sqlite_sequence] counters are [0] for a table without
    insertions. *)
Record db_file := {
  homeworks_table : option (list Homework.row);
  attachments_table : option (list Attachment.row);
  sequence_homeworks : N;
  sequence_attachments : N
}.

(** [CREATE TABLE IF NOT EXISTS homeworks (...)] and
    [CREATE TABLE IF NOT EXISTS attachments (...)] (lines 58-76). *)
Definition create_homeworks_if_not_exists (file : db_file) : db_file :=
  match homeworks_table file with
  | Some _ => file
  | None => {| homeworks_table := Some []; attachments_table := attachments_table file;
               sequence_homeworks := sequence_homeworks file;
               sequence_attachments := sequence_attachments file |}
  end.

Definition create_attachments_if_not_exists (file : db_file) : db_file :=
  match attachments_table file with
  | Some _ => file
  | None => {| homeworks_table := homeworks_table file; attachments_table := Some [];
               sequence_homeworks := sequence_homeworks file;
               sequence_attachments := sequence_attachments file |}
  end.

(** [init_db] (lines 54-79). The connection is made before the [try], so its
    exception leaves the function; the two statements and the commit follow;
    [finally] closes the connection. [w] carries the trace; the tables of the
    handlers are read from the file afterwards, see [tables]. *)
Definition init_db (env : environ) (file : db_file) (w : world)
    : result () * db_file * world :=
  match get_db_connection env w with
  | (Ok Connection, w1) =>
      (Ok (),
       create_attachments_if_not_exists (create_homeworks_if_not_exists file),
       log EvClose (log EvCommit w1))
  | (Ok NoConnection, w1) => (Raise OtherError, file, w1)
  | (Raise e, w1) => (Raise e, file, w1)
  end.

(** The tables the handlers work on, when both are in the file. *)
Definition tables (file : db_file) : option database :=
  match homeworks_table file, attachments_table file with
  | Some hws, Some atts =>
      Some {| homeworks := hws; attachments := atts;
              seq_homeworks := sequence_homeworks file;
              seq_attachments := sequence_attachments file |}
  | _, _ => None
  end.

(** ** More vocabulary *)

(** The names of SQLite's files in the directory of [app.py]. *)
Definition sqlite_names : list string :=
  ["homework.db"; "homework.db-wal"; "homework.db-shm"; "homework.db-journal"].

(** A path component that names an entry of a directory: not empty, not
    [.] or [..], without a slash. *)
Definition component (c : string) : Prop :=
  c ≠ "" ∧ c ≠ "." ∧ c ≠ ".." ∧ Text.occurs "/" c = false.

(** The primary keys: no two rows of a table have the same id. *)
Definition keyed (db : database) : Prop :=
  NoDup (Homework.id <$> homeworks db) ∧ NoDup (Attachment.id <$> attachments db).

(** The id a create response reports, if it is one. *)
Definition created_id (resp : response) : option N :=
  match status resp, body resp with
  | 201, Saved id _ => Some id
  | _, _ => None
  end.

(** The characters of a text from position [n] on. *)
Fixpoint drop_chars (n : nat) (s : string) : string :=
  match n, s with
  | O, _ => s
  | S n', String _ rest => drop_chars n' rest
  | S _, EmptyString => EmptyString
  end.

(** * Properties *)

(** ** Stored names *)

Section StoredNames.

Lemma occurs_app c (a b : string) :
  Text.occurs c (a +:+ b) = Text.occurs c a || Text.occurs c b.
Proof.
  induction a as [|x a IH]; simpl; [done|].
  rewrite IH. by destruct (Ascii.eqb c x).
Qed.

Lemma digit_char_cases d :
  Text.digit_char d ∈ String.list_ascii_of_string "0123456789abcdef".
Proof.
  unfold Text.digit_char.
  repeat match goal with
         | |- context [match ?x with _ => _ end] => destruct x
         end; simpl; set_solver.
Qed.

Lemma digit_char_not_underscore d : Ascii.eqb "_" (Text.digit_char d) = false.
Proof.
  pose proof (digit_char_cases d) as H. simpl in H.
  repeat (apply elem_of_cons in H as [->|H]; [reflexivity|]).
  by apply elem_of_nil in H.
Qed.

Lemma fixed_digits_no_underscore base width v :
  Text.occurs "_" (Text.fixed_digits base width v) = false.
Proof.
  revert v. induction width as [|w IH]; intros v; [done|].
  cbn [Text.fixed_digits]. rewrite occurs_app, IH. cbn [Text.occurs orb].
  by rewrite digit_char_not_underscore.
Qed.

(** A text without underscore in front of an underscore is determined by
    the whole. *)
Lemma cut_at_underscore (s1 s2 r1 r2 : string) :
  Text.occurs "_" s1 = false → Text.occurs "_" s2 = false →
  s1 +:+ String "_" r1 = s2 +:+ String "_" r2 → s1 = s2 ∧ r1 = r2.
Proof.
  revert s2. induction s1 as [|x s1 IH]; intros [|y s2];
    cbn [Text.occurs String.append]; intros H1 H2 E.
  - by injection E.
  - injection E as <- _. by rewrite Ascii.eqb_refl in H2.
  - injection E as -> _. by rewrite Ascii.eqb_refl in H1.
  - injection E as -> E.
    apply orb_false_iff in H1 as [_ H1]. apply orb_false_iff in H2 as [_ H2].
    destruct (IH _ H1 H2 E) as [-> ->]. done.
Qed.

Lemma snoc_inj (a b : string) (c d : ascii) :
  a +:+ String c "" = b +:+ String d "" → a = b ∧ c = d.
Proof.
  revert b. induction a as [|x a IH]; intros [|y b]; simpl; intros E.
  - by injection E.
  - injection E as _ E. by destruct b.
  - injection E as _ E. by destruct a.
  - injection E as -> E. by destruct (IH _ E) as [-> ->].
Qed.

Lemma hex_value_digit d : d < 16 → hex_value (Text.digit_char d) = d.
Proof.
  intros H.
  assert (d ∈ N.of_nat <$> seq 0 16) as Hd.
  { apply list_elem_of_fmap. exists (N.to_nat d). split; [lia|].
    apply elem_of_seq. lia. }
  simpl in Hd.
  repeat (apply elem_of_cons in Hd as [->|Hd]; [reflexivity|]).
  by apply elem_of_nil in Hd.
Qed.

Lemma fixed_hex_inj width u v :
  u < 16 ^ N.of_nat width → v < 16 ^ N.of_nat width →
  Text.fixed_digits 16 width u = Text.fixed_digits 16 width v → u = v.
Proof.
  revert u v. induction width as [|w IH]; intros u v Hu Hv E.
  - simpl in Hu, Hv. lia.
  - rewrite Nat2N.inj_succ, N.pow_succ_r' in Hu, Hv.
    simpl in E. apply snoc_inj in E as [E1 E2].
    apply IH in E1.
    + apply (f_equal hex_value) in E2.
      rewrite !hex_value_digit in E2 by (apply N.mod_lt; lia).
      rewrite (N.div_mod u 16), (N.div_mod v 16) by lia. congruence.
    + apply N.Div0.div_lt_upper_bound. lia.
    + apply N.Div0.div_lt_upper_bound. lia.
Qed.

Lemma strftime_no_underscore d : Text.occurs "_" (strftime_YmdHMS d) = false.
Proof.
  unfold strftime_YmdHMS.
  by rewrite !occurs_app, !fixed_digits_no_underscore.
Qed.

(** The three parts of a stored name can be read back from it. *)
Lemma unique_filename_parts d1 d2 u1 u2 f1 f2 :
  unique_filename d1 u1 f1 = unique_filename d2 u2 f2 →
  strftime_YmdHMS d1 = strftime_YmdHMS d2 ∧ uuid_hex u1 = uuid_hex u2 ∧ f1 = f2.
Proof.
  unfold unique_filename. intros E.
  apply cut_at_underscore in E as [E1 E]; [|apply strftime_no_underscore..].
  apply cut_at_underscore in E as [E2 E];
    [|apply fixed_digits_no_underscore..].
  done.
Qed.

(** C7: the stored name is [unique_filename] of the time to the second, the
    UUID and the original filename, and two stored names made with different
    UUIDs differ, whatever the two times and the two filenames are, equal
    ones included. *)
Theorem stored_names_differ_when_uuids_differ
    (d1 d2 : datetime) (u1 u2 : N) (f1 f2 : string) :
  u1 < 2 ^ 128 → u2 < 2 ^ 128 → u1 ≠ u2 →
  unique_filename d1 u1 f1 ≠ unique_filename d2 u2 f2 ∧
  unique_filename d1 u1 f1 ≠ unique_filename d1 u2 f1.
Proof.
  intros Hu1 Hu2 Hne.
  assert (∀ d d' f f', unique_filename d u1 f ≠ unique_filename d' u2 f') as H.
  { intros d d' f f' E. apply unique_filename_parts in E as (_ & E & _).
    apply Hne. apply (fixed_hex_inj 32); [done..|]. apply E. }
  split; apply H.
Qed.

End StoredNames.

Section Connection.

Lemma retry_connect_spec env budget attempts w :
  (budget + attempts = max_attempts)%nat → (0 < budget)%nat →
  ∃ k : nat,
    (attempts ≤ k < max_attempts)%nat ∧
    (∀ j, (attempts ≤ j < k)%nat →
          ∃ e, connect_raises env j = Some e ∧ locked e = true) ∧
    snd (retry_connect env budget attempts w) =
      add_events (retried (k - attempts) ++ [EvConnect]) w ∧
    match connect_raises env k with
    | None => fst (retry_connect env budget attempts w) = Ok Connection
    | Some e =>
        fst (retry_connect env budget attempts w) = Raise e ∧
        (locked e = true → S k = max_attempts)
    end.
Proof.
  revert attempts w. induction budget as [|b IH]; intros attempts w Hsum Hpos; [lia|].
  assert (∀ r : result connection,
    (match connect_raises env attempts with
     | None => r = Ok Connection
     | Some e => r = Raise e ∧ (locked e = true → S attempts = max_attempts)
     end) →
    ∃ k : nat,
      (attempts ≤ k < max_attempts)%nat ∧
      (∀ j, (attempts ≤ j < k)%nat →
            ∃ e, connect_raises env j = Some e ∧ locked e = true) ∧
      log EvConnect w = add_events (retried (k - attempts) ++ [EvConnect]) w ∧
      match connect_raises env k with
      | None => r = Ok Connection
      | Some e => r = Raise e ∧ (locked e = true → S k = max_attempts)
      end) as Hstop.
  { intros r Hr. exists attempts. rewrite Nat.sub_diag.
    split; [lia|]. split; [intros; lia|]. done. }
  cbn [retry_connect].
  destruct (connect_raises env attempts) as [e|] eqn:Hc; [|by apply Hstop].
  destruct e as [msg| | | | |]; try (by apply Hstop).
  destruct (Text.contains "locked" msg) eqn:Hl; cbn [andb];
    [|apply Hstop; split; [done|]; cbn; by rewrite Hl].
  case_bool_decide as Hlt;
    [|apply Hstop; split; [done|]; intros _; unfold max_attempts in *; lia].
  destruct (IH (S attempts) (log (EvSleep 500) (log EvConnect w)))
    as (k & Hk & Hall & Hw & Hres); [lia|unfold max_attempts in *; lia|].
  exists k. split; [lia|]. split; [|split; [|done]].
  - intros j Hj. destruct (decide (j = attempts)) as [->|].
    + exists (OperationalError msg). by rewrite Hc.
    + apply Hall. lia.
  - rewrite Hw. unfold add_events, log; cbn.
    replace (k - attempts)%nat with (S (k - S attempts)) by lia.
    cbn [retried]. f_equal. by rewrite <-!app_assoc.
Qed.

(** C9, as the code has it: [get_db_connection] connects at most 5 times,
    the first attempt and up to 4 more. Each of the [k] attempts (at most 4)
    that failed with an [OperationalError] that mentions "locked" is followed
    by a sleep of 500 ms and another attempt; the attempt after them decides:
    a connection is returned, or its exception is raised, and an exception
    that mentions "locked" is raised only by the fifth attempt, after 4
    sleeps. Any other exception is raised by the attempt it occurs in.
    Tables and files are not touched. *)
Theorem get_db_connection_retries env w :
  ∃ k : nat,
    (k ≤ 4)%nat ∧
    (∀ j, (j < k)%nat → ∃ e, connect_raises env j = Some e ∧ locked e = true) ∧
    snd (get_db_connection env w) = add_events (retried k ++ [EvConnect]) w ∧
    length (filter (λ ev, ev = EvConnect) (retried k ++ [EvConnect])) = S k ∧
    filter (λ ev, ev ≠ EvConnect) (retried k ++ [EvConnect]) = replicate k (EvSleep 500) ∧
    match connect_raises env k with
    | None => fst (get_db_connection env w) = Ok Connection
    | Some e =>
        fst (get_db_connection env w) = Raise e ∧
        (locked e = true → k = 4%nat)
    end.
Proof.
  destruct (retry_connect_spec env (max_attempts - 0) 0 w) as (k & Hk & Hall & Hw & Hres);
    [done|unfold max_attempts; lia|].
  unfold max_attempts in *.
  exists k. replace (k - 0)%nat with k in Hw by lia.
  split; [lia|]. split; [intros j Hj; apply Hall; lia|]. split; [exact Hw|].
  split; [|split].
  - clear. induction k as [|k IH]; [done|].
    cbn [retried app]. rewrite filter_cons_True by done.
    rewrite filter_cons_False by done. cbn [length]. by rewrite IH.
  - clear. induction k as [|k IH]; [done|].
    cbn [retried app replicate]. rewrite filter_cons_False by (by intros []).
    rewrite filter_cons_True by done. by rewrite IH.
  - destruct (connect_raises env k); [|done].
    destruct Hres as [Hr Hl]. split; [done|]. intros H. specialize (Hl H). lia.
Qed.

Lemma connection_world env w :
  ∃ k, (get_db_connection env w).2 = add_events (retried k ++ [EvConnect]) w.
Proof.
  destruct (retry_connect_spec env (max_attempts - 0) 0 w) as (k & _ & _ & Hw & _);
    [done|unfold max_attempts; lia|].
  exists (k - 0)%nat. exact Hw.
Qed.

End Connection.

(** ** The directory tree *)

Section Tree.

Implicit Types fs : gmap (list string) Fs.node.

Lemma grows_refl fs : grows fs fs.
Proof. by split. Qed.

Lemma grows_trans fs1 fs2 fs3 : grows fs1 fs2 → grows fs2 fs3 → grows fs1 fs3.
Proof. intros [A B] [C D]. split; eauto. Qed.

Lemma grows_insert_dir fs l : fs !! l = None → grows fs (<[l := Fs.Dir]> fs).
Proof.
  intros Hl. split; intros l' H; destruct (decide (l = l')) as [<-|];
    rewrite ?lookup_insert_eq, ?lookup_insert_ne by done; done.
Qed.

Lemma grows_insert_file fs l content :
  fs !! l ≠ Some Fs.Dir → grows fs (<[l := Fs.File content]> fs).
Proof.
  intros Hl. split; intros l' H; destruct (decide (l = l')) as [<-|];
    rewrite ?lookup_insert_eq, ?lookup_insert_ne by done; try done.
Qed.

Lemma is_dir_grows fs fs' l : grows fs fs' → Fs.is_dir fs l = true → Fs.is_dir fs' l = true.
Proof.
  intros [Hd _]. unfold Fs.is_dir. destruct l; [done|].
  destruct (fs !! _) as [[]|] eqn:E; [|done..]. by rewrite (Hd _ E).
Qed.

Lemma present_grows fs fs' l : grows fs fs' → Fs.present fs l = true → Fs.present fs' l = true.
Proof.
  intros [_ Hp]. unfold Fs.present. destruct l; [done|].
  rewrite !bool_decide_eq_true. apply Hp.
Qed.

Lemma walk_grows fs fs' cur cs l :
  grows fs fs' → Fs.walk fs cur cs = Some l → Fs.walk fs' cur cs = Some l.
Proof.
  intros Hg. revert cur. induction cs as [|c cs IH]; intros cur; cbn [Fs.walk]; [done|].
  destruct (Fs.is_dir fs cur) eqn:E; [|done].
  rewrite (is_dir_grows _ _ _ Hg E). apply IH.
Qed.

Lemma exists_grows fs fs' path :
  grows fs fs' → os_path_exists fs path = true → os_path_exists fs' path = true.
Proof.
  intros Hg. unfold os_path_exists, Fs.resolve.
  destruct (Fs.walk fs _ _) as [l|] eqn:E; [|done].
  rewrite (walk_grows _ _ _ _ _ Hg E). by apply present_grows.
Qed.

Lemma mkdirs_grows fs cur cs : grows fs (Fs.mkdirs fs cur cs).2.
Proof.
  revert fs cur. induction cs as [|c cs IH]; intros fs cur; cbn [Fs.mkdirs];
    [apply grows_refl|].
  destruct (Fs.step cur c) as [|x next] eqn:Es; [apply IH|].
  destruct (fs !! (x :: next)) as [[]|] eqn:E.
  - apply IH.
  - apply grows_refl.
  - eapply grows_trans; [by apply grows_insert_dir|apply IH].
Qed.

Lemma makedirs_grows path fs : grows fs (os_makedirs_dirname path fs).2.
Proof.
  unfold os_makedirs_dirname.
  pose proof (mkdirs_grows fs [] (removelast (Text.split_slash path))) as H.
  by destruct (Fs.mkdirs _ _ _) as [[] ?].
Qed.

Lemma file_save_grows stream io path fs : grows fs (file_save stream io path fs).2.
Proof.
  unfold file_save.
  destruct (Fs.resolve fs path) as [[|c parent]|]; try apply grows_refl.
  destruct (fs !! (c :: parent)) as [[]|] eqn:E; try apply grows_refl;
    destruct io; try apply grows_refl; apply grows_insert_file; by rewrite E.
Qed.

Lemma file_save_exists stream io path fs fs' :
  file_save stream io path fs = (Ok (), fs') → os_path_exists fs' path = true.
Proof.
  intros H. pose proof (file_save_grows stream io path fs) as Hg.
  rewrite H in Hg. cbn in Hg.
  unfold file_save in H. unfold os_path_exists.
  destruct (Fs.resolve fs path) as [[|c parent]|] eqn:Er; try done.
  unfold Fs.resolve in *. rewrite (walk_grows _ _ _ _ _ Hg Er).
  destruct (fs !! (c :: parent)) as [[]|]; destruct io; try done;
    injection H as <-; cbn; by rewrite bool_decide_eq_true, lookup_insert_eq.
Qed.

Lemma shrinks_refl fs : shrinks fs fs.
Proof. by split. Qed.

Lemma shrinks_trans fs1 fs2 fs3 : shrinks fs1 fs2 → shrinks fs2 fs3 → shrinks fs1 fs3.
Proof.
  intros [A B] [C D]. split; intros l.
  - by rewrite C, A.
  - eauto.
Qed.

Lemma walk_shrinks fs fs' cur cs : shrinks fs fs' → Fs.walk fs' cur cs = Fs.walk fs cur cs.
Proof.
  intros [Hd _]. revert cur. induction cs as [|c cs IH]; intros cur; cbn [Fs.walk]; [done|].
  rewrite Hd. by rewrite IH.
Qed.

Lemma exists_shrinks fs fs' path :
  shrinks fs fs' → os_path_exists fs path = false → os_path_exists fs' path = false.
Proof.
  intros Hs. unfold os_path_exists, Fs.resolve. rewrite (walk_shrinks _ _ _ _ Hs).
  destruct (Fs.walk fs _ _) as [l|]; [|done].
  destruct Hs as [_ Hp]. specialize (Hp l).
  destruct (Fs.present fs' l); [|done]. intros E. rewrite Hp in E; done.
Qed.

Lemma unlink_shrinks refused path fs : shrinks fs (os_unlink refused path fs).2.
Proof.
  unfold os_unlink. destruct refused; [apply shrinks_refl|].
  destruct (Fs.resolve fs path) as [l|]; [|apply shrinks_refl].
  destruct (fs !! l) as [[]|] eqn:E; try apply shrinks_refl.
  cbn. split; intros l'.
  - unfold Fs.is_dir. destruct l'; [done|].
    destruct (decide (l = s :: l')) as [<-|].
    + by rewrite lookup_delete_eq, E.
    + by rewrite lookup_delete_ne.
  - unfold Fs.present. destruct l'; [done|].
    rewrite !bool_decide_eq_true. intros [x Hx].
    apply lookup_delete_Some in Hx as [_ Hx]. eauto.
Qed.

(** After a granted [os.unlink] of a path that exists and is no directory,
    the path does not exist. *)
Lemma unlink_removes path fs :
  os_path_exists fs path = true →
  (∀ l, Fs.resolve fs path = Some l → Fs.is_dir fs l = false) →
  (os_unlink false path fs).1 = Ok () ∧
  os_path_exists (os_unlink false path fs).2 path = false.
Proof.
  intros He Hnd. pose proof (unlink_shrinks false path fs) as Hs.
  unfold os_path_exists in *. unfold Fs.resolve in *.
  rewrite (walk_shrinks _ _ _ _ Hs).
  unfold os_unlink in *. unfold Fs.resolve in *.
  destruct (Fs.walk fs [] _) as [l|]; [|done].
  specialize (Hnd l eq_refl).
  destruct l as [|c parent]; [done|].
  cbn in He, Hnd. apply bool_decide_eq_true in He as [n Hn].
  rewrite Hn in *. destruct n; [done|].
  cbn. split; [done|]. rewrite bool_decide_eq_false, lookup_delete_eq.
  by intros [? ?].
Qed.

End Tree.

(** ** The upload loop *)

Ltac run :=
  unfold mbind, M_bind, mret, M_ret, raise, execute, query, commit, emit, on_disk,
    touching, try_except in *;
  cbn [conn outer durable disk trace intact fst snd log set_disk spoil] in *.

Section Uploads.

Variable BASE_DIR : string.

Lemma save_attachments_skip homework_id entry files saved :
  ¬ supplied entry →
  save_attachments BASE_DIR homework_id (entry :: files) saved =
  save_attachments BASE_DIR homework_id files saved.
Proof.
  destruct entry as [file obs]. unfold supplied. cbn [save_attachments fst].
  intros H. destruct (decide (FileStorage.filename file = "")); [done|].
  by destruct H.
Qed.

(** Entries without a filename leave no mark on the loop. *)
Lemma save_attachments_filter homework_id files saved s :
  save_attachments BASE_DIR homework_id files saved s =
  save_attachments BASE_DIR homework_id (filter supplied files) saved s.
Proof.
  revert saved s. induction files as [|entry files IH]; intros saved s; [done|].
  destruct (decide (supplied entry)) as [Hs|Hs].
  - rewrite filter_cons_True by done. destruct entry as [file obs].
    cbn [save_attachments]. unfold supplied in Hs. cbn [fst] in Hs.
    destruct (decide (FileStorage.filename file = "")); [done|].
    unfold mbind, M_bind.
    destruct (touching _ s) as [[]?]; [|done].
    destruct (on_disk _ s0) as [[]?]; [|done].
    destruct (touching _ s1) as [[]?]; [|done].
    destruct (on_disk _ s2) as [[]?]; [|done].
    destruct (emit _ s3) as [[]?]; [|done].
    destruct (execute _ s4) as [[]?]; [|done].
    by rewrite IH.
  - rewrite filter_cons_False by done. rewrite save_attachments_skip by done. apply IH.
Qed.

Lemma save_attachments_effect homework_id files saved s r s' :
  save_attachments BASE_DIR homework_id files saved s = (r, s') →
  durable (outer s') = durable (outer s) ∧
  grows (disk (outer s)) (disk (outer s')) ∧
  (∃ evs, trace (outer s') = trace (outer s) ++ evs ∧
          ∀ ev, ev ∈ evs →
                ∃ path, ev = EvSave path ∧ os_path_exists (disk (outer s')) path = true) ∧
  (∀ saved', r = Ok saved' →
             conn s' = record_uploads homework_id files (conn s) ∧
             saved' = saved ++ (saved_json <$> filter supplied files)).
Proof.
  revert saved s. induction files as [|entry files IH]; intros saved s E.
  - cbn [save_attachments] in E. run. simplify_eq.
    split; [done|]. split; [apply grows_refl|]. split.
    + exists []. split; [by rewrite app_nil_r|]. intros ev H. by apply elem_of_nil in H.
    + intros saved' [= <-]. by rewrite app_nil_r.
  - destruct (decide (supplied entry)) as [Hs|Hs].
    2:{ rewrite save_attachments_skip in E by done.
        unfold record_uploads. rewrite filter_cons_False by done. by apply IH. }
    unfold record_uploads. rewrite filter_cons_True by done. cbn [foldl fmap list_fmap].
    destruct entry as [file obs]. unfold supplied in Hs. cbn [fst] in Hs.
    cbn [save_attachments] in E.
    destruct (decide (FileStorage.filename file = "")); [done|].
    set (path := os_path_join (UPLOAD_FOLDER BASE_DIR) _) in E.
    run.
    pose proof (makedirs_grows path (disk (outer s))) as G1.
    destruct (os_makedirs_dirname path (disk (outer s))) as [[[]|e1] fs1]; cbn in G1; run.
    2:{ simplify_eq. cbn. split; [done|]. split; [done|]. split; [|done].
        exists []. split; [by rewrite app_nil_r|]. intros ev H. by apply elem_of_nil in H. }
    pose proof (file_save_grows (FileStorage.stream file) (io obs) path fs1) as G2.
    pose proof (file_save_exists (FileStorage.stream file) (io obs) path fs1) as X2.
    destruct (file_save (FileStorage.stream file) (io obs) path fs1) as [[[]|e2] fs2];
      cbn in G2; run.
    2:{ simplify_eq. cbn. split; [done|].
        split; [by eapply grows_trans|]. split; [|done].
        exists []. split; [by rewrite app_nil_r|]. intros ev H. by apply elem_of_nil in H. }
    specialize (X2 fs2 eq_refl).
    apply IH in E as (Hd & Hg & (evs & Ht & Hevs) & Hok). cbn in Hd, Hg, Ht.
    split; [done|]. split; [eauto using grows_trans|]. split.
    + exists (EvSave path :: evs). split; [by rewrite Ht, <-app_assoc|].
      intros ev [->|H]%elem_of_cons; [|by apply Hevs].
      exists path. split; [done|]. by eapply exists_grows.
    + intros saved' Hr. destruct (Hok saved' Hr) as [-> ->]. cbn.
      split; [done|]. by rewrite <-app_assoc.
Qed.

(** [file.save] returns only when the disk lets the write through. *)
Lemma file_save_returns stream io path fs fs' :
  file_save stream io path fs = (Ok (), fs') → io = IoOk.
Proof.
  unfold file_save. destruct (Fs.resolve fs path) as [[|c parent]|]; try done.
  destruct (fs !! (c :: parent)) as [[]|]; by destruct io.
Qed.

(** One [file.save] that the disk does not let through makes the loop
    raise, at that entry or before it. *)
Lemma save_attachments_raises homework_id files saved s :
  (∃ entry, entry ∈ files ∧ supplied entry ∧ io entry.2 ≠ IoOk) →
  ∃ e, (save_attachments BASE_DIR homework_id files saved s).1 = Raise e.
Proof.
  revert saved s. induction files as [|[file obs] files IH]; intros saved s (entry & Hin & Hs & Hio).
  { by apply elem_of_nil in Hin. }
  cbn [save_attachments].
  destruct (decide (FileStorage.filename file = "")) as [Hempty|Hname].
  { apply IH. exists entry. apply elem_of_cons in Hin as [->|Hin]; [done|by eauto]. }
  run.
  destruct (os_makedirs_dirname _ _) as [[[]|e1] fs1]; run; [|by eexists].
  destruct (file_save _ _ _ _) as [[[]|e2] fs2] eqn:Esave; run; [|by eexists].
  apply file_save_returns in Esave.
  apply IH. exists entry. apply elem_of_cons in Hin as [->|Hin]; [done|by eauto].
Qed.

End Uploads.

(** ** Create *)

Section Create.

Variable BASE_DIR : string.

Lemma required_fields_present data :
  has_required_fields data = true →
  ∃ time subject title content,
    data !! "time" = Some time ∧ data !! "subject" = Some subject ∧
    data !! "title" = Some title ∧ data !! "content" = Some content.
Proof.
  unfold has_required_fields, required_fields. cbn [forallb].
  rewrite !andb_true_iff, !bool_decide_eq_true.
  intros ([t Ht] & [s Hs] & [ti Hti] & [c Hc] & _). by exists t, s, ti, c.
Qed.

Lemma required_fields_missing data field :
  field ∈ required_fields → data !! field = None → has_required_fields data = false.
Proof.
  intros Hin Hnone. unfold has_required_fields.
  apply not_true_is_false. rewrite forallb_forall. intros H.
  specialize (H field). rewrite bool_decide_eq_true, Hnone in H.
  destruct H as [? ?]; [|done]. by apply list_elem_of_In.
Qed.

Lemma add_homework_run env data files w w1 time subject title content :
  data !! "time" = Some time → data !! "subject" = Some subject →
  data !! "title" = Some title → data !! "content" = Some content →
  get_db_connection env w = (Ok Connection, w1) →
  add_homework BASE_DIR env data files w =
    let inserted :=
      Sql.insert_homework (current_timestamp env) time subject title content (durable w1) in
    match save_attachments BASE_DIR inserted.1 files []
            {| conn := inserted.2; outer := w1 |} with
    | (Ok saved, s) =>
        ({| status := 201; body := Saved inserted.1 saved |},
         log EvClose (log EvCommit {| durable := conn s; disk := disk (outer s);
                                      trace := trace (outer s); intact := intact (outer s) |}))
    | (Raise _, s) => ({| status := 500; body := Error |}, log EvClose (outer s))
    end.
Proof.
  intros Ht Hs Hti Hc Hconn. unfold add_homework.
  assert (has_required_fields data = true) as ->.
  { unfold has_required_fields, required_fields. cbn [forallb].
    rewrite Ht, Hs, Hti, Hc. done. }
  cbn [negb]. rewrite Hconn.
  unfold guarded, add_homework_try, field. rewrite Ht, Hs, Hti, Hc.
  unfold connected, close. run. cbn zeta.
  destruct (Sql.insert_homework _ _ _ _ _ _) as [rowid db]. cbn [fst snd].
  destruct (save_attachments _ _ _ _ _) as [[saved|e] s]; done.
Qed.

(** C1, as the code has it: a create request in which one of [time],
    [subject], [title], [content] is missing is answered with 400, before a
    connection is opened: no row is inserted, no file is written, the world
    is as it was. (A field that is there with the empty string passes.) *)
Theorem create_with_missing_field_is_rejected env data files w field :
  field ∈ required_fields → data !! field = None →
  add_homework BASE_DIR env data files w = ({| status := 400; body := Error |}, w).
Proof.
  intros Hin Hnone. unfold add_homework.
  by rewrite (required_fields_missing _ _ Hin Hnone).
Qed.

(** C2, as the code has it: in a create request with its four fields and
    a connection, one [file.save] that fails is answered with 500, at the
    entry it belongs to or at an earlier one that failed. And when the
    answer is 500, whatever in the loop raised, nothing was committed: the
    tables are as before the call, without the homework row and without the
    attachment rows of the call, while the files the call had saved before
    stay: nothing is unlinked, and every path saved is still there at the
    end. This is said of calls that leave SQLite's own files alone. *)
Theorem failed_create_discards_rows_keeps_files env data files w :
  has_required_fields data = true →
  (get_db_connection env w).1 = Ok Connection →
  intact (add_homework BASE_DIR env data files w).2 = true →
  ((∃ entry, entry ∈ files ∧ supplied entry ∧ io entry.2 ≠ IoOk) →
   status (add_homework BASE_DIR env data files w).1 = 500) ∧
  (status (add_homework BASE_DIR env data files w).1 = 500 →
   durable (add_homework BASE_DIR env data files w).2 = durable w ∧
   grows (disk w) (disk (add_homework BASE_DIR env data files w).2) ∧
   ∃ evs,
     trace (add_homework BASE_DIR env data files w).2 = trace w ++ evs ∧
     (EvCommit ∉ evs) ∧
     (∀ path, EvUnlink path ∉ evs) ∧
     (∀ path, EvSave path ∈ evs →
              os_path_exists (disk (add_homework BASE_DIR env data files w).2) path = true)).
Proof.
  intros Hreq Hconn _.
  destruct (required_fields_present _ Hreq) as (t & su & ti & c & Ht & Hsu & Hti & Hc).
  destruct (connection_world env w) as [k Hw].
  destruct (get_db_connection env w) as [r w1] eqn:Eg. cbn in Hconn, Hw. subst r w1.
  rewrite (add_homework_run _ _ _ _ _ _ _ _ _ Ht Hsu Hti Hc Eg) in *.
  cbn zeta in *.
  split.
  { intros Hfails.
    match goal with |- context [save_attachments ?b ?i ?f ?a ?s0] =>
      destruct (save_attachments_raises b i f a s0 Hfails) as [e He];
      destruct (save_attachments b i f a s0) as [res s']
    end.
    cbn in He. by subst res. }
  intros H500.
  destruct (save_attachments _ _ _ _ _) as [[saved|e] s] eqn:Es; [done|].
  apply save_attachments_effect in Es as (Hd & Hg & (evs & Htr & Hevs) & _).
  cbn in Hd, Hg, Htr |- *.
  split; [done|]. split; [done|].
  exists (retried k ++ [EvConnect] ++ evs ++ [EvClose]).
  split; [rewrite Htr; by rewrite <-!app_assoc|].
  assert (∀ ev, ev ∈ retried k → ev = EvConnect ∨ ev = EvSleep 500) as Hretried.
  { clear. induction k as [|k IH]; cbn; intros ev H; [by apply elem_of_nil in H|].
    apply elem_of_cons in H as [->|H]; [by left|].
    apply elem_of_cons in H as [->|H]; [by right|]. by apply IH. }
  assert (∀ ev, ev ∈ retried k ++ [EvConnect] ++ evs ++ [EvClose] →
                ev ∈ evs ∨ ev = EvConnect ∨ ev = EvSleep 500 ∨ ev = EvClose) as Hcases.
  { intros ev. rewrite !elem_of_app, !list_elem_of_singleton.
    intros [H|[H|[H|H]]]; auto. destruct (Hretried _ H); auto. }
  split; [|split].
  - intros H. destruct (Hcases _ H) as [H'|[H'|[H'|H']]]; try done.
    by destruct (Hevs _ H') as (? & ? & _).
  - intros path H. destruct (Hcases _ H) as [H'|[H'|[H'|H']]]; try done.
    by destruct (Hevs _ H') as (? & ? & _).
  - intros path H. destruct (Hcases _ H) as [H'|[H'|[H'|H']]]; try done.
    destruct (Hevs _ H') as (p & [= <-] & Hx). done.
Qed.

Lemma add_homework_filter env data files w :
  add_homework BASE_DIR env data files w =
  add_homework BASE_DIR env data (filter supplied files) w.
Proof.
  unfold add_homework. destruct (negb _); [done|].
  destruct (get_db_connection env w) as [[[]|] w1]; try done.
  unfold guarded, add_homework_try, mbind, M_bind.
  destruct (field data "time" _) as [[]?]; [|done].
  destruct (field data "subject" _) as [[]?]; [|done].
  destruct (field data "title" _) as [[]?]; [|done].
  destruct (field data "content" _) as [[]?]; [|done].
  destruct (Sql.insert_homework _ _ _ _ _ _) as [rowid db].
  by rewrite save_attachments_filter.
Qed.

End Create.

(** ** Update and delete *)

Section UpdateDelete.

Variable BASE_DIR : string.

Lemma select_homework_None id db :
  (∀ hw, hw ∈ homeworks db → Homework.id hw ≠ id) → Sql.select_homework id db = None.
Proof.
  unfold Sql.select_homework. induction (homeworks db) as [|hw l IH]; intros H; [done|].
  rewrite filter_cons_False by (apply H; left).
  apply IH. intros hw' Hin. apply H. by right.
Qed.

Lemma select_homework_Some id db hw :
  Sql.select_homework id db = Some hw → hw ∈ homeworks db ∧ Homework.id hw = id.
Proof.
  unfold Sql.select_homework. intros H.
  assert (hw ∈ filter (λ hw, Homework.id hw = id) (homeworks db)) as Hin.
  { destruct (filter _ _); [done|]. injection H as ->. left. }
  by apply list_elem_of_filter in Hin as [? ?].
Qed.

Lemma update_homework_run env id data files w w1 time subject title content :
  data !! "time" = Some time → data !! "subject" = Some subject →
  data !! "title" = Some title → data !! "content" = Some content →
  get_db_connection env w = (Ok Connection, w1) →
  update_homework BASE_DIR env id data files w =
    if decide (id < 2 ^ 63) then
      match Sql.select_homework id (durable w1) with
      | None => ({| status := 404; body := Error |}, log EvClose w1)
      | Some _ =>
          match save_attachments BASE_DIR id files []
                  {| conn := Sql.update_homework id time subject title content (durable w1);
                     outer := w1 |} with
          | (Ok saved, s) =>
              ({| status := 200; body := Saved id saved |},
               log EvClose (log EvCommit {| durable := conn s; disk := disk (outer s);
                                            trace := trace (outer s);
                                            intact := intact (outer s) |}))
          | (Raise _, s) => ({| status := 500; body := Error |}, log EvClose (outer s))
          end
      end
    else ({| status := 500; body := Error |}, log EvClose w1).
Proof.
  intros Ht Hs Hti Hc Hconn. unfold update_homework.
  assert (has_required_fields data = true) as ->.
  { unfold has_required_fields, required_fields. cbn [forallb].
    rewrite Ht, Hs, Hti, Hc. done. }
  cbn [negb]. rewrite Hconn.
  unfold guarded, update_homework_try, connected, close, bind_integer.
  destruct (decide (id < 2 ^ 63)); run; [|done].
  destruct (Sql.select_homework id (durable w1)); [|done].
  unfold field. rewrite Ht, Hs, Hti, Hc. run.
  destruct (save_attachments _ _ _ _ _) as [[saved|e] s]; done.
Qed.

Lemma update_homework_filter env id data files w :
  update_homework BASE_DIR env id data files w =
  update_homework BASE_DIR env id data (filter supplied files) w.
Proof.
  unfold update_homework. destruct (negb _); [done|].
  destruct (get_db_connection env w) as [[[]|] w1]; try done.
  unfold guarded, update_homework_try, mbind, M_bind.
  destruct (bind_integer id _) as [[]?]; [|done].
  destruct (query _ _) as [[[hw|]|]?]; try done.
  destruct (field data "time" _) as [[]?]; [|done].
  destruct (field data "subject" _) as [[]?]; [|done].
  destruct (field data "title" _) as [[]?]; [|done].
  destruct (field data "content" _) as [[]?]; [|done].
  destruct (execute _ _) as [[]?]; [|done].
  by rewrite save_attachments_filter.
Qed.

Lemma unlink_attachments_cons env att atts s :
  unlink_attachments BASE_DIR env (att :: atts) s =
  unlink_attachments BASE_DIR env atts (after_unlink BASE_DIR env att s).
Proof.
  cbn [unlink_attachments]. unfold after_unlink. run.
  destruct s as [c [d f t i]]. cbn.
  destruct (os_path_exists f _); [|done].
  by destruct (os_unlink _ _ _) as [[[]|] ?].
Qed.

Lemma after_unlink_effect env att s :
  let path := os_path_join (UPLOAD_FOLDER BASE_DIR) (Attachment.filepath att) in
  conn (after_unlink BASE_DIR env att s) = conn s ∧
  durable (outer (after_unlink BASE_DIR env att s)) = durable (outer s) ∧
  shrinks (disk (outer s)) (disk (outer (after_unlink BASE_DIR env att s))) ∧
  (∃ evs, trace (outer (after_unlink BASE_DIR env att s)) = trace (outer s) ++ evs ∧
          ∀ ev, ev ∈ evs → ev = EvUnlink path) ∧
  (unlink_refused env path = false →
   (∀ l, Fs.resolve (disk (outer s)) path = Some l → Fs.is_dir (disk (outer s)) l = false) →
   os_path_exists (disk (outer (after_unlink BASE_DIR env att s))) path = false).
Proof.
  intros path. unfold after_unlink. fold path.
  destruct (os_path_exists (disk (outer s)) path) eqn:Hx; cbn.
  - split; [done|]. split; [done|]. split; [apply unlink_shrinks|]. split.
    + exists [EvUnlink path]. split; [done|].
      by intros ev ->%list_elem_of_singleton.
    + intros -> Hfile. by apply unlink_removes.
  - split; [done|]. split; [done|]. split; [apply shrinks_refl|]. split; [|done].
    exists []. split; [by rewrite app_nil_r|]. intros ev H. by apply elem_of_nil in H.
Qed.

(** The loop over the attachments of a deleted homework. *)
Lemma unlink_attachments_effect env atts s :
  (unlink_attachments BASE_DIR env atts s).1 = Ok () ∧
  conn (unlink_attachments BASE_DIR env atts s).2 = conn s ∧
  durable (outer (unlink_attachments BASE_DIR env atts s).2) = durable (outer s) ∧
  shrinks (disk (outer s)) (disk (outer (unlink_attachments BASE_DIR env atts s).2)) ∧
  (∃ evs,
     trace (outer (unlink_attachments BASE_DIR env atts s).2) = trace (outer s) ++ evs ∧
     ∀ ev, ev ∈ evs → ∃ path, ev = EvUnlink path) ∧
  (∀ att, att ∈ atts →
     let path := os_path_join (UPLOAD_FOLDER BASE_DIR) (Attachment.filepath att) in
     unlink_refused env path = false →
     (∀ l, Fs.resolve (disk (outer s)) path = Some l → Fs.is_dir (disk (outer s)) l = false) →
     os_path_exists (disk (outer (unlink_attachments BASE_DIR env atts s).2)) path = false).
Proof.
  revert s. induction atts as [|att atts IH]; intros s.
  - cbn [unlink_attachments]. run.
    split; [done|]. split; [done|]. split; [done|]. split; [apply shrinks_refl|]. split.
    + exists []. split; [by rewrite app_nil_r|]. intros ev H. by apply elem_of_nil in H.
    + intros att H. by apply elem_of_nil in H.
  - rewrite unlink_attachments_cons.
    destruct (after_unlink_effect env att s) as (Hc1 & Hd1 & Hs1 & (evs1 & Ht1 & Hevs1) & Hx1).
    destruct (IH (after_unlink BASE_DIR env att s))
      as (Hr & Hc & Hd & Hs & (evs & Ht & Hevs) & Hfiles).
    split; [done|]. split; [congruence|]. split; [congruence|].
    split; [by eapply shrinks_trans|]. split.
    + exists (evs1 ++ evs). split; [by rewrite Ht, Ht1, <-app_assoc|].
      intros ev [H|H]%elem_of_app; [|by apply Hevs]. eauto.
    + intros att' [->|Hin]%elem_of_cons; cbn zeta; intros Hgranted Hfile.
      * eapply exists_shrinks; [done|]. by apply Hx1.
      * apply (Hfiles att' Hin Hgranted).
        intros l. unfold Fs.resolve. rewrite (walk_shrinks _ _ _ _ Hs1).
        destruct Hs1 as [-> _]. apply Hfile.
Qed.

Lemma delete_homework_run env id w w1 :
  get_db_connection env w = (Ok Connection, w1) →
  delete_homework BASE_DIR env id w =
    if decide (id < 2 ^ 63) then
      ({| status := 200; body := Message |},
       log EvClose
         (outer (unlink_attachments BASE_DIR env (Sql.select_attachments_of id (durable w1))
                   {| conn := Sql.delete_homework id
                                (Sql.delete_attachments_of id (durable w1));
                      outer := log EvCommit
                        {| durable := Sql.delete_homework id
                                        (Sql.delete_attachments_of id (durable w1));
                           disk := disk w1; trace := trace w1;
                           intact := intact w1 |} |}).2))
    else ({| status := 500; body := Error |}, log EvClose w1).
Proof.
  intros Hconn. unfold delete_homework. rewrite Hconn.
  unfold guarded, delete_homework_try, connected, close, bind_integer.
  destruct (decide (id < 2 ^ 63)); run; [|done].
  match goal with |- context [unlink_attachments ?b ?e ?a ?s] =>
    pose proof (unlink_attachments_effect e a s) as (Hr & _);
    destruct (unlink_attachments b e a s) as [r s']
  end.
  cbn in Hr. by subst r.
Qed.

End UpdateDelete.

(** ** The listing *)

Section Listing.

#[local] Instance newer_first_trans : Transitive Sql.newer_first.
Proof. unfold Sql.newer_first. intros a b c. lia. Qed.

#[local] Instance newer_first_total : Total Sql.newer_first.
Proof. unfold Sql.newer_first. intros a b. lia. Qed.


Lemma group_homework_lookup atts (data : gmap string (list HomeworkJson.t)) hw s :
  group_homework atts data hw !! s =
    if decide (Homework.subject hw = s)
    then Some (default [] (data !! s) ++ [homework_json atts hw])
    else data !! s.
Proof.
  unfold group_homework. rewrite lookup_alter.
  destruct (decide (Homework.subject hw = s)) as [->|Hne].
  - case_bool_decide as Hs.
    + destruct Hs as [l ->]. done.
    + rewrite lookup_insert_eq. apply eq_None_not_Some in Hs. by rewrite Hs.
  - case_bool_decide; [done|]. by rewrite lookup_insert_ne.
Qed.

Lemma groups_lookup atts l (data : gmap string (list HomeworkJson.t)) s :
  default [] (foldl (group_homework atts) data l !! s) =
    default [] (data !! s) ++
    (homework_json atts <$> filter (λ hw, Homework.subject hw = s) l).
Proof.
  revert data. induction l as [|hw l IH]; intros data; cbn [foldl].
  - by rewrite app_nil_r.
  - rewrite IH, group_homework_lookup.
    destruct (decide (Homework.subject hw = s)).
    + rewrite filter_cons_True by done. cbn. by rewrite <-app_assoc.
    + by rewrite filter_cons_False.
Qed.


Lemma get_homeworks_run env w w1 :
  get_db_connection env w = (Ok Connection, w1) →
  get_homeworks env w =
    ({| status := 200;
        body := Homeworks (foldl (group_homework (attachments (durable w1))) ∅
                             (Sql.select_homeworks_newest_first (durable w1))) |},
     log EvClose w1).
Proof. intros H. unfold get_homeworks. by rewrite H. Qed.


End Listing.

(** ** Unknown ids, delete, and skipped entries *)

Section Requests.

Variable BASE_DIR : string.

Lemma filter_all {A} (P : A → Prop) `{∀ x, Decision (P x)} (l : list A) :
  (∀ x, x ∈ l → P x) → filter P l = l.
Proof.
  induction l as [|x l IH]; intros Hall; [done|].
  rewrite filter_cons_True by (apply Hall; left).
  f_equal. apply IH. intros y Hy. apply Hall. by right.
Qed.

Lemma filter_none {A} (P : A → Prop) `{∀ x, Decision (P x)} (l : list A) :
  (∀ x, x ∈ l → ¬ P x) → filter P l = [].
Proof.
  induction l as [|x l IH]; intros Hall; [done|].
  rewrite filter_cons_False by (apply Hall; left).
  apply IH. intros y Hy. apply Hall. by right.
Qed.

(** C3, as the code has it: for an id that no homework row has and that
    SQLite can hold (an id below 2^63), an update request with its four
    fields and a connection is answered with 404 and leaves tables and files
    as they were; a delete request is not refused: it is answered with 200,
    and leaves tables and files as they were when no attachment row refers
    to the id. An id from 2^63 on, which no row has, cannot be bound to the
    first statement: update (with its four fields) and delete are answered
    with 500, and tables and files are as they were. Without the four fields
    an update is answered with 400 before the id is looked at. *)
Theorem unknown_id_update_404_delete_200 env id data files w :
  (∀ hw, hw ∈ homeworks (durable w) → Homework.id hw ≠ id) →
  (get_db_connection env w).1 = Ok Connection →
  (id < 2 ^ 63 →
     (has_required_fields data = true →
        (update_homework BASE_DIR env id data files w).1 =
          {| status := 404; body := Error |} ∧
        durable (update_homework BASE_DIR env id data files w).2 = durable w ∧
        disk (update_homework BASE_DIR env id data files w).2 = disk w) ∧
     ((∀ att, att ∈ attachments (durable w) → Attachment.homework_id att ≠ id) →
        (delete_homework BASE_DIR env id w).1 = {| status := 200; body := Message |} ∧
        durable (delete_homework BASE_DIR env id w).2 = durable w ∧
        disk (delete_homework BASE_DIR env id w).2 = disk w)) ∧
  (2 ^ 63 ≤ id →
     (has_required_fields data = true →
        (update_homework BASE_DIR env id data files w).1 =
          {| status := 500; body := Error |} ∧
        durable (update_homework BASE_DIR env id data files w).2 = durable w ∧
        disk (update_homework BASE_DIR env id data files w).2 = disk w) ∧
     ((delete_homework BASE_DIR env id w).1 = {| status := 500; body := Error |} ∧
      durable (delete_homework BASE_DIR env id w).2 = durable w ∧
      disk (delete_homework BASE_DIR env id w).2 = disk w)) ∧
  (has_required_fields data = false →
     update_homework BASE_DIR env id data files w = ({| status := 400; body := Error |}, w)).
Proof.
  intros Habsent Hconn.
  destruct (connection_world env w) as [k Hw].
  destruct (get_db_connection env w) as [r w1] eqn:Eg. cbn in Hconn, Hw. subst r.
  assert (durable w1 = durable w ∧ disk w1 = disk w) as [Hd Hf] by by subst w1.
  split; [|split].
  - intros Hid. split.
    + intros Hreq.
      destruct (required_fields_present _ Hreq) as (t & su & ti & c & Ht & Hsu & Hti & Hc).
      rewrite (update_homework_run _ _ _ _ _ _ _ _ _ _ _ Ht Hsu Hti Hc Eg).
      rewrite decide_True by done.
      rewrite Hd, (select_homework_None _ _ Habsent). done.
    + intros Hnone. rewrite (delete_homework_run _ _ _ _ _ Eg).
      rewrite decide_True by done. rewrite Hd.
      split; [done|].
      assert (Sql.select_attachments_of id (durable w) = []) as ->.
      { apply filter_none. intros att Hin. by apply Hnone. }
      cbn [unlink_attachments]. run. split; [|done].
      unfold Sql.delete_homework, Sql.delete_attachments_of. cbn.
      rewrite !filter_all by done. by destruct (durable w).
  - intros Hid. split.
    + intros Hreq.
      destruct (required_fields_present _ Hreq) as (t & su & ti & c & Ht & Hsu & Hti & Hc).
      rewrite (update_homework_run _ _ _ _ _ _ _ _ _ _ _ Ht Hsu Hti Hc Eg).
      by rewrite decide_False by lia.
    + rewrite (delete_homework_run _ _ _ _ _ Eg). by rewrite decide_False by lia.
  - intros Hreq. unfold update_homework. by rewrite Hreq.
Qed.

(** C4, as the code has it: with a connection, a delete request for an id
    that SQLite can hold (below 2^63, as the id of every row is) is
    answered with 200; the homework row with the id and the attachment rows
    that refer to it are gone from the committed tables; the commit comes
    before the first [os.unlink]; a later listing has no homework with the
    id; and [uploaded_file], called with a stored name of the homework
    afterwards, answers 404 when the [os.unlink] of its path was not refused
    and the path was no directory. (A refused [os.unlink] is passed over: the file stays
    and the answer is 200 all the same.) *)
Theorem delete_commits_rows_then_unlinks_files env id w :
  id < 2 ^ 63 →
  (get_db_connection env w).1 = Ok Connection →
  (delete_homework BASE_DIR env id w).1 = {| status := 200; body := Message |} ∧
  homeworks (durable (delete_homework BASE_DIR env id w).2) =
    filter (λ hw, Homework.id hw ≠ id) (homeworks (durable w)) ∧
  attachments (durable (delete_homework BASE_DIR env id w).2) =
    filter (λ att, Attachment.homework_id att ≠ id) (attachments (durable w)) ∧
  (∃ before after,
     trace (delete_homework BASE_DIR env id w).2 = trace w ++ before ++ [EvCommit] ++ after ∧
     (∀ path, EvUnlink path ∉ before) ∧
     (∀ ev, ev ∈ after → ev = EvClose ∨ ∃ path, ev = EvUnlink path)) ∧
  (∀ att, att ∈ attachments (durable w) → Attachment.homework_id att = id →
     let path := os_path_join (UPLOAD_FOLDER BASE_DIR) (Attachment.filepath att) in
     unlink_refused env path = false →
     (∀ l, Fs.resolve (disk w) path = Some l → Fs.is_dir (disk w) l = false) →
     (uploaded_file BASE_DIR (Attachment.filepath att) (delete_homework BASE_DIR env id w).2).1
       = {| status := 404; body := Error |}) ∧
  (∀ env', (get_db_connection env' (delete_homework BASE_DIR env id w).2).1 = Ok Connection →
     ∃ data,
       (get_homeworks env' (delete_homework BASE_DIR env id w).2).1 =
         {| status := 200; body := Homeworks data |} ∧
       ∀ s h, h ∈ default [] (data !! s) → HomeworkJson.id h ≠ id).
Proof.
  intros Hbound Hconn.
  destruct (connection_world env w) as [k Hw].
  destruct (get_db_connection env w) as [r w1] eqn:Eg. cbn in Hconn, Hw. subst r.
  assert (durable w1 = durable w ∧ disk w1 = disk w) as [Hd Hf] by by subst w1.
  rewrite (delete_homework_run _ _ _ _ _ Eg). rewrite decide_True by done. rewrite Hd, Hf.
  match goal with |- context [unlink_attachments ?b ?e ?a ?s] =>
    destruct (unlink_attachments_effect b e a s)
      as (_ & _ & Hdur & Hshr & (evs & Htr & Hevs) & Hfiles);
    set (s' := (unlink_attachments b e a s).2) in *
  end.
  cbn in Hdur, Hshr, Htr, Hfiles. cbn [fst snd log durable disk trace].
  split; [done|]. rewrite Hdur. split; [done|]. split; [done|].
  assert (∀ ev, ev ∈ retried k → ev = EvConnect ∨ ev = EvSleep 500) as Hretried.
  { clear. induction k as [|k IH]; cbn; intros ev H; [by apply elem_of_nil in H|].
    apply elem_of_cons in H as [->|H]; [by left|].
    apply elem_of_cons in H as [->|H]; [by right|]. by apply IH. }
  split; [|split].
  - exists (retried k ++ [EvConnect]), (evs ++ [EvClose]). split; [|split].
    + rewrite Htr. subst w1. cbn. by rewrite <-!app_assoc.
    + intros path [H|H]%elem_of_app.
      * by destruct (Hretried _ H).
      * by apply list_elem_of_singleton in H.
    + intros ev [H|H]%elem_of_app; [right; by apply Hevs|].
      left. by apply list_elem_of_singleton in H.
  - intros att Hin Hid Hgranted Hfile.
    unfold uploaded_file. cbn [disk log].
    rewrite (Hfiles att); [done| |done|done].
    by apply list_elem_of_filter.
  - intros env' Hconn'.
    destruct (connection_world env' (log EvClose (outer s'))) as [k' Hw'].
    destruct (get_db_connection env' _) as [r' w2] eqn:Eg'. cbn in Hconn', Hw'. subst r'.
    rewrite (get_homeworks_run _ _ _ Eg'). eexists. split; [done|].
    intros s h. rewrite groups_lookup, lookup_empty. cbn.
    intros (hw & -> & [_ Hin]%list_elem_of_filter)%list_elem_of_fmap.
    unfold Sql.select_homeworks_newest_first in Hin.
    rewrite merge_sort_Permutation in Hin.
    subst w2. cbn in Hin. rewrite Hdur in Hin. cbn in Hin.
    by apply list_elem_of_filter in Hin as [? _].
Qed.

(** C8: in a create and in an update request, an upload entry whose
    filename is the empty string is skipped: the response and the world, with
    tables, files and effects, are those of the same request without the
    entry, so the entry makes no attachment row, writes nothing and fails
    nothing. The same holds for all such entries of a request together. *)
Theorem entries_without_filename_are_skipped env id data pre stream obs post w :
  let entry := ({| FileStorage.filename := ""; FileStorage.stream := stream |}, obs) in
  add_homework BASE_DIR env data (pre ++ entry :: post) w =
    add_homework BASE_DIR env data (pre ++ post) w ∧
  update_homework BASE_DIR env id data (pre ++ entry :: post) w =
    update_homework BASE_DIR env id data (pre ++ post) w ∧
  (∀ files, add_homework BASE_DIR env data files w =
            add_homework BASE_DIR env data (filter supplied files) w) ∧
  (∀ files, update_homework BASE_DIR env id data files w =
            update_homework BASE_DIR env id data (filter supplied files) w).
Proof.
  intros entry.
  assert (filter supplied (pre ++ entry :: post) = filter supplied (pre ++ post)) as Hf.
  { by rewrite !filter_app. }
  split; [|split; [|split]].
  - by rewrite add_homework_filter, Hf, <-add_homework_filter.
  - by rewrite update_homework_filter, Hf, <-update_homework_filter.
  - intros files. apply add_homework_filter.
  - intros files. apply update_homework_filter.
Qed.

End Requests.

(** ** Download *)

Section Download.

Implicit Types fs : gmap (list string) Fs.node.

Lemma append_cons x (a b : string) : String x a +:+ b = String x (a +:+ b).
Proof. reflexivity. Qed.

Lemma append_assoc (a b c : string) : (a +:+ b) +:+ c = a +:+ b +:+ c.
Proof. induction a as [|x a IH]; [done|]. rewrite !append_cons. by f_equal. Qed.

Lemma split_from_slash cur (a b : string) :
  Text.split_from cur (a +:+ String "/" b) =
  Text.split_from cur a ++ Text.split_from "" b.
Proof.
  revert cur. induction a as [|x a IH]; intros cur; [done|].
  rewrite append_cons. cbn [Text.split_from].
  destruct (Ascii.eqb x "/"); [|apply IH]. cbn [app]. by rewrite IH.
Qed.

Lemma split_from_plain cur (name : string) :
  Text.occurs "/" name = false → Text.split_from cur name = [cur +:+ name].
Proof.
  revert cur. induction name as [|x name IH]; intros cur; cbn [Text.occurs Text.split_from].
  - intros _. f_equal. induction cur as [|y cur IHc]; [done|].
    rewrite append_cons. by rewrite <-IHc.
  - intros [Hx Hn]%orb_false_iff. rewrite Ascii.eqb_sym, Hx.
    rewrite IH by done. by rewrite append_assoc.
Qed.

Lemma walk_app fs cur (a b : list string) l :
  Fs.walk fs cur a = Some l → Fs.walk fs cur (a ++ b) = Fs.walk fs l b.
Proof.
  revert cur. induction a as [|c a IH]; intros cur; cbn [Fs.walk app].
  - by intros [= ->].
  - destruct (Fs.is_dir fs cur); [apply IH|done].
Qed.

Lemma ends_with_slash_app (a b : string) :
  b ≠ "" → Text.ends_with_slash (a +:+ b) = Text.ends_with_slash b.
Proof.
  intros Hb. induction a as [|x a IH]; [done|].
  rewrite append_cons. cbn [Text.ends_with_slash].
  destruct (a +:+ b) eqn:E; [|done].
  destruct a; [done|discriminate].
Qed.

Lemma join_relative (a b : string) :
  a ≠ "" → Text.ends_with_slash a = false → Text.starts_with_slash b = false →
  os_path_join a b = a +:+ String "/" b.
Proof.
  intros Ha Hs Hb. unfold os_path_join. rewrite Hb, Hs.
  by rewrite bool_decide_eq_false_2.
Qed.

Lemma normpath_parent_of_plain (name : string) :
  Text.occurs "/" name = false → name ≠ "" → name ≠ "." → name ≠ ".." →
  normpath ("../" +:+ name) = "../" +:+ name.
Proof.
  intros Hplain Hn1 Hn2 Hn3. unfold normpath, Text.split_slash.
  change ("../" +:+ name) with (String "." (String "." (String "/" name))).
  rewrite decide_False by done.
  change (Text.split_from "" (String "." (String "." (String "/" name))))
    with (".." :: Text.split_from "" name).
  rewrite split_from_plain by done. change ("" +:+ name) with name.
  change (Text.starts_with_slash (String "." (String "." (String "/" name)))) with false.
  change (String.prefix "//" (String "." (String "." (String "/" name)))) with false.
  cbn [normpath_loop andb].
  rewrite (decide_False (P := ".." = "" ∨ ".." = ".")) by (by intros [|]).
  rewrite (decide_True (P := ".." ≠ ".." ∨ _)) by (right; by left).
  rewrite (decide_False (P := name = "" ∨ name = ".")) by (by intros [|]).
  rewrite (decide_True (P := name ≠ ".." ∨ _)) by (by left).
  cbn [app Text.join_slash]. by rewrite decide_False.
Qed.

(** C10, as the code has it: [uploaded_file] joins the requested name onto
    the upload folder and serves what the path names: with the directory of
    [app.py] at [B] and [uploads] in it, the call for ["../" ++ name] is
    answered with the bytes of the file [name] that lies next to [uploads],
    not in it. No request is answered by [uploaded_file], though: the rule
    belongs to the static view, which refuses a name whose normal form
    begins with [..], and the request for ["../" ++ name] is answered with
    404. *)
Theorem uploaded_file_is_unchecked_but_not_routed
    (BASE_DIR : string) (w : world) (B : list string) (name : string)
    (content : list Byte.byte) :
  BASE_DIR ≠ "" → Text.ends_with_slash BASE_DIR = false →
  Fs.resolve (disk w) BASE_DIR = Some B →
  Fs.is_dir (disk w) B = true →
  Fs.is_dir (disk w) ("uploads" :: B) = true →
  Text.occurs "/" name = false → name ≠ "" → name ≠ "." → name ≠ ".." →
  disk w !! (name :: B) = Some (Fs.File content) →
  uploaded_file BASE_DIR ("../" +:+ name) w =
    ({| status := 200; body := Download content |}, w) ∧
  Fs.resolve (disk w) (UPLOAD_FOLDER BASE_DIR) = Some ("uploads" :: B) ∧
  ¬ ("uploads" :: B) `suffix_of` (name :: B) ∧
  dispatch BASE_DIR (GetUpload ("../" +:+ name)) w = ({| status := 404; body := Error |}, w).
Proof.
  intros Hne Hslash HB HdB Hdu Hplain Hn1 Hn2 Hn3 Hfile.
  assert (UPLOAD_FOLDER BASE_DIR = BASE_DIR +:+ String "/" "uploads") as Hup.
  { unfold UPLOAD_FOLDER. by apply join_relative. }
  assert (Fs.step B name = name :: B) as Hstep.
  { unfold Fs.step. rewrite decide_False by (by intros [|]). by rewrite decide_False. }
  assert (Fs.resolve (disk w) (os_path_join (UPLOAD_FOLDER BASE_DIR) ("../" +:+ name)) =
          Some (name :: B)) as Hres.
  { rewrite join_relative; [| | |done].
    2:{ rewrite Hup. by destruct BASE_DIR. }
    2:{ rewrite Hup. by rewrite ends_with_slash_app. }
    rewrite Hup.
    replace ((BASE_DIR +:+ "/uploads") +:+ String "/" ("../" +:+ name))
      with (BASE_DIR +:+ String "/" ("uploads/../" +:+ name))
      by (by rewrite append_assoc).
    unfold Fs.resolve, Text.split_slash in *.
    rewrite split_from_slash, (walk_app _ _ _ _ _ HB).
    change (Text.split_from "" ("uploads/../" +:+ name))
      with ("uploads" :: ".." :: Text.split_from "" name).
    rewrite split_from_plain by done. change ("" +:+ name) with name.
    cbn [Fs.walk]. rewrite HdB.
    change (Fs.step B "uploads") with ("uploads" :: B). rewrite Hdu.
    change (Fs.step ("uploads" :: B) "..") with B. rewrite HdB.
    by rewrite Hstep. }
  split; [|split; [|split]].
  - unfold uploaded_file, os_path_exists, send_file. rewrite Hres.
    cbn [Fs.present]. rewrite bool_decide_eq_true_2 by by rewrite Hfile.
    by rewrite Hfile.
  - rewrite Hup. unfold Fs.resolve, Text.split_slash in *.
    rewrite split_from_slash, (walk_app _ _ _ _ _ HB).
    change (Text.split_from "" "uploads") with ["uploads"].
    cbn [Fs.walk]. by rewrite HdB.
  - intros [k Hk]. destruct k as [|x k].
    + injection Hk as ->. cbn in Hdu. by rewrite Hfile in Hdu.
    + apply (f_equal length) in Hk. rewrite length_app in Hk. cbn in Hk. lia.
  - unfold dispatch, send_static_file, send_from_directory, safe_join.
    rewrite (decide_False (P := "../" +:+ name = "")) by done.
    rewrite normpath_parent_of_plain by done.
    assert (String.prefix "../" ("../" +:+ name) = true) as -> by (by destruct name).
    by rewrite orb_true_r.
Qed.

End Download.

(** ** Update of an existing homework, and the foreign key *)

Section Rows.

Variable BASE_DIR : string.

Lemma record_uploads_rows homework_id files db :
  homeworks (record_uploads homework_id files db) = homeworks db ∧
  ∃ rows,
    attachments (record_uploads homework_id files db) = attachments db ++ rows ∧
    (λ att, (Attachment.homework_id att, Attachment.filename att, Attachment.filepath att))
      <$> rows =
    (λ entry, (homework_id, FileStorage.filename entry.1, stored_name entry))
      <$> filter supplied files.
Proof.
  unfold record_uploads. revert db.
  induction (filter supplied files) as [|entry l IH]; intros db; cbn [foldl].
  - split; [done|]. exists []. by rewrite app_nil_r.
  - destruct (IH (Sql.insert_attachment homework_id (FileStorage.filename entry.1)
                    (stored_name entry) db)) as (Hh & rows & Ha & Hrows).
    split; [by rewrite Hh|]. eexists (_ :: rows).
    rewrite Ha. cbn. rewrite <-app_assoc. split; [done|]. by rewrite Hrows.
Qed.

(** X2: The rows under an update: an update that is answered with 200
    rewrites the four fields of the rows with the id and of no other row,
    keeps [id] and [created_at], keeps the attachment rows there were, and
    appends one row for every entry that is not skipped; it unlinks nothing
    and the directory tree only gains entries. (This says nothing of the
    bytes of the files that were there.) *)
Lemma update_rewrites_four_fields_and_appends_rows
    env id data files w time subject title content :
  data !! "time" = Some time → data !! "subject" = Some subject →
  data !! "title" = Some title → data !! "content" = Some content →
  (get_db_connection env w).1 = Ok Connection →
  status (update_homework BASE_DIR env id data files w).1 = 200 →
  (update_homework BASE_DIR env id data files w).1 =
    {| status := 200; body := Saved id (saved_json <$> filter supplied files) |} ∧
  homeworks (durable (update_homework BASE_DIR env id data files w).2) =
    (λ hw, if decide (Homework.id hw = id)
           then {| Homework.id := Homework.id hw; Homework.time := time;
                   Homework.subject := subject; Homework.title := title;
                   Homework.content := content;
                   Homework.created_at := Homework.created_at hw |}
           else hw) <$> homeworks (durable w) ∧
  (∃ rows,
     attachments (durable (update_homework BASE_DIR env id data files w).2) =
       attachments (durable w) ++ rows ∧
     (λ att, (Attachment.homework_id att, Attachment.filename att, Attachment.filepath att))
       <$> rows =
     (λ entry, (id, FileStorage.filename entry.1, stored_name entry))
       <$> filter supplied files) ∧
  grows (disk w) (disk (update_homework BASE_DIR env id data files w).2) ∧
  (∀ path, EvUnlink path ∈ trace (update_homework BASE_DIR env id data files w).2 →
           EvUnlink path ∈ trace w).
Proof.
  intros Ht Hsu Hti Hc Hconn H200.
  destruct (connection_world env w) as [k Hw].
  destruct (get_db_connection env w) as [r w1] eqn:Eg. cbn in Hconn, Hw. subst r.
  assert (durable w1 = durable w ∧ disk w1 = disk w) as [Hd Hf] by by subst w1.
  rewrite (update_homework_run _ _ _ _ _ _ _ _ _ _ _ Ht Hsu Hti Hc Eg) in *.
  destruct (decide (id < 2 ^ 63)); [|done].
  destruct (Sql.select_homework id (durable w1)); [|done].
  destruct (save_attachments _ _ _ _ _) as [[saved|e] s] eqn:Es; [|done].
  apply save_attachments_effect in Es as (_ & Hg & (evs & Htr & Hevs) & Hok).
  destruct (Hok saved eq_refl) as [Hconn' ->].
  destruct (record_uploads_rows id files
              (Sql.update_homework id time subject title content (durable w1)))
    as (Hh & rows & Ha & Hrows).
  cbn [fst snd durable disk trace log conn outer] in *.
  rewrite Hconn', Hh, Ha, Hd. rewrite Hf in Hg.
  split; [done|]. split; [done|]. split; [by exists rows|]. split; [done|].
  intros path. rewrite Htr. subst w1. cbn.
  rewrite !elem_of_app, !list_elem_of_singleton.
  intros [[[[H|[H|H]]|H]|H]|H]; try done.
  - exfalso. clear -H. induction k as [|k IH]; cbn in H; [by apply elem_of_nil in H|].
    apply elem_of_cons in H as [?|H]; [done|].
    apply elem_of_cons in H as [?|H]; [done|]. by apply IH.
  - by destruct (Hevs _ H) as (? & ? & _).
Qed.

Lemma next_rowid_fresh seq ids i : i ∈ ids → i < Sql.next_rowid seq ids.
Proof.
  unfold Sql.next_rowid. intros Hin.
  assert (i ≤ foldr N.max 0 ids); [|lia].
  induction ids as [|j ids IH]; [by apply elem_of_nil in Hin|].
  cbn [foldr]. apply elem_of_cons in Hin as [->|Hin]; [lia|].
  specialize (IH Hin). lia.
Qed.

(** X1: A create that is answered with 201 appends one homework row with the
    four fields of the form, the timestamp of the insertion and an id that
    is positive and larger than those in the table, and one attachment row
    for every entry that is not skipped, named by [stored_name]. *)
Lemma create_appends_homework_and_attachment_rows
    env data files w time subject title content :
  data !! "time" = Some time → data !! "subject" = Some subject →
  data !! "title" = Some title → data !! "content" = Some content →
  (get_db_connection env w).1 = Ok Connection →
  status (add_homework BASE_DIR env data files w).1 = 201 →
  ∃ rowid,
    (add_homework BASE_DIR env data files w).1 =
      {| status := 201; body := Saved rowid (saved_json <$> filter supplied files) |} ∧
    0 < rowid ∧
    (∀ hw, hw ∈ homeworks (durable w) → Homework.id hw < rowid) ∧
    homeworks (durable (add_homework BASE_DIR env data files w).2) =
      homeworks (durable w) ++
      [ {| Homework.id := rowid; Homework.time := time; Homework.subject := subject;
           Homework.title := title; Homework.content := content;
           Homework.created_at := current_timestamp env |} ] ∧
    ∃ rows,
      attachments (durable (add_homework BASE_DIR env data files w).2) =
        attachments (durable w) ++ rows ∧
      (λ att, (Attachment.homework_id att, Attachment.filename att, Attachment.filepath att))
        <$> rows =
      (λ entry, (rowid, FileStorage.filename entry.1, stored_name entry))
        <$> filter supplied files.
Proof.
  intros Ht Hsu Hti Hc Hconn H201.
  destruct (connection_world env w) as [k Hw].
  destruct (get_db_connection env w) as [r w1] eqn:Eg. cbn in Hconn, Hw. subst r.
  assert (durable w1 = durable w) as Hd by by subst w1.
  rewrite (add_homework_run _ _ _ _ _ _ _ _ _ _ Ht Hsu Hti Hc Eg) in *. cbn zeta in *.
  destruct (save_attachments _ _ _ _ _) as [[saved|e] s] eqn:Es; [|done].
  apply save_attachments_effect in Es as (_ & _ & _ & Hok).
  destruct (Hok saved eq_refl) as [Hconn' ->].
  match type of Hconn' with _ = record_uploads ?i _ ?db =>
    destruct (record_uploads_rows i files db) as (Hh & rows & Ha & Hrows)
  end.
  cbn [fst snd durable disk trace log conn outer Sql.insert_homework] in *.
  rewrite Hd in *. eexists. split; [done|].
  split; [unfold Sql.next_rowid; lia|]. split.
  - intros hw Hin. apply next_rowid_fresh. apply list_elem_of_fmap. by exists hw.
  - rewrite Hconn', Hh, Ha. cbn. split; [done|]. by exists rows.
Qed.

Lemma referential_insert homework_id files db :
  (∃ hw, hw ∈ homeworks db ∧ Homework.id hw = homework_id) →
  referential db → referential (record_uploads homework_id files db).
Proof.
  intros Hhw Href.
  destruct (record_uploads_rows homework_id files db) as (Hh & rows & Ha & Hrows).
  intros att. rewrite Ha, Hh. intros [H|H]%elem_of_app; [by apply Href|].
  assert (Attachment.homework_id att = homework_id) as ->; [|done].
  assert ((Attachment.homework_id att, Attachment.filename att, Attachment.filepath att) ∈
          (λ entry : FileStorage.t * observation,
             (homework_id, FileStorage.filename entry.1, stored_name entry))
            <$> filter supplied files) as Hin.
  { rewrite <-Hrows. apply list_elem_of_fmap. by exists att. }
  apply list_elem_of_fmap in Hin as (entry & [= -> _ _] & _). done.
Qed.

(** The three handlers that write keep the foreign key: when every
    attachment row refers to a homework row before a request, so it does
    after, whatever the request and the environment. *)
Lemma handlers_keep_the_foreign_key env id data files w :
  referential (durable w) →
  referential (durable (add_homework BASE_DIR env data files w).2) ∧
  referential (durable (update_homework BASE_DIR env id data files w).2) ∧
  referential (durable (delete_homework BASE_DIR env id w).2).
Proof.
  intros Href.
  destruct (connection_world env w) as [k Hw].
  destruct (get_db_connection env w) as [r w1] eqn:Eg. cbn in Hw.
  assert (durable w1 = durable w) as Hd by by subst w1.
  split; [|split].
  - destruct (has_required_fields data) eqn:Hreq;
      [|unfold add_homework; by rewrite Hreq].
    destruct (required_fields_present _ Hreq) as (t & su & ti & c & Ht & Hsu & Hti & Hc).
    destruct r as [[]|]; [|unfold add_homework; rewrite Hreq, Eg; cbn; by rewrite Hd..].
    rewrite (add_homework_run _ _ _ _ _ _ _ _ _ _ Ht Hsu Hti Hc Eg). cbn zeta.
    destruct (save_attachments _ _ _ _ _) as [[saved|e] s] eqn:Es;
      apply save_attachments_effect in Es as (Hdur & _ & _ & Hok); cbn in Hdur |- *;
      [|by rewrite Hdur, Hd].
    destruct (Hok saved eq_refl) as [-> _]. cbn [conn].
    apply referential_insert.
    + eexists. split; [apply elem_of_app; right; left|done].
    + intros att Hin. cbn in Hin. rewrite Hd in *.
      destruct (Href att Hin) as (hw & Hhw & Hid).
      exists hw. split; [|done]. cbn. apply elem_of_app. by left.
  - destruct (has_required_fields data) eqn:Hreq;
      [|unfold update_homework; by rewrite Hreq].
    destruct (required_fields_present _ Hreq) as (t & su & ti & c & Ht & Hsu & Hti & Hc).
    destruct r as [[]|]; [|unfold update_homework; rewrite Hreq, Eg; cbn; by rewrite Hd..].
    rewrite (update_homework_run _ _ _ _ _ _ _ _ _ _ _ Ht Hsu Hti Hc Eg).
    destruct (decide (id < 2 ^ 63)); [|cbn; by rewrite Hd].
    destruct (Sql.select_homework id (durable w1)) as [found|] eqn:Hsel;
      [|cbn; by rewrite Hd].
    apply select_homework_Some in Hsel as [Hin Hid].
    assert (∀ i, (∃ hw, hw ∈ homeworks (durable w1) ∧ Homework.id hw = i) →
                 ∃ hw, hw ∈ homeworks (Sql.update_homework id t su ti c (durable w1)) ∧
                       Homework.id hw = i) as Hkeep.
    { intros i (hw & Hhw & Hi). cbn.
      eexists. split; [apply list_elem_of_fmap; by exists hw|].
      by destruct (decide (Homework.id hw = id)). }
    destruct (save_attachments _ _ _ _ _) as [[saved|e] s] eqn:Es;
      apply save_attachments_effect in Es as (Hdur & _ & _ & Hok); cbn in Hdur |- *;
      [|by rewrite Hdur, Hd].
    destruct (Hok saved eq_refl) as [-> _]. cbn [conn].
    apply referential_insert; [apply Hkeep; by exists found|].
    intros att Hatt. apply Hkeep. cbn in Hatt. rewrite Hd in *. by apply Href.
  - destruct r as [[]|]; [|unfold delete_homework; rewrite Eg; cbn; by rewrite Hd..].
    rewrite (delete_homework_run _ _ _ _ _ Eg).
    destruct (decide (id < 2 ^ 63)); [|cbn; by rewrite Hd].
    match goal with |- context [unlink_attachments ?b ?e ?a ?s] =>
      destruct (unlink_attachments_effect b e a s) as (_ & _ & Hdur & _)
    end.
    cbn [snd durable log outer] in *. rewrite Hdur, Hd. cbn.
    intros att [Hne Hatt]%list_elem_of_filter.
    destruct (Href att Hatt) as (hw & Hhw & Hid).
    exists hw. split; [|done]. apply list_elem_of_filter. split; [congruence|done].
Qed.

End Rows.

(** ** The properties on sample requests *)

Section Samples.

Import Sample.

Example stored_name_of_an_upload :
  unique_filename noon 255 "a.txt" = "20240102120000_000000000000000000000000000000ff_a.txt".
Proof. reflexivity. Qed.

Example connection_after_two_locked_attempts :
  get_db_connection (busy 2) fresh =
    (Ok Connection,
     add_events [EvConnect; EvSleep 500; EvConnect; EvSleep 500; EvConnect] fresh).
Proof. reflexivity. Qed.

Example connection_given_up_after_five_locked_attempts :
  get_db_connection (busy 9) fresh =
    (Raise (OperationalError "database is locked"),
     add_events [EvConnect; EvSleep 500; EvConnect; EvSleep 500; EvConnect; EvSleep 500;
                 EvConnect; EvSleep 500; EvConnect] fresh).
Proof. reflexivity. Qed.

(** C9 fails for a fifth retry: when the first five attempts find the
    database locked and a sixth would not, the exception of the fifth is
    raised, after four sleeps. *)
Lemma fifth_locked_attempt_is_not_retried :
  (∀ k, (k < 5)%nat → connect_raises (busy 5) k = Some (OperationalError "database is locked")) ∧
  connect_raises (busy 5) 5 = None ∧
  get_db_connection (busy 5) fresh =
    (Raise (OperationalError "database is locked"),
     add_events [EvConnect; EvSleep 500; EvConnect; EvSleep 500; EvConnect; EvSleep 500;
                 EvConnect; EvSleep 500; EvConnect] fresh).
Proof.
  split; [|split; reflexivity].
  intros k Hk. unfold busy. cbn [connect_raises]. by rewrite decide_True.
Qed.

Example connection_error_other_than_locked_is_raised_at_once :
  get_db_connection unreadable fresh =
    (Raise (OperationalError "unable to open database file"), add_events [EvConnect] fresh).
Proof. reflexivity. Qed.

Example create_with_an_entry_without_filename :
  add_homework base calm math [upload "" Byte.x41 7 IoOk] fresh =
  add_homework base calm math [] fresh ∧
  (add_homework base calm math [upload "" Byte.x41 7 IoOk] fresh).1 =
    {| status := 201; body := Saved 1 [] |} ∧
  disk (add_homework base calm math [upload "" Byte.x41 7 IoOk] fresh).2 = disk fresh.
Proof. split; [reflexivity|]. split; reflexivity. Qed.

Lemma create_with_missing_field_sample :
  "title" ∈ required_fields ∧ no_title !! "title" = None ∧
  add_homework base calm no_title [upload "a.txt" Byte.x41 7 IoOk] fresh =
    ({| status := 400; body := Error |}, fresh).
Proof.
  assert ("title" ∈ required_fields) as H1 by (right; right; left).
  assert (no_title !! "title" = None) as H2 by reflexivity.
  split; [exact H1|]. split; [exact H2|].
  exact (create_with_missing_field_is_rejected base calm no_title _ fresh "title" H1 H2).
Defined.

(** C1 fails for the empty string: with [time] blank the request is
    answered with 201 and the row is inserted. *)
Lemma create_with_blank_field_is_accepted :
  blank_time !! "time" = Some "" ∧
  (add_homework base calm blank_time [] fresh).1 = {| status := 201; body := Saved 1 [] |} ∧
  homeworks (durable (add_homework base calm blank_time [] fresh).2) =
    [ {| Homework.id := 1; Homework.time := ""; Homework.subject := "Math";
         Homework.title := "Ch1"; Homework.content := "Do problems 1-10";
         Homework.created_at := 100 |} ].
Proof. by vm_compute. Qed.

(** C2 fails for the rows: the second [file.save] fails, the answer is 500,
    and neither the homework row nor the attachment row of the first file
    is in the tables, while the first file is on disk. *)
Lemma failed_create_leaves_no_rows :
  let r := add_homework base calm math
             [upload "a.txt" Byte.x41 7 IoOk; upload "b.txt" Byte.x42 8 IoOpenFails] fresh in
  status r.1 = 500 ∧ intact r.2 = true ∧
  homeworks (durable r.2) = [] ∧ attachments (durable r.2) = [] ∧
  disk r.2 !! [stored_a; "uploads"; "app"; "srv"] = Some (Fs.File [Byte.x41]).
Proof. split; [reflexivity|]. split; [reflexivity|]. split; [reflexivity|].
  split; reflexivity. Qed.

Lemma failed_create_sample :
  let files := [upload "a.txt" Byte.x41 7 IoOk; upload "b.txt" Byte.x42 8 IoOpenFails] in
  has_required_fields math = true ∧
  (get_db_connection calm fresh).1 = Ok Connection ∧
  intact (add_homework base calm math files fresh).2 = true ∧
  (∃ entry, entry ∈ files ∧ supplied entry ∧ io entry.2 ≠ IoOk) ∧
  status (add_homework base calm math files fresh).1 = 500 ∧
  durable (add_homework base calm math files fresh).2 = durable fresh ∧
  os_path_exists (disk (add_homework base calm math files fresh).2)
    (os_path_join (UPLOAD_FOLDER base) stored_a) = true.
Proof.
  intros files.
  assert (has_required_fields math = true) as H1 by reflexivity.
  assert ((get_db_connection calm fresh).1 = Ok Connection) as H2 by reflexivity.
  assert (intact (add_homework base calm math files fresh).2 = true) as H3 by reflexivity.
  assert (∃ entry, entry ∈ files ∧ supplied entry ∧ io entry.2 ≠ IoOk) as H4.
  { exists (upload "b.txt" Byte.x42 8 IoOpenFails).
    split; [right; left|]. split; discriminate. }
  split; [exact H1|]. split; [exact H2|]. split; [exact H3|]. split; [exact H4|].
  destruct (failed_create_discards_rows_keeps_files base calm math files fresh H1 H2 H3)
    as (H500 & Hrest).
  specialize (H500 H4). split; [exact H500|].
  destruct (Hrest H500) as (Hd & _ & evs & Htr & _ & _ & Hsaved).
  split; [exact Hd|]. apply Hsaved.
  vm_compute in Htr. subst evs. vm_compute. right. left.
Defined.

(** C3 fails for delete: no homework has the id 7 and the answer is 200. *)
Lemma delete_of_unknown_id_is_answered_200 :
  Homework.id <$> homeworks (durable with_homework) = [1] ∧
  (delete_homework base calm 7 with_homework).1 = {| status := 200; body := Message |}.
Proof. by vm_compute. Qed.

Lemma unknown_id_sample :
  (∀ hw, hw ∈ homeworks (durable with_homework) → Homework.id hw ≠ 7) ∧
  (get_db_connection calm with_homework).1 = Ok Connection ∧
  (update_homework base calm 7 math [] with_homework).1 = {| status := 404; body := Error |} ∧
  durable (update_homework base calm 7 math [] with_homework).2 = durable with_homework ∧
  (delete_homework base calm 7 with_homework).1 = {| status := 200; body := Message |} ∧
  durable (delete_homework base calm 7 with_homework).2 = durable with_homework.
Proof.
  assert (∀ hw, hw ∈ homeworks (durable with_homework) → Homework.id hw ≠ 7) as H1.
  { vm_compute. intros hw [->|[]%elem_of_nil]%elem_of_cons. done. }
  assert ((get_db_connection calm with_homework).1 = Ok Connection) as H2 by reflexivity.
  split; [exact H1|]. split; [exact H2|].
  destruct (unknown_id_update_404_delete_200 base calm 7 math [] with_homework H1 H2)
    as (Hsmall & _ & _).
  destruct Hsmall as (Hu & Hdel); [reflexivity|].
  destruct Hu as (H3 & H4 & _); [reflexivity|].
  destruct Hdel as (H5 & H6 & _).
  { vm_compute. intros att [->|[]%elem_of_nil]%elem_of_cons. done. }
  exact (conj H3 (conj H4 (conj H5 H6))).
Defined.

(** C4 fails for the files: [os.unlink] is refused, the answer is 200, the
    rows are gone, and the file is still served. *)
Lemma delete_with_refused_unlink_keeps_the_file :
  let r := delete_homework base read_only 1 with_homework in
  Attachment.filepath <$> attachments (durable with_homework) = [stored_a] ∧
  r.1 = {| status := 200; body := Message |} ∧
  homeworks (durable r.2) = [] ∧ attachments (durable r.2) = [] ∧
  (uploaded_file base stored_a r.2).1 = {| status := 200; body := Download [Byte.x41] |}.
Proof. by vm_compute. Qed.

Lemma delete_sample :
  1 < 2 ^ 63 ∧
  (get_db_connection calm with_homework).1 = Ok Connection ∧
  (delete_homework base calm 1 with_homework).1 = {| status := 200; body := Message |} ∧
  homeworks (durable (delete_homework base calm 1 with_homework).2) = [] ∧
  (uploaded_file base stored_a (delete_homework base calm 1 with_homework).2).1 =
    {| status := 404; body := Error |}.
Proof.
  assert (1 < 2 ^ 63) as Hb by reflexivity.
  assert ((get_db_connection calm with_homework).1 = Ok Connection) as Hc by reflexivity.
  split; [exact Hb|]. split; [exact Hc|].
  destruct (delete_commits_rows_then_unlinks_files base calm 1 with_homework Hb Hc)
    as (H1 & H2 & _ & _ & Hfile & _).
  split; [exact H1|]. split; [rewrite H2; reflexivity|].
  apply (Hfile {| Attachment.id := 1; Attachment.homework_id := 1;
                  Attachment.filename := "a.txt"; Attachment.filepath := stored_a |}).
  - vm_compute. left.
  - reflexivity.
  - reflexivity.
  - vm_compute. by intros l [= <-].
Defined.

(** C5 fails for the file of an attachment: an upload whose filename leads
    back into the upload folder is saved over the file of the attachment
    that homework 1 already has, and the update is answered with 200. *)
Lemma update_overwrites_the_file_of_an_attachment :
  let r := update_homework base calm 1 math
             [upload ("/../" +:+ stored_a) Byte.x42 8 IoOk] with_homework in
  Attachment.filepath <$> attachments (durable with_homework) = [stored_a] ∧
  (uploaded_file base stored_a with_homework).1 =
    {| status := 200; body := Download [Byte.x41] |} ∧
  status r.1 = 200 ∧
  Attachment.filepath <$> attachments (durable r.2) =
    [stored_a;
     "20240102120000_00000000000000000000000000000008_/../" +:+ stored_a] ∧
  (uploaded_file base stored_a r.2).1 = {| status := 200; body := Download [Byte.x42] |}.
Proof. by vm_compute. Qed.


Lemma stored_names_sample :
  7 < 2 ^ 128 ∧ 8 < 2 ^ 128 ∧ (7 : N) ≠ 8 ∧
  unique_filename noon 7 "a.txt" ≠ unique_filename noon 8 "a.txt".
Proof.
  assert (7 < 2 ^ 128) as H1 by reflexivity.
  assert (8 < 2 ^ 128) as H2 by reflexivity.
  assert ((7 : N) ≠ 8) as H3 by discriminate.
  split; [exact H1|]. split; [exact H2|]. split; [exact H3|].
  exact (proj2 (stored_names_differ_when_uuids_differ noon noon 7 8 "a.txt" "a.txt"
                  H1 H2 H3)).
Defined.

(** C10 fails for the requests: the name [../homework.db] joined onto the
    upload folder names the database file, and [uploaded_file] would send
    it; the request for it is answered with 404, by the static view. The
    request for the stored name of an upload is answered with 404 as well:
    the static view serves [/srv/uploads], not the upload folder. *)
Lemma download_request_is_answered_by_the_static_view :
  disk fresh !! ["homework.db"; "app"; "srv"] = Some (Fs.File [Byte.x53; Byte.x51; Byte.x4c]) ∧
  Fs.resolve (disk fresh) (os_path_join (UPLOAD_FOLDER base) "../homework.db") =
    Some ["homework.db"; "app"; "srv"] ∧
  (uploaded_file base "../homework.db" fresh).1 =
    {| status := 200; body := Download [Byte.x53; Byte.x51; Byte.x4c] |} ∧
  dispatch base (GetUpload "../homework.db") fresh =
    ({| status := 404; body := Error |}, fresh) ∧
  disk with_homework !! [stored_a; "uploads"; "app"; "srv"] = Some (Fs.File [Byte.x41]) ∧
  static_folder base = "/srv/app/../uploads" ∧
  dispatch base (GetUpload stored_a) with_homework =
    ({| status := 404; body := Error |}, with_homework).
Proof.
  split; [reflexivity|]. split; [reflexivity|]. split; [reflexivity|].
  split; [reflexivity|]. split; [reflexivity|]. split; reflexivity.
Qed.

(** The database file next to the upload folder: the call of
    [uploaded_file] sends it, the request is refused. *)
Lemma download_sample :
  DB_PATH base = "/srv/app/homework.db" ∧
  Fs.resolve (disk fresh) base = Some ["app"; "srv"] ∧
  disk fresh !! ["homework.db"; "app"; "srv"] = Some (Fs.File [Byte.x53; Byte.x51; Byte.x4c]) ∧
  uploaded_file base "../homework.db" fresh =
    ({| status := 200; body := Download [Byte.x53; Byte.x51; Byte.x4c] |}, fresh) ∧
  Fs.resolve (disk fresh) (UPLOAD_FOLDER base) = Some ["uploads"; "app"; "srv"] ∧
  dispatch base (GetUpload "../homework.db") fresh = ({| status := 404; body := Error |}, fresh).
Proof.
  assert (Fs.resolve (disk fresh) base = Some ["app"; "srv"]) as H1 by reflexivity.
  assert (disk fresh !! ["homework.db"; "app"; "srv"] =
          Some (Fs.File [Byte.x53; Byte.x51; Byte.x4c])) as H2 by reflexivity.
  split; [reflexivity|]. split; [exact H1|]. split; [exact H2|].
  destruct (uploaded_file_is_unchecked_but_not_routed base fresh ["app"; "srv"]
              "homework.db" [Byte.x53; Byte.x51; Byte.x4c]) as (H3 & H4 & _ & H5);
    [discriminate|reflexivity|exact H1|reflexivity|reflexivity|reflexivity
    |discriminate|discriminate|discriminate|exact H2|].
  exact (conj H3 (conj H4 H5)).
Defined.

End Samples.

(** * Further properties of the handlers *)

(** ** Answers without effect *)

Section Frames.

Variable BASE_DIR : string.

Lemma connection_frame env w :
  durable (get_db_connection env w).2 = durable w ∧
  disk (get_db_connection env w).2 = disk w.
Proof. destruct (connection_world env w) as [k ->]. done. Qed.

Lemma connection_intact env w : intact (get_db_connection env w).2 = intact w.
Proof. destruct (connection_world env w) as [k ->]. done. Qed.

(** X3: An update request in which one of the four fields is missing is answered
    with 400 before the connection is made and before the id is looked up:
    the world is as it was, whether a homework has the id or not. *)
Theorem update_with_missing_field_is_rejected env id data files w field :
  field ∈ required_fields → data !! field = None →
  update_homework BASE_DIR env id data files w = ({| status := 400; body := Error |}, w).
Proof.
  intros Hin Hnone. unfold update_homework.
  by rewrite (required_fields_missing _ _ Hin Hnone).
Qed.

(** X4: When [get_db_connection] raises, the four handlers of the tables answer
    with 500 (create and update after the check of the form) and neither the
    tables nor the files change. *)
Theorem without_connection_nothing_changes env id data files w e :
  (get_db_connection env w).1 = Raise e →
  ((get_homeworks env w).1 = {| status := 500; body := Error |} ∧
   durable (get_homeworks env w).2 = durable w ∧ disk (get_homeworks env w).2 = disk w) ∧
  (has_required_fields data = true →
   ((add_homework BASE_DIR env data files w).1 = {| status := 500; body := Error |} ∧
    durable (add_homework BASE_DIR env data files w).2 = durable w ∧
    disk (add_homework BASE_DIR env data files w).2 = disk w) ∧
   ((update_homework BASE_DIR env id data files w).1 = {| status := 500; body := Error |} ∧
    durable (update_homework BASE_DIR env id data files w).2 = durable w ∧
    disk (update_homework BASE_DIR env id data files w).2 = disk w)) ∧
  ((delete_homework BASE_DIR env id w).1 = {| status := 500; body := Error |} ∧
   durable (delete_homework BASE_DIR env id w).2 = durable w ∧
   disk (delete_homework BASE_DIR env id w).2 = disk w).
Proof.
  intros Hraise. destruct (connection_frame env w) as [Hd Hf].
  unfold get_homeworks, add_homework, update_homework, delete_homework.
  destruct (get_db_connection env w) as [r w1]. cbn in Hraise, Hd, Hf. subst r.
  split; [done|]. split; [|done].
  intros ->. done.
Qed.

(** X5: An update with its four fields and a connection that is answered with
    500, which is what a failing directory creation or [file.save] and an id
    that SQLite cannot hold lead to, commits nothing: the tables are as
    before the call, the four fields of the homework included. The files
    saved before the failure stay. This is said of calls that leave SQLite's
    own files alone. *)
Theorem failed_update_discards_rows_keeps_files env id data files w :
  has_required_fields data = true →
  (get_db_connection env w).1 = Ok Connection →
  intact (update_homework BASE_DIR env id data files w).2 = true →
  status (update_homework BASE_DIR env id data files w).1 = 500 →
  durable (update_homework BASE_DIR env id data files w).2 = durable w ∧
  grows (disk w) (disk (update_homework BASE_DIR env id data files w).2) ∧
  ∃ evs,
    trace (update_homework BASE_DIR env id data files w).2 = trace w ++ evs ∧
    (EvCommit ∉ evs) ∧
    (∀ path, EvUnlink path ∉ evs) ∧
    (∀ path, EvSave path ∈ evs →
             os_path_exists (disk (update_homework BASE_DIR env id data files w).2) path
               = true).
Proof.
  intros Hreq Hconn _ H500.
  destruct (required_fields_present _ Hreq) as (t & su & ti & c & Ht & Hsu & Hti & Hc).
  destruct (connection_world env w) as [k Hw].
  destruct (get_db_connection env w) as [r w1] eqn:Eg. cbn in Hconn, Hw. subst r w1.
  rewrite (update_homework_run _ _ _ _ _ _ _ _ _ _ _ Ht Hsu Hti Hc Eg) in *.
  assert (∀ ev, ev ∈ retried k → ev = EvConnect ∨ ev = EvSleep 500) as Hretried.
  { clear. induction k as [|k IH]; cbn; intros ev H; [by apply elem_of_nil in H|].
    apply elem_of_cons in H as [->|H]; [by left|].
    apply elem_of_cons in H as [->|H]; [by right|]. by apply IH. }
  destruct (decide (id < 2 ^ 63)).
  2:{ cbn. split; [done|]. split; [apply grows_refl|].
      exists (retried k ++ [EvConnect] ++ [EvClose]).
      split; [by rewrite <-!app_assoc|].
      assert (∀ ev, ev ∈ retried k ++ [EvConnect] ++ [EvClose] →
                    ev = EvConnect ∨ ev = EvSleep 500 ∨ ev = EvClose) as Hcases.
      { intros ev. rewrite !elem_of_app, !list_elem_of_singleton.
        intros [H|[H|H]]; auto. destruct (Hretried _ H); auto. }
      split; [|split].
      - intros H. by destruct (Hcases _ H) as [H'|[H'|H']].
      - intros path H. by destruct (Hcases _ H) as [H'|[H'|H']].
      - intros path H. by destruct (Hcases _ H) as [H'|[H'|H']]. }
  destruct (Sql.select_homework _ _); [|done].
  destruct (save_attachments _ _ _ _ _) as [[saved|e] s] eqn:Es; [done|].
  apply save_attachments_effect in Es as (Hd & Hg & (evs & Htr & Hevs) & _).
  cbn in Hd, Hg, Htr |- *.
  split; [done|]. split; [done|].
  exists (retried k ++ [EvConnect] ++ evs ++ [EvClose]).
  split; [rewrite Htr; by rewrite <-!app_assoc|].
  assert (∀ ev, ev ∈ retried k ++ [EvConnect] ++ evs ++ [EvClose] →
                ev ∈ evs ∨ ev = EvConnect ∨ ev = EvSleep 500 ∨ ev = EvClose) as Hcases.
  { intros ev. rewrite !elem_of_app, !list_elem_of_singleton.
    intros [H|[H|[H|H]]]; auto. destruct (Hretried _ H); auto. }
  split; [|split].
  - intros H. destruct (Hcases _ H) as [H'|[H'|[H'|H']]]; try done.
    by destruct (Hevs _ H') as (? & ? & _).
  - intros path H. destruct (Hcases _ H) as [H'|[H'|[H'|H']]]; try done.
    by destruct (Hevs _ H') as (? & ? & _).
  - intros path H. destruct (Hcases _ H) as [H'|[H'|[H'|H']]]; try done.
    destruct (Hevs _ H') as (p & [= <-] & Hx). done.
Qed.

Lemma get_homeworks_frame env w :
  durable (get_homeworks env w).2 = durable w ∧ disk (get_homeworks env w).2 = disk w.
Proof.
  destruct (connection_frame env w) as [Hd Hf].
  unfold get_homeworks. by destruct (get_db_connection env w) as [[[]|] w1].
Qed.

Lemma uploaded_file_world filename w : (uploaded_file BASE_DIR filename w).2 = w.
Proof. unfold uploaded_file. destruct (negb _); [done|]. by destruct (send_file _ _). Qed.

(** X6: The two GET handlers are read-only: the listing changes neither the
    tables nor the files, with or without a connection, and a download
    leaves the whole world as it was, whatever it answers. *)
Theorem listing_and_download_change_nothing env filename w :
  durable (get_homeworks env w).2 = durable w ∧
  disk (get_homeworks env w).2 = disk w ∧
  (uploaded_file BASE_DIR filename w).2 = w.
Proof.
  destruct (get_homeworks_frame env w) as [Hd Hf].
  split; [done|]. split; [done|]. apply uploaded_file_world.
Qed.


End Frames.

(** ** What a delete removes *)

Section Deleting.

Variable BASE_DIR : string.

Lemma unlink_loses_the_file refused path fs l :
  (os_unlink refused path fs).2 !! l = fs !! l ∨
  ((os_unlink refused path fs).2 !! l = None ∧
   (∃ content, fs !! l = Some (Fs.File content)) ∧
   Fs.resolve fs path = Some l).
Proof.
  unfold os_unlink. destruct refused; [by left|].
  destruct (Fs.resolve fs path) as [l0|]; [|by left].
  destruct (fs !! l0) as [[|content]|] eqn:E; try by left.
  cbn. destruct (decide (l0 = l)) as [->|Hne].
  - right. rewrite lookup_delete_eq. eauto.
  - left. by rewrite lookup_delete_ne.
Qed.

Lemma unlink_attachments_loses_files env atts s l :
  disk (outer (unlink_attachments BASE_DIR env atts s).2) !! l = disk (outer s) !! l ∨
  (disk (outer (unlink_attachments BASE_DIR env atts s).2) !! l = None ∧
   (∃ content, disk (outer s) !! l = Some (Fs.File content)) ∧
   ∃ att, att ∈ atts ∧
          Fs.resolve (disk (outer s))
            (os_path_join (UPLOAD_FOLDER BASE_DIR) (Attachment.filepath att)) = Some l).
Proof.
  revert s. induction atts as [|att atts IH]; intros s.
  - left. cbn [unlink_attachments]. by run.
  - rewrite unlink_attachments_cons.
    destruct (after_unlink_effect BASE_DIR env att s) as (_ & _ & Hs1 & _).
    set (s1 := after_unlink BASE_DIR env att s) in *.
    assert (disk (outer s1) !! l = disk (outer s) !! l ∨
            (disk (outer s1) !! l = None ∧
             (∃ content, disk (outer s) !! l = Some (Fs.File content)) ∧
             Fs.resolve (disk (outer s))
               (os_path_join (UPLOAD_FOLDER BASE_DIR) (Attachment.filepath att)) = Some l))
      as Hstep.
    { unfold s1, after_unlink. destruct (os_path_exists _ _); [|by left].
      cbn. apply unlink_loses_the_file. }
    destruct (IH s1) as [Hsame|(Hnone & [content Hfile] & att' & Hin & Hres)].
    + destruct Hstep as [Hstep|(Hnone & Hfile & Hres)].
      * left. congruence.
      * right. split; [congruence|]. split; [done|]. exists att. split; [left|done].
    + right. split; [done|].
      destruct Hstep as [Hstep|(Hnone' & _)]; [|congruence].
      split; [exists content; congruence|].
      exists att'. split; [by right|].
      unfold Fs.resolve in *. by rewrite <-(walk_shrinks _ _ _ _ Hs1).
Qed.

(** X8: A delete only removes regular files to which the stored path of an
    attachment of the deleted homework resolves: every other entry of the
    directory tree, the directories among them, is afterwards what it was
    before, and nothing is added. *)
Theorem delete_only_removes_files_of_the_homework env id w l :
  disk (delete_homework BASE_DIR env id w).2 !! l = disk w !! l ∨
  (disk (delete_homework BASE_DIR env id w).2 !! l = None ∧
   (∃ content, disk w !! l = Some (Fs.File content)) ∧
   ∃ att, att ∈ attachments (durable w) ∧ Attachment.homework_id att = id ∧
          Fs.resolve (disk w)
            (os_path_join (UPLOAD_FOLDER BASE_DIR) (Attachment.filepath att)) = Some l).
Proof.
  destruct (connection_frame env w) as [Hd Hf].
  destruct (get_db_connection env w) as [r w1] eqn:Eg. cbn in Hd, Hf.
  destruct r as [[]|]; [|left; unfold delete_homework; rewrite Eg; cbn; by rewrite Hf..].
  rewrite (delete_homework_run _ _ _ _ _ Eg).
  destruct (decide (id < 2 ^ 63)); [|left; cbn; by rewrite Hf].
  match goal with |- context [unlink_attachments ?b ?e ?a ?s] =>
    destruct (unlink_attachments_loses_files e a s l)
      as [Hsame|(Hnone & Hfile & att & Hin & Hres)]
  end; cbn [snd disk log outer] in *.
  - left. by rewrite Hsame, Hf.
  - right. rewrite Hf in *. split; [done|]. split; [done|].
    rewrite Hd in Hin. apply list_elem_of_filter in Hin as [Hid Hin]. eauto.
Qed.

Lemma delete_homework_nothing_to_do env id w :
  id < 2 ^ 63 →
  (get_db_connection env w).1 = Ok Connection →
  (∀ hw, hw ∈ homeworks (durable w) → Homework.id hw ≠ id) →
  (∀ att, att ∈ attachments (durable w) → Attachment.homework_id att ≠ id) →
  (delete_homework BASE_DIR env id w).1 = {| status := 200; body := Message |} ∧
  durable (delete_homework BASE_DIR env id w).2 = durable w ∧
  disk (delete_homework BASE_DIR env id w).2 = disk w.
Proof.
  intros Hbound Hconn Hhw Hatt.
  destruct (connection_frame env w) as [Hd Hf].
  destruct (get_db_connection env w) as [r w1] eqn:Eg. cbn in Hconn, Hd, Hf. subst r.
  rewrite (delete_homework_run _ _ _ _ _ Eg). rewrite decide_True by done. rewrite Hd, Hf.
  split; [done|].
  assert (Sql.select_attachments_of id (durable w) = []) as ->.
  { apply filter_none. intros att Hin. by apply Hatt. }
  cbn [unlink_attachments]. run. split; [|done].
  unfold Sql.delete_homework, Sql.delete_attachments_of. cbn.
  rewrite !filter_all by done. by destruct (durable w).
Qed.

(** X9: Delete is idempotent: after a delete of an id, a second delete of the
    same id (both with a connection, and neither unlinking one of SQLite's
    own files) is answered as the first was, with 200 for an id that SQLite
    can hold and with 500 for one from 2^63 on, and changes neither the
    tables nor the files. *)
Theorem second_delete_changes_nothing env env' id w :
  (get_db_connection env w).1 = Ok Connection →
  (get_db_connection env' (delete_homework BASE_DIR env id w).2).1 = Ok Connection →
  intact (delete_homework BASE_DIR env' id (delete_homework BASE_DIR env id w).2).2 = true →
  (delete_homework BASE_DIR env' id (delete_homework BASE_DIR env id w).2).1 =
    (delete_homework BASE_DIR env id w).1 ∧
  (delete_homework BASE_DIR env id w).1 =
    (if decide (id < 2 ^ 63) then {| status := 200; body := Message |}
     else {| status := 500; body := Error |}) ∧
  durable (delete_homework BASE_DIR env' id (delete_homework BASE_DIR env id w).2).2 =
    durable (delete_homework BASE_DIR env id w).2 ∧
  disk (delete_homework BASE_DIR env' id (delete_homework BASE_DIR env id w).2).2 =
    disk (delete_homework BASE_DIR env id w).2.
Proof.
  intros Hconn Hconn' _.
  assert ((delete_homework BASE_DIR env id w).1 =
          (if decide (id < 2 ^ 63) then {| status := 200; body := Message |}
           else {| status := 500; body := Error |})) as Hfirst.
  { destruct (get_db_connection env w) as [r w1] eqn:Eg. cbn in Hconn. subst r.
    rewrite (delete_homework_run _ _ _ _ _ Eg). by destruct (decide (id < 2 ^ 63)). }
  rewrite Hfirst. destruct (decide (id < 2 ^ 63)) as [Hbound|Hbig].
  2:{ destruct (connection_frame env' (delete_homework BASE_DIR env id w).2) as [Hd Hf].
      destruct (get_db_connection env' _) as [r w2] eqn:Eg'. cbn in Hconn', Hd, Hf. subst r.
      rewrite (delete_homework_run _ _ _ _ _ Eg'). rewrite decide_False by done.
      cbn. by rewrite Hd, Hf. }
  assert (homeworks (durable (delete_homework BASE_DIR env id w).2) =
            filter (λ hw, Homework.id hw ≠ id) (homeworks (durable w)) ∧
          attachments (durable (delete_homework BASE_DIR env id w).2) =
            filter (λ att, Attachment.homework_id att ≠ id) (attachments (durable w)))
    as [Hh Ha].
  { destruct (connection_frame env w) as [Hd _].
    destruct (get_db_connection env w) as [r w1] eqn:Eg. cbn in Hconn, Hd. subst r.
    rewrite (delete_homework_run _ _ _ _ _ Eg). rewrite decide_True by done.
    match goal with |- context [unlink_attachments ?b ?e ?a ?s] =>
      destruct (unlink_attachments_effect b e a s) as (_ & _ & Hdur & _)
    end.
    cbn [snd durable log outer] in *. rewrite Hdur, Hd. done. }
  destruct (delete_homework_nothing_to_do env' id (delete_homework BASE_DIR env id w).2)
    as (H1 & H2 & H3); [done|done| | |done].
  - intros hw. rewrite Hh. by intros [? _]%list_elem_of_filter.
  - intros att. rewrite Ha. by intros [? _]%list_elem_of_filter.
Qed.

End Deleting.

(** ** Ids and keys along a run of requests *)

Section Keys.

Variable BASE_DIR : string.

Lemma record_uploads_counter_and_keys homework_id files db :
  seq_homeworks (record_uploads homework_id files db) = seq_homeworks db ∧
  homeworks (record_uploads homework_id files db) = homeworks db ∧
  (NoDup (Attachment.id <$> attachments db) →
   NoDup (Attachment.id <$> attachments (record_uploads homework_id files db))).
Proof.
  unfold record_uploads. revert db.
  induction (filter supplied files) as [|entry l IH]; intros db; cbn [foldl]; [done|].
  destruct (IH (Sql.insert_attachment homework_id (FileStorage.filename entry.1)
                  (stored_name entry) db)) as (-> & -> & Hnd).
  split; [done|]. split; [done|]. intros Hdb. apply Hnd. cbn.
  rewrite fmap_app. apply NoDup_app. split; [done|]. split; [|apply NoDup_singleton].
  intros i Hi [= ->]%list_elem_of_singleton.
  apply (next_rowid_fresh (seq_attachments db)) in Hi. cbn in Hi. lia.
Qed.

(** What a create, an update and a delete leave in the tables: what was
    there, or the outcome of their statements. *)
Lemma add_homework_durable env data files w :
  (created_id (add_homework BASE_DIR env data files w).1 = None ∧
   durable (add_homework BASE_DIR env data files w).2 = durable w) ∨
  ∃ time subject title content,
    created_id (add_homework BASE_DIR env data files w).1 =
      Some (Sql.insert_homework (current_timestamp env) time subject title content
              (durable w)).1 ∧
    durable (add_homework BASE_DIR env data files w).2 =
      record_uploads
        (Sql.insert_homework (current_timestamp env) time subject title content (durable w)).1
        files
        (Sql.insert_homework (current_timestamp env) time subject title content (durable w)).2.
Proof.
  destruct (connection_frame env w) as [Hd _].
  destruct (get_db_connection env w) as [r w1] eqn:Eg. cbn in Hd.
  destruct (has_required_fields data) eqn:Hreq;
    [|left; unfold add_homework; by rewrite Hreq].
  destruct (required_fields_present _ Hreq) as (t & su & ti & c & Ht & Hsu & Hti & Hc).
  destruct r as [[]|]; [|left; unfold add_homework; rewrite Hreq, Eg; by cbn..].
  rewrite (add_homework_run _ _ _ _ _ _ _ _ _ _ Ht Hsu Hti Hc Eg). cbn zeta.
  destruct (save_attachments _ _ _ _ _) as [[saved|e] s] eqn:Es;
    apply save_attachments_effect in Es as (Hdur & _ & _ & Hok); cbn in Hdur |- *.
  - right. exists t, su, ti, c. destruct (Hok saved eq_refl) as [-> _]. by rewrite Hd.
  - left. by rewrite Hdur.
Qed.

Lemma update_homework_durable env id data files w :
  durable (update_homework BASE_DIR env id data files w).2 = durable w ∨
  ∃ time subject title content,
    durable (update_homework BASE_DIR env id data files w).2 =
      record_uploads id files (Sql.update_homework id time subject title content (durable w)).
Proof.
  destruct (connection_frame env w) as [Hd _].
  destruct (get_db_connection env w) as [r w1] eqn:Eg. cbn in Hd.
  destruct (has_required_fields data) eqn:Hreq;
    [|left; unfold update_homework; by rewrite Hreq].
  destruct (required_fields_present _ Hreq) as (t & su & ti & c & Ht & Hsu & Hti & Hc).
  destruct r as [[]|]; [|left; unfold update_homework; rewrite Hreq, Eg; by cbn..].
  rewrite (update_homework_run _ _ _ _ _ _ _ _ _ _ _ Ht Hsu Hti Hc Eg).
  destruct (decide (id < 2 ^ 63)); [|by left].
  destruct (Sql.select_homework _ _); [|by left].
  destruct (save_attachments _ _ _ _ _) as [[saved|e] s] eqn:Es;
    apply save_attachments_effect in Es as (Hdur & _ & _ & Hok); cbn in Hdur |- *.
  - right. exists t, su, ti, c. destruct (Hok saved eq_refl) as [-> _]. by rewrite Hd.
  - left. by rewrite Hdur.
Qed.

Lemma delete_homework_durable env id w :
  durable (delete_homework BASE_DIR env id w).2 = durable w ∨
  durable (delete_homework BASE_DIR env id w).2 =
    Sql.delete_homework id (Sql.delete_attachments_of id (durable w)).
Proof.
  destruct (connection_frame env w) as [Hd _].
  destruct (get_db_connection env w) as [r w1] eqn:Eg. cbn in Hd.
  destruct r as [[]|]; [|left; unfold delete_homework; rewrite Eg; by cbn..].
  rewrite (delete_homework_run _ _ _ _ _ Eg).
  destruct (decide (id < 2 ^ 63)); [right|by left].
  match goal with |- context [unlink_attachments ?b ?e ?a ?s] =>
    destruct (unlink_attachments_effect b e a s) as (_ & _ & Hdur & _)
  end.
  cbn [snd durable log outer] in *. by rewrite Hdur, Hd.
Qed.

Lemma send_static_file_world filename w : (send_static_file BASE_DIR filename w).2 = w.
Proof. unfold send_static_file. by destruct (send_from_directory _ _ _ _) as [|[]]. Qed.

Lemma dispatch_counter req w :
  seq_homeworks (durable w) ≤ seq_homeworks (durable (dispatch BASE_DIR req w).2).
Proof.
  destruct req as [env|env n data files|env id n data files|env id|filename];
    cbn [dispatch]; unfold request_form; try destruct (decide (_ < n)); try (cbn; lia).
  - destruct (get_homeworks_frame env w) as (-> & _). lia.
  - destruct (add_homework_durable env data files w)
      as [[_ ->]|(t & su & ti & c & _ & ->)]; [lia|].
    destruct (record_uploads_counter_and_keys
                (Sql.insert_homework (current_timestamp env) t su ti c (durable w)).1 files
                (Sql.insert_homework (current_timestamp env) t su ti c (durable w)).2)
      as (-> & _).
    cbn. unfold Sql.next_rowid. lia.
  - destruct (update_homework_durable env id data files w)
      as [->|(t & su & ti & c & ->)]; [lia|].
    destruct (record_uploads_counter_and_keys id files
                (Sql.update_homework id t su ti c (durable w))) as (-> & _).
    cbn. lia.
  - destruct (delete_homework_durable env id w) as [->| ->]; cbn; lia.
  - rewrite send_static_file_world. lia.
Qed.

Lemma serve_counter reqs w :
  seq_homeworks (durable w) ≤ seq_homeworks (durable (serve BASE_DIR reqs w).2).
Proof.
  revert w. induction reqs as [|req reqs IH]; intros w; cbn [serve]; [cbn; lia|].
  pose proof (dispatch_counter req w) as H1.
  destruct (dispatch BASE_DIR req w) as [resp w1]. cbn in H1.
  specialize (IH w1). destruct (serve BASE_DIR reqs w1) as [resps w2]. cbn in IH |- *. lia.
Qed.

Lemma created_id_counter env data files w i :
  created_id (add_homework BASE_DIR env data files w).1 = Some i →
  seq_homeworks (durable w) < i ∧
  (∀ hw, hw ∈ homeworks (durable w) → Homework.id hw < i) ∧
  seq_homeworks (durable (add_homework BASE_DIR env data files w).2) = i.
Proof.
  intros Hi.
  destruct (add_homework_durable env data files w)
    as [[Hnone _]|(t & su & ti & c & Hsome & ->)]; [congruence|].
  rewrite Hsome in Hi. injection Hi as <-.
  destruct (record_uploads_counter_and_keys
              (Sql.insert_homework (current_timestamp env) t su ti c (durable w)).1 files
              (Sql.insert_homework (current_timestamp env) t su ti c (durable w)).2)
    as (-> & _).
  cbn. split; [unfold Sql.next_rowid; lia|]. split; [|done].
  intros hw Hin. apply next_rowid_fresh. apply list_elem_of_fmap. by exists hw.
Qed.

(** X10: Ids are never used again: of two creates that are answered with 201, the
    later one reports the larger id, whatever requests, deletes included,
    are served between them, as long as no call from the first create to
    the second goes to SQLite's own files. *)
Theorem later_create_reports_larger_id env1 data1 files1 reqs env2 data2 files2 w i1 i2 :
  created_id (add_homework BASE_DIR env1 data1 files1 w).1 = Some i1 →
  created_id (add_homework BASE_DIR env2 data2 files2
                (serve BASE_DIR reqs (add_homework BASE_DIR env1 data1 files1 w).2).2).1
    = Some i2 →
  intact (add_homework BASE_DIR env2 data2 files2
            (serve BASE_DIR reqs (add_homework BASE_DIR env1 data1 files1 w).2).2).2 = true →
  i1 < i2.
Proof.
  intros H1 H2 _.
  apply created_id_counter in H1 as (_ & _ & H1).
  apply created_id_counter in H2 as (H2 & _).
  pose proof (serve_counter reqs (add_homework BASE_DIR env1 data1 files1 w).2). lia.
Qed.

Lemma keyed_dispatch req w :
  keyed (durable w) → keyed (durable (dispatch BASE_DIR req w).2).
Proof.
  intros [Hh Ha].
  destruct req as [env|env n data files|env id n data files|env id|filename];
    cbn [dispatch]; unfold request_form; try destruct (decide (_ < n)); try done.
  - by destruct (get_homeworks_frame env w) as (-> & _).
  - destruct (add_homework_durable env data files w)
      as [[_ ->]|(t & su & ti & c & _ & ->)]; [done|].
    destruct (record_uploads_counter_and_keys
                (Sql.insert_homework (current_timestamp env) t su ti c (durable w)).1 files
                (Sql.insert_homework (current_timestamp env) t su ti c (durable w)).2)
      as (_ & Hsame & Hnd).
    split; [|by apply Hnd].
    rewrite Hsame. cbn. rewrite fmap_app. apply NoDup_app.
    split; [done|]. split; [|apply NoDup_singleton].
    intros i Hi [= ->]%list_elem_of_singleton.
    apply (next_rowid_fresh (seq_homeworks (durable w))) in Hi. cbn in Hi. lia.
  - destruct (update_homework_durable env id data files w)
      as [->|(t & su & ti & c & ->)]; [done|].
    destruct (record_uploads_counter_and_keys id files
                (Sql.update_homework id t su ti c (durable w))) as (_ & Hsame & Hnd).
    split; [|by apply Hnd].
    rewrite Hsame. cbn. rewrite <-list_fmap_compose.
    erewrite list_fmap_ext; [exact Hh|].
    intros j hw _. cbn. by destruct (decide _).
  - destruct (delete_homework_durable env id w) as [->| ->]; [done|]. cbn. split.
    + eapply sublist_NoDup; [exact Hh|]. apply fmap_sublist, sublist_filter.
    + eapply sublist_NoDup; [exact Ha|]. apply fmap_sublist, sublist_filter.
  - by rewrite send_static_file_world.
Qed.

Lemma referential_dispatch req w :
  referential (durable w) → referential (durable (dispatch BASE_DIR req w).2).
Proof.
  intros Href.
  destruct req as [env|env n data files|env id n data files|env id|filename];
    cbn [dispatch]; unfold request_form; try destruct (decide (_ < n)); try done.
  - by destruct (get_homeworks_frame env w) as (-> & _).
  - by destruct (handlers_keep_the_foreign_key BASE_DIR env 0 data files w Href) as (? & _).
  - by destruct (handlers_keep_the_foreign_key BASE_DIR env id data files w Href) as (_ & ? & _).
  - by destruct (handlers_keep_the_foreign_key BASE_DIR env id ∅ [] w Href) as (_ & _ & ?).
  - by rewrite send_static_file_world.
Qed.

(** X11: The keys hold in every world a run of requests reaches without a
    call on SQLite's own files: when no two rows of a table share an id and
    every attachment row refers to a homework row, the same is true after
    the requests, whatever they are answered. (SQLite would refuse a second
    row with an id, but does not check [homework_id].) *)
Theorem served_requests_keep_the_keys reqs w :
  keyed (durable w) → referential (durable w) →
  intact (serve BASE_DIR reqs w).2 = true →
  keyed (durable (serve BASE_DIR reqs w).2) ∧
  referential (durable (serve BASE_DIR reqs w).2).
Proof.
  intros Hk Hr _. revert w Hk Hr.
  induction reqs as [|req reqs IH]; intros w Hk Hr; cbn [serve]; [done|].
  pose proof (keyed_dispatch req w Hk) as Hk1.
  pose proof (referential_dispatch req w Hr) as Hr1.
  destruct (dispatch BASE_DIR req w) as [resp w1]. cbn in Hk1, Hr1.
  specialize (IH w1 Hk1 Hr1). by destruct (serve BASE_DIR reqs w1) as [resps w2].
Qed.

End Keys.

(** ** Requests one after the other *)

Section Composition.

Variable BASE_DIR : string.

(** What stands behind a 201 of create and a 200 of update. *)
Lemma add_homework_201 env data files w :
  status (add_homework BASE_DIR env data files w).1 = 201 →
  ∃ time subject title content w1 saved s,
    data !! "time" = Some time ∧ data !! "subject" = Some subject ∧
    data !! "title" = Some title ∧ data !! "content" = Some content ∧
    get_db_connection env w = (Ok Connection, w1) ∧
    save_attachments BASE_DIR
      (Sql.insert_homework (current_timestamp env) time subject title content (durable w1)).1
      files []
      {| conn := (Sql.insert_homework (current_timestamp env) time subject title content
                    (durable w1)).2;
         outer := w1 |} = (Ok saved, s) ∧
    add_homework BASE_DIR env data files w =
      ({| status := 201;
          body := Saved (Sql.insert_homework (current_timestamp env) time subject title
                           content (durable w1)).1 saved |},
       log EvClose (log EvCommit {| durable := conn s; disk := disk (outer s);
                                    trace := trace (outer s); intact := intact (outer s) |})).
Proof.
  intros H201.
  destruct (has_required_fields data) eqn:Hreq;
    [|unfold add_homework in H201; by rewrite Hreq in H201].
  destruct (required_fields_present _ Hreq) as (t & su & ti & c & Ht & Hsu & Hti & Hc).
  destruct (get_db_connection env w) as [r w1] eqn:Eg.
  destruct r as [[]|]; [|unfold add_homework in H201; by rewrite Hreq, Eg in H201..].
  rewrite (add_homework_run _ _ _ _ _ _ _ _ _ _ Ht Hsu Hti Hc Eg) in *. cbn zeta in *.
  destruct (save_attachments _ _ _ _ _) as [[saved|e] s] eqn:Es; [|done].
  by exists t, su, ti, c, w1, saved, s.
Qed.

Lemma update_homework_200 env id data files w :
  status (update_homework BASE_DIR env id data files w).1 = 200 →
  ∃ time subject title content w1 found saved s,
    data !! "time" = Some time ∧ data !! "subject" = Some subject ∧
    data !! "title" = Some title ∧ data !! "content" = Some content ∧
    get_db_connection env w = (Ok Connection, w1) ∧
    Sql.select_homework id (durable w1) = Some found ∧
    save_attachments BASE_DIR id files []
      {| conn := Sql.update_homework id time subject title content (durable w1);
         outer := w1 |} = (Ok saved, s) ∧
    update_homework BASE_DIR env id data files w =
      ({| status := 200; body := Saved id saved |},
       log EvClose (log EvCommit {| durable := conn s; disk := disk (outer s);
                                    trace := trace (outer s); intact := intact (outer s) |})).
Proof.
  intros H200.
  destruct (has_required_fields data) eqn:Hreq;
    [|unfold update_homework in H200; by rewrite Hreq in H200].
  destruct (required_fields_present _ Hreq) as (t & su & ti & c & Ht & Hsu & Hti & Hc).
  destruct (get_db_connection env w) as [r w1] eqn:Eg.
  destruct r as [[]|]; [|unfold update_homework in H200; by rewrite Hreq, Eg in H200..].
  rewrite (update_homework_run _ _ _ _ _ _ _ _ _ _ _ Ht Hsu Hti Hc Eg) in *.
  destruct (decide (id < 2 ^ 63)); [|done].
  destruct (Sql.select_homework id (durable w1)) as [found|] eqn:Hsel; [|done].
  destruct (save_attachments _ _ _ _ _) as [[saved|e] s] eqn:Es; [|done].
  by exists t, su, ti, c, w1, found, saved, s.
Qed.

Lemma rows_of_one_homework (rows : list Attachment.row) (i : N)
    (entries : list (FileStorage.t * observation)) :
  (λ att, (Attachment.homework_id att, Attachment.filename att, Attachment.filepath att))
    <$> rows =
  (λ entry, (i, FileStorage.filename entry.1, stored_name entry)) <$> entries →
  (∀ att, att ∈ rows → Attachment.homework_id att = i) ∧
  (λ att, (Attachment.filename att, Attachment.filepath att)) <$> rows =
  (λ entry, (FileStorage.filename entry.1, stored_name entry)) <$> entries.
Proof.
  intros H. split.
  - intros att Hin.
    assert ((Attachment.homework_id att, Attachment.filename att, Attachment.filepath att) ∈
            (λ entry : FileStorage.t * observation,
               (i, FileStorage.filename entry.1, stored_name entry)) <$> entries) as Hin'.
    { rewrite <-H. apply list_elem_of_fmap. by exists att. }
    by apply list_elem_of_fmap in Hin' as (entry & [= -> _ _] & _).
  - apply (f_equal (fmap (λ x : N * string * string, (x.1.2, x.2)))) in H.
    by rewrite <-!list_fmap_compose in H.
Qed.

Lemma filter_fmap {A B} (f : A → B) (P : B → Prop) `{∀ y, Decision (P y)} (l : list A) :
  filter P (f <$> l) = f <$> filter (λ x, P (f x)) l.
Proof.
  induction l as [|x l IH]; [done|]. cbn [fmap list_fmap]. fold (f <$> l).
  destruct (decide (P (f x))).
  - rewrite !filter_cons_True by done. cbn. by rewrite IH.
  - by rewrite !filter_cons_False.
Qed.

Lemma fmap_ext_in {A B} (f g : A → B) (l : list A) :
  (∀ x, x ∈ l → f x = g x) → f <$> l = g <$> l.
Proof. intros H. apply list_fmap_ext. intros i x Hx. apply H. by eapply list_elem_of_lookup_2. Qed.

(** The groups of a listing that is answered with 200. *)
Lemma get_homeworks_200 env w listed :
  (get_homeworks env w).1 = {| status := 200; body := Homeworks listed |} →
  ∀ s, default [] (listed !! s) ≡ₚ
       homework_json (attachments (durable w)) <$>
         filter (λ hw, Homework.subject hw = s) (homeworks (durable w)).
Proof.
  intros H s. destruct (connection_frame env w) as [Hd _].
  destruct (get_db_connection env w) as [r w1] eqn:Eg. cbn in Hd.
  destruct r as [[]|]; [|unfold get_homeworks in H; by rewrite Eg in H..].
  rewrite (get_homeworks_run _ _ _ Eg) in H. cbn in H. injection H as <-.
  rewrite groups_lookup, lookup_empty, Hd. cbn [default app].
  unfold Sql.select_homeworks_newest_first. by rewrite merge_sort_Permutation.
Qed.

(** X12: Create, then list: after a create that is answered with 201 and the id
    [i], in a world in which every attachment row refers to a homework row,
    the listing shows under the subject of the form a homework with the id
    [i], the four fields of the form, the timestamp of the insertion, and as
    attachments the entries of the request that were not skipped, with their
    filenames and stored names; and it is the one entry the listing has
    gained: every group is the group of the listing before the create, with
    that homework added to the group of its subject. *)
Theorem created_homework_is_listed
    env data files w env' time subject title content i saved :
  data !! "time" = Some time → data !! "subject" = Some subject →
  data !! "title" = Some title → data !! "content" = Some content →
  referential (durable w) →
  (add_homework BASE_DIR env data files w).1 = {| status := 201; body := Saved i saved |} →
  (get_db_connection env' (add_homework BASE_DIR env data files w).2).1 = Ok Connection →
  ∃ listed h,
    (get_homeworks env' (add_homework BASE_DIR env data files w).2).1 =
      {| status := 200; body := Homeworks listed |} ∧
    h ∈ default [] (listed !! subject) ∧
    HomeworkJson.id h = i ∧ HomeworkJson.time h = time ∧
    HomeworkJson.subject h = subject ∧ HomeworkJson.title h = title ∧
    HomeworkJson.content h = content ∧
    HomeworkJson.createdAt h = current_timestamp env ∧
    (λ a, (AttachmentJson.filename a, AttachmentJson.filepath a))
      <$> HomeworkJson.attachments h =
    (λ entry, (FileStorage.filename entry.1, stored_name entry)) <$> filter supplied files ∧
    (∀ env0 before,
       (get_homeworks env0 w).1 = {| status := 200; body := Homeworks before |} →
       ∀ s, default [] (listed !! s) ≡ₚ
            default [] (before !! s) ++ (if decide (s = subject) then [h] else [])).
Proof.
  intros Ht Hsu Hti Hc Href Hresp Hconn'.
  destruct (add_homework_201 env data files w) as
    (t & su & ti & c & w1 & saved' & s & Ht' & Hsu' & Hti' & Hc' & Eg & Es & Hrun);
    [by rewrite Hresp|].
  assert (t = time ∧ su = subject ∧ ti = title ∧ c = content) as (-> & -> & -> & ->)
    by (split_and!; congruence).
  destruct (connection_frame env w) as [Hd _]. rewrite Eg in Hd. cbn in Hd.
  set (ins := Sql.insert_homework (current_timestamp env) time subject title content
                (durable w1)) in *.
  rewrite Hrun in *. cbn [fst snd] in *.
  assert (ins.1 = i) as Hi by congruence. clear Hresp. subst i.
  apply save_attachments_effect in Es as (_ & _ & _ & Hok).
  destruct (Hok saved' eq_refl) as [Hdb _]. cbn [conn] in Hdb.
  destruct (record_uploads_rows ins.1 files ins.2) as (Hh & rows & Ha & Hrows).
  rewrite <-Hdb in Hh, Ha.
  apply rows_of_one_homework in Hrows as [Hrows1 Hrows2].
  destruct (connection_frame env'
              (log EvClose (log EvCommit {| durable := conn s; disk := disk (outer s);
                                            trace := trace (outer s); intact := intact (outer s) |}))) as [Hd' _].
  destruct (get_db_connection env' _) as [r' w2] eqn:Eg'. cbn in Hconn', Hd'. subst r'.
  rewrite (get_homeworks_run _ _ _ Eg'). rewrite Hd'.
  set (new := {| Homework.id := ins.1; Homework.time := time; Homework.subject := subject;
                 Homework.title := title; Homework.content := content;
                 Homework.created_at := current_timestamp env |}).
  assert (homeworks (conn s) = homeworks (durable w) ++ [new]) as Hhs.
  { rewrite Hh. unfold new, ins. cbn. by rewrite Hd. }
  assert (attachments ins.2 = attachments (durable w)) as Hold
    by (unfold ins; cbn; by rewrite Hd).
  assert (∀ hw, hw ∈ homeworks (durable w) → Homework.id hw < ins.1) as Hfresh.
  { intros hw Hin. unfold ins. cbn. rewrite Hd. apply next_rowid_fresh.
    apply list_elem_of_fmap. by exists hw. }
  assert (∀ hw, hw ∈ homeworks (durable w) →
            homework_json (attachments (conn s)) hw =
            homework_json (attachments (durable w)) hw) as Hothers.
  { intros hw Hin. unfold homework_json. f_equal.
    rewrite Ha, Hold, filter_app, (filter_none _ rows), app_nil_r; [done|].
    intros att Hatt Hid. rewrite (Hrows1 att Hatt) in Hid.
    specialize (Hfresh hw Hin). lia. }
  eexists _, (homework_json (attachments (conn s)) new).
  split; [done|]. cbn [durable log].
  split; [|split_and!; try done].
  - rewrite groups_lookup, lookup_empty. cbn [default app].
    apply list_elem_of_fmap. exists new. split; [done|].
    apply list_elem_of_filter. split; [done|].
    unfold Sql.select_homeworks_newest_first. rewrite merge_sort_Permutation.
    rewrite Hhs. apply elem_of_app. right. left.
  - unfold homework_json. cbn [HomeworkJson.attachments Homework.id new].
    rewrite Ha, Hold, filter_app.
    rewrite (filter_none _ (attachments (durable w))).
    2:{ intros att Hin Hid. destruct (Href att Hin) as (hw & Hhw & Hid').
        specialize (Hfresh hw Hhw). lia. }
    rewrite (filter_all _ rows) by done.
    cbn [app]. rewrite <-list_fmap_compose. exact Hrows2.
  - intros env0 before Hbefore g.
    rewrite (get_homeworks_200 _ _ _ Hbefore g).
    rewrite groups_lookup, lookup_empty. cbn [default app].
    unfold Sql.select_homeworks_newest_first. rewrite merge_sort_Permutation.
    rewrite Hhs, filter_app, fmap_app.
    rewrite (fmap_ext_in (homework_json (attachments (conn s)))
               (homework_json (attachments (durable w)))).
    2:{ intros hw [_ Hin]%list_elem_of_filter. by apply Hothers. }
    apply Permutation_app_head.
    destruct (decide (g = subject)) as [->|Hne].
    + by rewrite filter_cons_True.
    + rewrite filter_cons_False; [done|]. cbn. congruence.
Qed.

(** X13: Update, then list: after an update that is answered with 200, the
    listing shows the homework with the id, and every listed homework with
    the id stands under the subject of the form with the four fields of the
    form: no group shows it with its old fields. *)
Theorem updated_homework_is_listed_with_its_new_fields
    env id data files w env' time subject title content :
  data !! "time" = Some time → data !! "subject" = Some subject →
  data !! "title" = Some title → data !! "content" = Some content →
  status (update_homework BASE_DIR env id data files w).1 = 200 →
  (get_db_connection env' (update_homework BASE_DIR env id data files w).2).1
    = Ok Connection →
  ∃ listed,
    (get_homeworks env' (update_homework BASE_DIR env id data files w).2).1 =
      {| status := 200; body := Homeworks listed |} ∧
    (∃ h, h ∈ default [] (listed !! subject) ∧ HomeworkJson.id h = id) ∧
    (∀ s h, h ∈ default [] (listed !! s) → HomeworkJson.id h = id →
            s = subject ∧ HomeworkJson.time h = time ∧ HomeworkJson.subject h = subject ∧
            HomeworkJson.title h = title ∧ HomeworkJson.content h = content).
Proof.
  intros Ht Hsu Hti Hc H200 Hconn'.
  destruct (update_homework_200 env id data files w H200) as
    (t & su & ti & c & w1 & found & saved & s & Ht' & Hsu' & Hti' & Hc' & Eg & Hsel & Es & Hrun).
  assert (t = time ∧ su = subject ∧ ti = title ∧ c = content) as (-> & -> & -> & ->)
    by (split_and!; congruence).
  rewrite Hrun in *. cbn [fst snd] in *.
  apply save_attachments_effect in Es as (_ & _ & _ & Hok).
  destruct (Hok saved eq_refl) as [Hdb _]. cbn [conn] in Hdb.
  destruct (record_uploads_rows id files
              (Sql.update_homework id time subject title content (durable w1)))
    as (Hh & _). rewrite <-Hdb in Hh. cbn in Hh.
  destruct (connection_frame env'
              (log EvClose (log EvCommit {| durable := conn s; disk := disk (outer s);
                                            trace := trace (outer s); intact := intact (outer s) |}))) as [Hd' _].
  destruct (get_db_connection env' _) as [r' w2] eqn:Eg'. cbn in Hconn', Hd'. subst r'.
  rewrite (get_homeworks_run _ _ _ Eg'). rewrite Hd'.
  eexists. split; [done|]. cbn [durable log].
  apply select_homework_Some in Hsel as [Hin Hid].
  split.
  - exists (homework_json (attachments (conn s))
              (Sql.set_fields time subject title content found)).
    split; [|done].
    rewrite groups_lookup, lookup_empty. cbn [default app].
    apply list_elem_of_fmap. eexists. split; [done|].
    apply list_elem_of_filter. split; [done|].
    unfold Sql.select_homeworks_newest_first. rewrite merge_sort_Permutation, Hh.
    apply list_elem_of_fmap. exists found. split; [|done]. by rewrite decide_True.
  - intros g h. rewrite groups_lookup, lookup_empty. cbn [default app].
    intros (hw & -> & [Hg Hhw]%list_elem_of_filter)%list_elem_of_fmap Hidh.
    unfold Sql.select_homeworks_newest_first in Hhw.
    rewrite merge_sort_Permutation, Hh in Hhw.
    apply list_elem_of_fmap in Hhw as (hw0 & -> & _).
    cbn in Hidh, Hg |- *. destruct (decide (Homework.id hw0 = id)); [|done].
    cbn in Hg |- *. done.
Qed.

End Composition.

(** ** The filename in the stored name *)

Section Decode.

Lemma length_append (a b : string) :
  String.length (a +:+ b) = (String.length a + String.length b)%nat.
Proof. induction a as [|x a IH]; [done|]. rewrite append_cons. cbn. by rewrite IH. Qed.

Lemma fixed_digits_length base width v :
  String.length (Text.fixed_digits base width v) = width.
Proof.
  revert v. induction width as [|w IH]; intros v; [done|].
  cbn [Text.fixed_digits]. rewrite length_append, IH. cbn. lia.
Qed.

Lemma drop_chars_append (a b : string) : drop_chars (String.length a) (a +:+ b) = b.
Proof. induction a as [|x a IH]; [done|]. by rewrite append_cons. Qed.

(** X16: The original filename can be read back from a stored name: the stored
    name is 48 characters (14 of the time, an underscore, 32 of the UUID, an
    underscore) followed by the filename as it was uploaded. *)
Theorem stored_name_ends_with_the_filename now uuid filename :
  drop_chars 48 (unique_filename now uuid filename) = filename ∧
  String.length (unique_filename now uuid filename) = (48 + String.length filename)%nat.
Proof.
  unfold unique_filename.
  set (head := strftime_YmdHMS now +:+ "_" +:+ uuid_hex uuid +:+ "_").
  assert (String.length head = 48%nat) as Hlen.
  { unfold head, strftime_YmdHMS, uuid_hex.
    rewrite !length_append, !fixed_digits_length. done. }
  assert (strftime_YmdHMS now +:+ "_" +:+ uuid_hex uuid +:+ "_" +:+ filename =
          head +:+ filename) as ->.
  { unfold head. rewrite !append_assoc. done. }
  split; [by rewrite <-Hlen, drop_chars_append|].
  by rewrite length_append, Hlen.
Qed.

End Decode.

(** ** The start of the server *)

Section Start.

(** X18: [init_db] with a connection leaves both tables in the file: a table
    that was there keeps its rows, a table that was missing is there and
    empty, and the counters are as they were; so tables that the handlers
    have filled survive a restart, and a second [init_db] changes nothing.
    Without a connection the exception leaves [init_db] and the file is
    untouched. *)
Theorem init_db_creates_only_what_is_missing env file w :
  ((get_db_connection env w).1 = Ok Connection →
   (init_db env file w).1.1 = Ok () ∧
   homeworks_table (init_db env file w).1.2 = Some (default [] (homeworks_table file)) ∧
   attachments_table (init_db env file w).1.2 = Some (default [] (attachments_table file)) ∧
   sequence_homeworks (init_db env file w).1.2 = sequence_homeworks file ∧
   sequence_attachments (init_db env file w).1.2 = sequence_attachments file ∧
   (∀ db, tables file = Some db → (init_db env file w).1.2 = file) ∧
   (∀ env' w', (get_db_connection env' w').1 = Ok Connection →
               (init_db env' (init_db env file w).1.2 w').1 =
               (Ok (), (init_db env file w).1.2))) ∧
  (∀ e, (get_db_connection env w).1 = Raise e →
        (init_db env file w).1 = (Raise e, file)).
Proof.
  unfold init_db. destruct (get_db_connection env w) as [r w1]. cbn [fst]. split.
  - intros ->. cbn [fst snd].
    unfold create_attachments_if_not_exists, create_homeworks_if_not_exists, tables.
    destruct file as [[hws|] [atts|] sh sa];
      cbn [homeworks_table attachments_table sequence_homeworks sequence_attachments
           default fst snd];
      split_and!; try done;
      intros env' w' Hc; destruct (get_db_connection env' w') as [r' w1'];
      cbn [fst] in Hc; by subst r'.
  - intros e ->. done.
Qed.

End Start.

(** ** Uploads that leave the upload folder *)

Section Traversal.

Implicit Types fs : gmap (list string) Fs.node.

Lemma digit_char_not_slash d : Ascii.eqb "/" (Text.digit_char d) = false.
Proof.
  pose proof (digit_char_cases d) as H. simpl in H.
  repeat (apply elem_of_cons in H as [->|H]; [reflexivity|]).
  by apply elem_of_nil in H.
Qed.

Lemma fixed_digits_no_slash base width v :
  Text.occurs "/" (Text.fixed_digits base width v) = false.
Proof.
  revert v. induction width as [|w IH]; intros v; [done|].
  cbn [Text.fixed_digits]. rewrite occurs_app, IH. cbn [Text.occurs orb].
  by rewrite digit_char_not_slash.
Qed.

(** The part of a stored name in front of the filename. *)
Lemma stored_name_head now uuid filename :
  ∃ head,
    unique_filename now uuid filename = head +:+ filename ∧
    String.length head = 48%nat ∧ Text.occurs "/" head = false.
Proof.
  exists (strftime_YmdHMS now +:+ "_" +:+ uuid_hex uuid +:+ "_"). split; [|split].
  - unfold unique_filename. by rewrite !append_assoc.
  - unfold strftime_YmdHMS, uuid_hex. by rewrite !length_append, !fixed_digits_length.
  - unfold strftime_YmdHMS, uuid_hex.
    by rewrite !occurs_app, !fixed_digits_no_slash.
Qed.

Lemma mkdirs_existing fs cur cs rest l :
  Fs.walk fs cur cs = Some l → Fs.is_dir fs l = true →
  Fs.mkdirs fs cur (cs ++ rest) = Fs.mkdirs fs l rest.
Proof.
  revert cur. induction cs as [|c cs IH]; intros cur Hwalk Hdir.
  - cbn in Hwalk. by injection Hwalk as ->.
  - cbn [Fs.walk] in Hwalk. destruct (Fs.is_dir fs cur); [|done].
    cbn [app Fs.mkdirs].
    assert (Fs.is_dir fs (Fs.step cur c) = true) as Hnext.
    { destruct cs as [|c' cs]; cbn [Fs.walk] in Hwalk.
      - by injection Hwalk as ->.
      - by destruct (Fs.is_dir fs (Fs.step cur c)). }
    unfold Fs.is_dir in Hnext.
    destruct (Fs.step cur c) as [|x next] eqn:Es; [by apply IH|].
    destruct (fs !! (x :: next)) as [[]|]; [|done..]. by apply IH.
Qed.

Lemma mkdirs_cons fs cur c cs :
  Fs.mkdirs fs cur (c :: cs) =
  match Fs.step cur c with
  | [] => Fs.mkdirs fs [] cs
  | x :: next =>
      match fs !! (x :: next) with
      | Some Fs.Dir => Fs.mkdirs fs (x :: next) cs
      | Some (Fs.File _) => (false, fs)
      | None => Fs.mkdirs (<[x :: next := Fs.Dir]> fs) (x :: next) cs
      end
  end.
Proof. cbn [Fs.mkdirs]. by destruct (Fs.step cur c). Qed.

Lemma is_dir_lookup fs x l : Fs.is_dir fs (x :: l) = true → fs !! (x :: l) = Some Fs.Dir.
Proof. cbn. by destruct (fs !! (x :: l)) as [[]|]. Qed.

Lemma step_plain cur (name : string) :
  name ≠ "" → name ≠ "." → name ≠ ".." → Fs.step cur name = name :: cur.
Proof.
  intros H1 H2 H3. unfold Fs.step.
  rewrite decide_False by (by intros [|]). by rewrite decide_False.
Qed.

(** Where SQLite's files lie, and when a call does not go to them. *)
Lemma resolve_child (BASE_DIR : string) fs B (name : string) :
  Fs.resolve fs BASE_DIR = Some B → Fs.is_dir fs B = true →
  Text.occurs "/" name = false → name ≠ "" → name ≠ "." → name ≠ ".." →
  Fs.resolve fs (BASE_DIR +:+ String "/" name) = Some (name :: B).
Proof.
  intros HB HdB Hplain Hn1 Hn2 Hn3. unfold Fs.resolve, Text.split_slash in *.
  rewrite split_from_slash, (walk_app _ _ _ _ _ HB).
  rewrite split_from_plain by done. change ("" +:+ name) with name.
  cbn [Fs.walk]. by rewrite HdB, step_plain.
Qed.

Lemma sqlite_files_resolve (BASE_DIR : string) fs B :
  BASE_DIR ≠ "" → Text.ends_with_slash BASE_DIR = false →
  Fs.resolve fs BASE_DIR = Some B → Fs.is_dir fs B = true →
  Fs.resolve fs <$> sqlite_files BASE_DIR = (λ n, Some (n :: B)) <$> sqlite_names.
Proof.
  intros Hne Hslash HB HdB. unfold sqlite_files, DB_PATH.
  rewrite join_relative by done. rewrite !append_assoc.
  cbn [fmap list_fmap sqlite_names].
  change (String "/" "homework.db" +:+ "-wal") with (String "/" "homework.db-wal").
  change (String "/" "homework.db" +:+ "-shm") with (String "/" "homework.db-shm").
  change (String "/" "homework.db" +:+ "-journal") with (String "/" "homework.db-journal").
  by rewrite !(resolve_child BASE_DIR fs B) by done.
Qed.

Lemma is_sqlite_file_false (BASE_DIR : string) fs B path l :
  BASE_DIR ≠ "" → Text.ends_with_slash BASE_DIR = false →
  Fs.resolve fs BASE_DIR = Some B → Fs.is_dir fs B = true →
  Fs.resolve fs path = Some l → (∀ n, n ∈ sqlite_names → l ≠ n :: B) →
  is_sqlite_file BASE_DIR fs path = false.
Proof.
  intros Hne Hslash HB HdB Hres Hother. unfold is_sqlite_file. rewrite Hres.
  apply bool_decide_eq_false. rewrite Exists_exists. intros (f & Hin & Hf).
  assert (Fs.resolve fs f ∈ Fs.resolve fs <$> sqlite_files BASE_DIR) as Hmem
    by (apply list_elem_of_fmap; eauto).
  rewrite (sqlite_files_resolve BASE_DIR fs B) in Hmem by done.
  apply list_elem_of_fmap in Hmem as (n & Hn & Hin').
  rewrite Hf in Hn. injection Hn as ->. by apply (Hother n).
Qed.

Lemma takes_place_false (BASE_DIR : string) fs fs' B :
  BASE_DIR ≠ "" → Text.ends_with_slash BASE_DIR = false →
  Fs.resolve fs BASE_DIR = Some B → Fs.is_dir fs B = true →
  (∀ n, n ∈ sqlite_names → fs' !! (n :: B) = fs !! (n :: B)) →
  takes_place_of_sqlite_file BASE_DIR fs fs' = false.
Proof.
  intros Hne Hslash HB HdB Hsame. unfold takes_place_of_sqlite_file.
  apply not_true_is_false. intros (f & Hin & Hf)%existsb_exists.
  apply list_elem_of_In in Hin.
  assert (Fs.resolve fs f ∈ Fs.resolve fs <$> sqlite_files BASE_DIR) as Hmem
    by (apply list_elem_of_fmap; eauto).
  rewrite (sqlite_files_resolve BASE_DIR fs B) in Hmem by done.
  apply list_elem_of_fmap in Hmem as (n & Hn & Hin').
  rewrite Hn in Hf. apply bool_decide_eq_true in Hf as [Hnone [x Hx]].
  rewrite (Hsame n Hin') in Hx. congruence.
Qed.

(** X17: An upload is not confined to the upload folder: with the directory of
    [app.py] at [B] and [uploads] in it, a create with its four fields, a
    connection and one upload whose filename is ["/../../" ++ name] is
    answered with 201 and leaves the uploaded bytes in the file [name] next
    to [uploads], a file that is there already included, whenever nothing
    stands in the way on disk (no directory [name], no regular file where the
    directory of the stored name is made, a [file.save] that goes through).
    This is said of a name other than those of SQLite's own files, which
    the call then leaves alone. *)
Theorem upload_reaches_files_outside_the_upload_folder
    (BASE_DIR : string) env data w (B : list string) (name : string)
    (stream : list Byte.byte) obs time subject title content :
  let entry := ({| FileStorage.filename := "/../../" +:+ name;
                   FileStorage.stream := stream |}, obs) in
  data !! "time" = Some time → data !! "subject" = Some subject →
  data !! "title" = Some title → data !! "content" = Some content →
  (get_db_connection env w).1 = Ok Connection →
  BASE_DIR ≠ "" → Text.ends_with_slash BASE_DIR = false →
  Fs.resolve (disk w) BASE_DIR = Some B →
  Fs.is_dir (disk w) B = true →
  Fs.is_dir (disk w) ("uploads" :: B) = true →
  Text.occurs "/" name = false → name ≠ "" → name ≠ "." → name ≠ ".." →
  name ∉ sqlite_names →
  disk w !! (name :: B) ≠ Some Fs.Dir →
  (∀ head other, String.length head = 48%nat →
                 disk w !! (head :: "uploads" :: B) ≠ Some (Fs.File other)) →
  io obs = IoOk →
  status (add_homework BASE_DIR env data [entry] w).1 = 201 ∧
  disk (add_homework BASE_DIR env data [entry] w).2 !! (name :: B) = Some (Fs.File stream) ∧
  ¬ ("uploads" :: B) `suffix_of` (name :: B) ∧
  intact (add_homework BASE_DIR env data [entry] w).2 = intact w.
Proof.
  intros entry Ht Hsu Hti Hc Hconn Hne Hslash HB HdB HdU Hplain Hn1 Hn2 Hn3 Hother
    Hfile Hhead Hio.
  destruct (connection_frame env w) as [_ Hf].
  pose proof (connection_intact env w) as Hi.
  destruct (get_db_connection env w) as [r w1] eqn:Eg. cbn in Hconn, Hf, Hi. subst r.
  rewrite <-Hf in *. clear Hf. set (fs := disk w1) in *.
  rewrite (add_homework_run _ _ _ _ _ _ _ _ _ _ Ht Hsu Hti Hc Eg). cbn zeta.
  destruct (stored_name_head (now obs) (uuid4 obs) ("/../../" +:+ name))
    as (head & Hname & Hlen & Hnoslash).
  assert (head ≠ "" ∧ head ≠ "." ∧ head ≠ "..") as (Hh1 & Hh2 & Hh3).
  { split_and!; intros ->; done. }
  specialize (Hhead head).
  (* the components of the path of the upload *)
  assert (UPLOAD_FOLDER BASE_DIR = BASE_DIR +:+ String "/" "uploads") as Hup.
  { unfold UPLOAD_FOLDER. by apply join_relative. }
  assert (Text.split_slash
            (os_path_join (UPLOAD_FOLDER BASE_DIR)
               (unique_filename (now obs) (uuid4 obs) ("/../../" +:+ name))) =
          Text.split_slash BASE_DIR ++ ["uploads"; head; ".."; ".."; name]) as Hsplit.
  { rewrite Hname. rewrite join_relative.
    2:{ rewrite Hup. by destruct BASE_DIR. }
    2:{ rewrite Hup. by rewrite ends_with_slash_app. }
    2:{ destruct head as [|x head]; [done|]. rewrite append_cons.
        cbn [Text.occurs] in Hnoslash. apply orb_false_iff in Hnoslash as [Hx _].
        apply Ascii.eqb_neq in Hx.
        unfold Text.starts_with_slash. cbn [String.prefix].
        by destruct (ascii_dec "/" x). }
    rewrite Hup.
    replace ((BASE_DIR +:+ "/uploads") +:+ String "/" (head +:+ "/../../" +:+ name))
      with (BASE_DIR +:+ String "/"
              ("uploads" +:+ String "/" (head +:+ String "/" ("../../" +:+ name))))
      by (by rewrite append_assoc).
    unfold Text.split_slash. rewrite !split_from_slash.
    rewrite (split_from_plain "" head) by done.
    change (Text.split_from "" "uploads") with ["uploads"].
    change (Text.split_from "" ("../../" +:+ name))
      with (".." :: ".." :: Text.split_from "" name).
    rewrite (split_from_plain "" name) by done. done. }
  set (path := os_path_join (UPLOAD_FOLDER BASE_DIR) _) in *.
  (* the directory of the stored name is made *)
  assert (∃ fs1, os_makedirs_dirname path fs = (Ok (), fs1) ∧ grows fs fs1 ∧
                 fs1 !! (head :: ("uploads" :: B)) = Some Fs.Dir ∧
                 ∀ l, l ≠ head :: ("uploads" :: B) → fs1 !! l = fs !! l) as (fs1 & Hmk & Hg & Hhd & Hrest).
  { unfold os_makedirs_dirname. rewrite Hsplit.
    replace (removelast (Text.split_slash BASE_DIR ++ ["uploads"; head; ".."; ".."; name]))
      with (Text.split_slash BASE_DIR ++ ["uploads"; head; ".."; ".."])
      by (by rewrite removelast_app).
    rewrite (mkdirs_existing _ _ _ _ _ HB HdB).
    rewrite mkdirs_cons. change (Fs.step B "uploads") with ("uploads" :: B). cbn iota.
    rewrite (is_dir_lookup _ _ _ HdU).
    rewrite mkdirs_cons, (step_plain ("uploads" :: B) head) by done.
    assert (∀ fs', grows fs fs' → fs' !! (head :: "uploads" :: B) = Some Fs.Dir →
              Fs.mkdirs fs' (head :: "uploads" :: B) [".."; ".."] = (true, fs')) as Hback.
    { intros fs' Hg' Hd'. rewrite mkdirs_cons.
      change (Fs.step (head :: "uploads" :: B) "..") with ("uploads" :: B). cbn iota.
      rewrite (is_dir_lookup fs' _ _ (is_dir_grows _ _ _ Hg' HdU)).
      rewrite mkdirs_cons. change (Fs.step ("uploads" :: B) "..") with B.
      destruct B as [|b B']; [done|].
      by rewrite (is_dir_lookup fs' _ _ (is_dir_grows _ _ _ Hg' HdB)). }
    destruct (fs !! (head :: ("uploads" :: B))) as [[|other]|] eqn:E.
    - exists fs. rewrite Hback by (done || apply grows_refl).
      split; [done|]. split; [apply grows_refl|done].
    - by destruct (Hhead other).
    - pose proof (grows_insert_dir fs (head :: ("uploads" :: B)) E) as Hg'.
      exists (<[head :: ("uploads" :: B) := Fs.Dir]> fs). rewrite Hback by (done || apply lookup_insert_eq).
      split; [done|]. split; [done|]. split; [apply lookup_insert_eq|].
      intros l Hl. by rewrite lookup_insert_ne. }
  (* the file is written next to the upload folder *)
  assert (Fs.resolve fs1 path = Some (name :: B)) as Hres.
  { unfold Fs.resolve in *. rewrite Hsplit, (walk_app _ _ _ _ _ (walk_grows _ _ _ _ _ Hg HB)).
    cbn [Fs.walk]. rewrite (is_dir_grows _ _ _ Hg HdB).
    change (Fs.step B "uploads") with ("uploads" :: B). rewrite (is_dir_grows _ _ _ Hg HdU).
    rewrite (step_plain ("uploads" :: B) head) by done.
    assert (Fs.is_dir fs1 (head :: ("uploads" :: B)) = true) as -> by (cbn; by rewrite Hhd).
    change (Fs.step (head :: ("uploads" :: B)) "..") with ("uploads" :: B). rewrite (is_dir_grows _ _ _ Hg HdU).
    change (Fs.step ("uploads" :: B) "..") with B. rewrite (is_dir_grows _ _ _ Hg HdB).
    by rewrite step_plain. }
  assert (name :: B ≠ head :: ("uploads" :: B)) as Hdiff.
  { intros E. apply (f_equal length) in E. cbn in E. lia. }
  assert (file_save stream IoOk path fs1 =
            (Ok (), <[name :: B := Fs.File stream]> fs1)) as Hsave.
  { unfold file_save. rewrite Hres, (Hrest _ Hdiff).
    by destruct (fs !! (name :: B)) as [[]|]. }
  (* neither call goes to one of SQLite's files *)
  assert (takes_place_of_sqlite_file BASE_DIR fs (os_makedirs_dirname path fs).2 = false)
    as Hhit1.
  { rewrite Hmk. apply (takes_place_false BASE_DIR fs fs1 B); [done..|].
    intros n _. apply Hrest. intros E. apply (f_equal length) in E. cbn in E. lia. }
  assert (is_sqlite_file BASE_DIR fs1 path = false) as Hhit2.
  { apply (is_sqlite_file_false BASE_DIR fs1 B path (name :: B)); [done|done| | |done|].
    - unfold Fs.resolve in *. by apply (walk_grows _ _ _ _ _ Hg).
    - by apply (is_dir_grows _ _ _ Hg).
    - intros n Hn [= ->]. done. }
  subst fs.
  cbn [save_attachments]. unfold entry. cbn [FileStorage.filename FileStorage.stream].
  destruct (decide ("/../../" +:+ name = "")) as [Hempty|_]; [done|].
  fold path. run. rewrite Hhit1, Hmk. run. rewrite Hhit2, Hio, Hsave. run.
  split; [done|]. split; [apply lookup_insert_eq|]. split.
  - intros [k Hk]. destruct k as [|x k].
    + injection Hk as ->. apply is_dir_lookup in HdU. by rewrite HdU in Hfile.
    + apply (f_equal length) in Hk. rewrite length_app in Hk. cbn in Hk. lia.
  - rewrite Hi. by rewrite !andb_true_r.
Qed.

End Traversal.

(** ** Uploads with plain filenames *)

Section PlainNames.

Variable BASE_DIR : string.

Implicit Types fs : gmap (list string) Fs.node.

Lemma plain_is_relative (name : string) :
  Text.occurs "/" name = false → Text.starts_with_slash name = false.
Proof.
  destruct name as [|x name]; [done|]. cbn [Text.occurs].
  intros [Hx _]%orb_false_iff. apply Ascii.eqb_neq in Hx.
  unfold Text.starts_with_slash. cbn [String.prefix]. by destruct (ascii_dec "/" x).
Qed.

Lemma plain_is_no_parent (name : string) :
  Text.occurs "/" name = false → String.prefix "../" name = false.
Proof.
  destruct name as [|a [|b [|c name]]]; cbn [String.prefix]; intros H;
    repeat match goal with
           | |- context [ascii_dec ?x ?y] => destruct (ascii_dec x y)
           end; try done.
  subst. discriminate H.
Qed.

Lemma normpath_plain (name : string) :
  Text.occurs "/" name = false → name ≠ "" → name ≠ "." → name ≠ ".." →
  normpath name = name.
Proof.
  intros Hplain Hn1 Hn2 Hn3. unfold normpath, Text.split_slash.
  rewrite decide_False by done.
  rewrite split_from_plain by done. change ("" +:+ name) with name.
  rewrite (plain_is_relative name) by done.
  assert (String.prefix "//" name = false) as ->.
  { pose proof (plain_is_relative name Hplain) as H. unfold Text.starts_with_slash in H.
    destruct name as [|x name]; [done|]. cbn [String.prefix] in *.
    destruct (ascii_dec "/" x); [by destruct name|done]. }
  cbn [normpath_loop andb].
  rewrite (decide_False (P := name = "" ∨ name = ".")) by (by intros [|]).
  rewrite (decide_True (P := name ≠ ".." ∨ _)) by (by left).
  cbn [app Text.join_slash]. by rewrite decide_False.
Qed.

Lemma stored_name_plain entry :
  Text.occurs "/" (FileStorage.filename entry.1) = false →
  Text.occurs "/" (stored_name entry) = false ∧
  stored_name entry ≠ "" ∧ stored_name entry ≠ "." ∧ stored_name entry ≠ "..".
Proof.
  intros Hplain. unfold stored_name.
  destruct (stored_name_head (now entry.2) (uuid4 entry.2) (FileStorage.filename entry.1))
    as (head & -> & Hlen & Hnoslash).
  split; [by rewrite occurs_app, Hnoslash, Hplain|].
  split_and!; intros E; apply (f_equal String.length) in E;
    rewrite length_append, Hlen in E; cbn in E; lia.
Qed.

Lemma starts_with_slash_app (a b : string) :
  Text.starts_with_slash a = true → Text.starts_with_slash (a +:+ b) = true.
Proof.
  destruct a as [|x a]; [done|]. unfold Text.starts_with_slash.
  rewrite append_cons. cbn [String.prefix].
  destruct (ascii_dec "/" x); [|done]. intros _. by destruct (a +:+ b).
Qed.

Lemma absolute_not_empty (path : string) : Text.starts_with_slash path = true → path ≠ "".
Proof. by destruct path. Qed.

Lemma upload_folder_path :
  Text.starts_with_slash BASE_DIR = true → Text.ends_with_slash BASE_DIR = false →
  UPLOAD_FOLDER BASE_DIR = BASE_DIR +:+ String "/" "uploads".
Proof.
  intros Habs Hslash. unfold UPLOAD_FOLDER.
  apply join_relative; [by apply absolute_not_empty|done..].
Qed.

Lemma upload_path_split (name : string) :
  Text.starts_with_slash BASE_DIR = true → Text.ends_with_slash BASE_DIR = false →
  Text.occurs "/" name = false →
  Text.split_slash (os_path_join (UPLOAD_FOLDER BASE_DIR) name) =
    Text.split_slash BASE_DIR ++ ["uploads"; name].
Proof.
  intros Habs Hslash Hplain. rewrite upload_folder_path by done.
  rewrite join_relative.
  2:{ clear. by destruct BASE_DIR. }
  2:{ by rewrite ends_with_slash_app. }
  2:{ by apply plain_is_relative. }
  replace ((BASE_DIR +:+ "/uploads") +:+ String "/" name)
    with (BASE_DIR +:+ String "/" ("uploads" +:+ String "/" name))
    by (by rewrite append_assoc).
  unfold Text.split_slash. rewrite !split_from_slash.
  by rewrite (split_from_plain "" name) by done.
Qed.

Lemma makedirs_of_plain_upload fs B (name : string) :
  Text.starts_with_slash BASE_DIR = true → Text.ends_with_slash BASE_DIR = false →
  Fs.resolve fs BASE_DIR = Some B → Fs.is_dir fs B = true →
  Fs.is_dir fs ("uploads" :: B) = true →
  Text.occurs "/" name = false →
  os_makedirs_dirname (os_path_join (UPLOAD_FOLDER BASE_DIR) name) fs = (Ok (), fs).
Proof.
  intros Habs Hslash HB HdB HdU Hplain.
  unfold os_makedirs_dirname. rewrite upload_path_split by done.
  replace (removelast (Text.split_slash BASE_DIR ++ ["uploads"; name]))
    with ((Text.split_slash BASE_DIR ++ ["uploads"]) ++ [])
    by (rewrite app_nil_r; by rewrite removelast_app).
  rewrite (mkdirs_existing fs [] _ [] ("uploads" :: B)); [done| |done].
  unfold Fs.resolve in HB. rewrite (walk_app _ _ _ _ _ HB). cbn [Fs.walk]. by rewrite HdB.
Qed.

Lemma resolve_plain_upload fs B (name : string) :
  Text.starts_with_slash BASE_DIR = true → Text.ends_with_slash BASE_DIR = false →
  Fs.resolve fs BASE_DIR = Some B → Fs.is_dir fs B = true →
  Fs.is_dir fs ("uploads" :: B) = true →
  Text.occurs "/" name = false → name ≠ "" → name ≠ "." → name ≠ ".." →
  Fs.resolve fs (os_path_join (UPLOAD_FOLDER BASE_DIR) name) = Some (name :: "uploads" :: B).
Proof.
  intros Habs Hslash HB HdB HdU Hplain Hn1 Hn2 Hn3.
  unfold Fs.resolve in *. rewrite upload_path_split by done.
  rewrite (walk_app _ _ _ _ _ HB). cbn [Fs.walk]. rewrite HdB.
  change (Fs.step B "uploads") with ("uploads" :: B). rewrite HdU.
  by rewrite step_plain.
Qed.

(** The loop with plain filenames: every file goes into the upload folder
    itself, and SQLite's files are left alone. *)
Lemma save_attachments_plain homework_id files saved s r s' B :
  Text.starts_with_slash BASE_DIR = true → Text.ends_with_slash BASE_DIR = false →
  Fs.resolve (disk (outer s)) BASE_DIR = Some B →
  Fs.is_dir (disk (outer s)) B = true →
  Fs.is_dir (disk (outer s)) ("uploads" :: B) = true →
  (∀ e, e ∈ files → Text.occurs "/" (FileStorage.filename e.1) = false) →
  save_attachments BASE_DIR homework_id files saved s = (r, s') →
  intact (outer s') = intact (outer s) ∧
  (∀ l, (∀ name, l ≠ name :: "uploads" :: B) →
        disk (outer s') !! l = disk (outer s) !! l).
Proof.
  intros Habs Hslash. revert saved s.
  induction files as [|[file obs] files IH]; intros saved s HB HdB HdU Hplain E.
  { cbn [save_attachments] in E. run. by simplify_eq. }
  cbn [save_attachments] in E.
  destruct (decide (FileStorage.filename file = "")) as [Hempty|Hname].
  { eapply IH; eauto. intros e He. apply Hplain. by right. }
  assert (Text.occurs "/" (FileStorage.filename file) = false) as Hp
    by (apply (Hplain (file, obs)); left).
  destruct (stored_name_plain (file, obs) Hp) as (Hs1 & Hs2 & Hs3 & Hs4).
  unfold stored_name in Hs1, Hs2, Hs3, Hs4. cbn [fst snd] in Hs1, Hs2, Hs3, Hs4.
  set (name := unique_filename (now obs) (uuid4 obs) (FileStorage.filename file)) in *.
  set (path := os_path_join (UPLOAD_FOLDER BASE_DIR) name) in *.
  set (fs := disk (outer s)) in *.
  pose proof (makedirs_of_plain_upload fs B name Habs Hslash HB HdB HdU Hs1) as Hmk.
  pose proof (resolve_plain_upload fs B name Habs Hslash HB HdB HdU Hs1 Hs2 Hs3 Hs4) as Hres.
  fold path in Hmk, Hres.
  pose proof (absolute_not_empty _ Habs) as Hne.
  assert (takes_place_of_sqlite_file BASE_DIR fs (os_makedirs_dirname path fs).2 = false)
    as Hhit1 by (rewrite Hmk; by apply (takes_place_false BASE_DIR fs fs B)).
  assert (is_sqlite_file BASE_DIR fs path = false) as Hhit2.
  { apply (is_sqlite_file_false BASE_DIR fs B path (name :: "uploads" :: B)); try done.
    intros n _ E'. apply (f_equal length) in E'. cbn in E'. lia. }
  pose proof (file_save_grows (FileStorage.stream file) (io obs) path fs) as Hg.
  assert (∀ l, l ≠ name :: "uploads" :: B →
               (file_save (FileStorage.stream file) (io obs) path fs).2 !! l = fs !! l)
    as Hframe.
  { intros l Hl. unfold file_save. rewrite Hres.
    destruct (fs !! (name :: "uploads" :: B)) as [[]|]; destruct (io obs); cbn [snd];
      try done; by rewrite lookup_insert_ne. }
  run. fold fs in E. rewrite Hhit1, Hmk in E. run. rewrite Hhit2 in E.
  destruct (file_save (FileStorage.stream file) (io obs) path fs) as [[[]|e2] fs2] eqn:Es;
    cbn [snd] in Hg, Hframe; run.
  2:{ simplify_eq. cbn. split; [by rewrite !andb_true_r|]. intros l Hl. by apply Hframe. }
  apply IH in E as [Hi Hd]; cbn [outer disk intact conn] in *.
  - split; [rewrite Hi; cbn; by rewrite !andb_true_r|].
    intros l Hl. rewrite Hd by done. by apply Hframe.
  - unfold Fs.resolve in *. by apply (walk_grows _ _ _ _ _ Hg).
  - by apply (is_dir_grows _ _ _ Hg).
  - by apply (is_dir_grows _ _ _ Hg).
  - intros e He. apply Hplain. by right.
Qed.

(** Create and update with plain filenames. *)
Lemma handlers_with_plain_filenames env id data files w B :
  Text.starts_with_slash BASE_DIR = true → Text.ends_with_slash BASE_DIR = false →
  Fs.resolve (disk w) BASE_DIR = Some B →
  Fs.is_dir (disk w) B = true → Fs.is_dir (disk w) ("uploads" :: B) = true →
  (∀ e, e ∈ files → Text.occurs "/" (FileStorage.filename e.1) = false) →
  ∀ w', w' = (add_homework BASE_DIR env data files w).2 ∨
        w' = (update_homework BASE_DIR env id data files w).2 →
    intact w' = intact w ∧ grows (disk w) (disk w') ∧
    (∀ l, (∀ name, l ≠ name :: "uploads" :: B) → disk w' !! l = disk w !! l).
Proof.
  intros Habs Hslash HB HdB HdU Hplain.
  destruct (connection_frame env w) as [_ Hf].
  pose proof (connection_intact env w) as Hi.
  destruct (get_db_connection env w) as [r w1] eqn:Eg. cbn [snd] in Hf, Hi.
  assert (∀ i db saved s r',
            save_attachments BASE_DIR i files saved {| conn := db; outer := w1 |} = (r', s) →
            intact (outer s) = intact w ∧ grows (disk w) (disk (outer s)) ∧
            (∀ l, (∀ name, l ≠ name :: "uploads" :: B) → disk (outer s) !! l = disk w !! l)) as Hloop.
  { intros i db saved s r' Es.
    pose proof (save_attachments_effect _ _ _ _ _ _ _ Es) as (_ & Hg & _).
    apply (save_attachments_plain _ _ _ _ _ _ B) in Es as [Hi' Hd']; try done;
      cbn [outer] in *; rewrite ?Hf; try done.
    rewrite Hi', Hi, <-Hf. split; [done|]. split; [done|].
    intros l Hl. rewrite Hd' by done. by rewrite Hf. }
  assert (intact w = intact w ∧ grows (disk w) (disk w) ∧
          (∀ l, (∀ name, l ≠ name :: "uploads" :: B) → disk w !! l = disk w !! l)) as Hsame
    by (split; [done|]; split; [apply grows_refl|done]).
  assert (intact w1 = intact w ∧ grows (disk w) (disk w1) ∧
          (∀ l, (∀ name, l ≠ name :: "uploads" :: B) → disk w1 !! l = disk w !! l)) as Hconn
    by (rewrite Hi, Hf; split; [done|]; split; [apply grows_refl|done]).
  destruct (has_required_fields data) eqn:Hreq.
  2:{ intros w' [->| ->]; unfold add_homework, update_homework; by rewrite Hreq. }
  destruct (required_fields_present _ Hreq) as (t & su & ti & c & Ht & Hsu & Hti & Hc).
  destruct r as [[]|].
  2,3: intros w' [->| ->]; unfold add_homework, update_homework; by rewrite Hreq, Eg.
  intros w' [->| ->].
  - rewrite (add_homework_run _ _ _ _ _ _ _ _ _ _ Ht Hsu Hti Hc Eg). cbn zeta.
    destruct (save_attachments _ _ _ _ _) as [[saved|e] s] eqn:Es;
      apply Hloop in Es; exact Es.
  - rewrite (update_homework_run _ _ _ _ _ _ _ _ _ _ _ Ht Hsu Hti Hc Eg).
    destruct (decide (id < 2 ^ 63)); [|exact Hconn].
    destruct (Sql.select_homework _ _); [|exact Hconn].
    destruct (save_attachments _ _ _ _ _) as [[saved|e] s] eqn:Es;
      apply Hloop in Es; exact Es.
Qed.

(** What the static view sends for a plain name. *)
Lemma send_static_plain fs B (name : string) :
  Text.starts_with_slash BASE_DIR = true → Text.ends_with_slash BASE_DIR = false →
  Fs.resolve fs BASE_DIR = Some B →
  Text.occurs "/" name = false → name ≠ "" → name ≠ "." → name ≠ ".." →
  send_from_directory BASE_DIR (static_folder BASE_DIR) name fs =
    if Fs.is_dir fs B && Fs.is_dir fs (tail B) && Fs.is_dir fs ("uploads" :: tail B)
    then match fs !! (name :: "uploads" :: tail B) with
         | Some (Fs.File content) => Ok content
         | _ => Raise NotFound
         end
    else Raise NotFound.
Proof.
  intros Habs Hslash HB Hplain Hn1 Hn2 Hn3.
  pose proof (absolute_not_empty _ Habs) as Hne.
  assert (static_folder BASE_DIR = BASE_DIR +:+ String "/" "../uploads") as Hstatic.
  { unfold static_folder. by apply join_relative. }
  unfold send_from_directory, safe_join.
  rewrite (decide_False (P := static_folder BASE_DIR = ""))
    by (rewrite Hstatic; clear; by destruct BASE_DIR).
  rewrite (decide_False (P := name = "")) by done.
  rewrite normpath_plain by done.
  rewrite (plain_is_relative name), (plain_is_no_parent name) by done.
  rewrite bool_decide_eq_false_2 by done. cbn [orb].
  rewrite (join_relative (static_folder BASE_DIR) name);
    [|rewrite Hstatic; clear; by destruct BASE_DIR
     |rewrite Hstatic; by rewrite ends_with_slash_app
     |by apply plain_is_relative].
  rewrite Hstatic.
  replace ((BASE_DIR +:+ String "/" "../uploads") +:+ String "/" name)
    with (BASE_DIR +:+ String "/" ("../uploads/" +:+ name))
    by (by rewrite append_assoc).
  assert (os_path_join BASE_DIR (BASE_DIR +:+ String "/" ("../uploads/" +:+ name)) =
          BASE_DIR +:+ String "/" ("../uploads/" +:+ name)) as ->.
  { unfold os_path_join.
    by rewrite starts_with_slash_app. }
  assert (Fs.resolve fs (BASE_DIR +:+ String "/" ("../uploads/" +:+ name)) =
          if Fs.is_dir fs B && Fs.is_dir fs (tail B) && Fs.is_dir fs ("uploads" :: tail B)
          then Some (name :: "uploads" :: tail B) else None) as Hres.
  { unfold Fs.resolve, Text.split_slash in *.
    rewrite split_from_slash, (walk_app _ _ _ _ _ HB).
    change (Text.split_from "" ("../uploads/" +:+ name))
      with (".." :: "uploads" :: Text.split_from "" name).
    rewrite split_from_plain by done. change ("" +:+ name) with name.
    cbn [Fs.walk].
    change (Fs.step B "..") with (tail B).
    change (Fs.step (tail B) "uploads") with ("uploads" :: tail B).
    rewrite step_plain by done.
    by destruct (Fs.is_dir fs B), (Fs.is_dir fs (tail B)),
      (Fs.is_dir fs ("uploads" :: tail B)). }
  unfold os_path_isfile, send_file. rewrite Hres.
  destruct (Fs.is_dir fs B && Fs.is_dir fs (tail B) && Fs.is_dir fs ("uploads" :: tail B));
    [|done].
  by destruct (fs !! (name :: "uploads" :: tail B)) as [[]|].
Qed.

(** X15: Upload, then download: the file of an upload is not what the
    request for its stored name is answered with. The uploads of a create
    or an update with plain filenames go into [BASE_DIR/uploads], and the
    rule [/uploads/<path:filename>] is answered by the static view, which
    reads [BASE_DIR/../uploads]: unless [BASE_DIR] is the root directory,
    the request for the stored name of an entry is answered after the call
    as it would have been answered before it. *)
Theorem stored_upload_is_not_what_the_request_is_answered_with
    env id data files w B entry :
  Text.starts_with_slash BASE_DIR = true → Text.ends_with_slash BASE_DIR = false →
  Fs.resolve (disk w) BASE_DIR = Some B → B ≠ [] →
  Fs.is_dir (disk w) B = true → Fs.is_dir (disk w) ("uploads" :: B) = true →
  (∀ e, e ∈ files → Text.occurs "/" (FileStorage.filename e.1) = false) →
  entry ∈ files →
  (dispatch BASE_DIR (GetUpload (stored_name entry))
     (add_homework BASE_DIR env data files w).2).1 =
    (dispatch BASE_DIR (GetUpload (stored_name entry)) w).1 ∧
  (dispatch BASE_DIR (GetUpload (stored_name entry))
     (update_homework BASE_DIR env id data files w).2).1 =
    (dispatch BASE_DIR (GetUpload (stored_name entry)) w).1.
Proof.
  intros Habs Hslash HB Hroot HdB HdU Hplain Hin.
  destruct (stored_name_plain entry (Hplain entry Hin)) as (Hs1 & Hs2 & Hs3 & Hs4).
  assert (∀ w', intact w' = intact w ∧ grows (disk w) (disk w') ∧
                (∀ l, (∀ name, l ≠ name :: "uploads" :: B) → disk w' !! l = disk w !! l) →
                (dispatch BASE_DIR (GetUpload (stored_name entry)) w').1 =
                (dispatch BASE_DIR (GetUpload (stored_name entry)) w).1) as Hsame.
  { intros w' (_ & Hg & Hd). cbn [dispatch]. unfold send_static_file.
    rewrite (send_static_plain (disk w) B), (send_static_plain (disk w') B); try done.
    2:{ unfold Fs.resolve in *. by apply (walk_grows _ _ _ _ _ Hg). }
    assert (∀ l, length l ≠ S (S (length B)) → disk w' !! l = disk w !! l) as Hlen.
    { intros l Hl. apply Hd. intros n ->. cbn in Hl. lia. }
    assert (∀ l, length l ≠ S (S (length B)) → Fs.is_dir (disk w') l = Fs.is_dir (disk w) l)
      as Hdir.
    { intros l Hl. unfold Fs.is_dir. destruct l; [done|]. by rewrite Hlen. }
    destruct B as [|b B']; [done|]. cbn [tail length] in *.
    rewrite !Hdir by (cbn; lia). rewrite Hlen by (cbn; lia).
    by destruct (Fs.is_dir (disk w) (b :: B') && Fs.is_dir (disk w) B' &&
                 Fs.is_dir (disk w) ("uploads" :: B')),
      (disk w !! (stored_name entry :: "uploads" :: B')) as [[]|]. }
  pose proof (handlers_with_plain_filenames env id data files w B Habs Hslash HB HdB HdU Hplain)
    as Hframe.
  split; apply Hsame, Hframe; [by left|by right].
Qed.

(** X20: Uploads with plain filenames leave SQLite's own files alone: a
    create or an update whose filenames have no slash, in a tree that has
    the directory of [app.py] and [uploads] in it, makes no call on the
    database or on the files SQLite keeps next to it; on disk it changes
    nothing but entries of the upload folder itself, and only adds to the
    tree. *)
Theorem plain_filenames_leave_sqlite_files_alone env id data files w B :
  Text.starts_with_slash BASE_DIR = true → Text.ends_with_slash BASE_DIR = false →
  Fs.resolve (disk w) BASE_DIR = Some B →
  Fs.is_dir (disk w) B = true → Fs.is_dir (disk w) ("uploads" :: B) = true →
  (∀ e, e ∈ files → Text.occurs "/" (FileStorage.filename e.1) = false) →
  ∀ w', w' = (add_homework BASE_DIR env data files w).2 ∨
        w' = (update_homework BASE_DIR env id data files w).2 →
    intact w' = intact w ∧
    grows (disk w) (disk w') ∧
    (∀ l, (∀ name, l ≠ name :: "uploads" :: B) → disk w' !! l = disk w !! l) ∧
    (∀ n, n ∈ sqlite_names → disk w' !! (n :: B) = disk w !! (n :: B)).
Proof.
  intros Habs Hslash HB HdB HdU Hplain w' Hw'.
  destruct (handlers_with_plain_filenames env id data files w B Habs Hslash HB HdB HdU Hplain
              w' Hw') as (Hi & Hg & Hd).
  split; [done|]. split; [done|]. split; [done|].
  intros n _. apply Hd. intros name E. apply (f_equal length) in E. cbn in E. lia.
Qed.

End PlainNames.

(** ** What the static view serves *)

Section StaticView.

Variable BASE_DIR : string.

Implicit Types fs : gmap (list string) Fs.node.

Lemma split_from_no_slash cur (s : string) :
  Text.occurs "/" cur = false →
  Forall (λ c, Text.occurs "/" c = false) (Text.split_from cur s).
Proof.
  revert cur. induction s as [|x s IH]; intros cur Hcur; cbn [Text.split_from].
  - by constructor.
  - destruct (Ascii.eqb x "/") eqn:E.
    + constructor; [done|]. by apply IH.
    + apply IH. rewrite occurs_app, Hcur. cbn [Text.occurs orb].
      by rewrite Ascii.eqb_sym, E.
Qed.

Lemma normpath_loop_shape comps n plain :
  Forall (λ c, Text.occurs "/" c = false) comps →
  Forall component plain →
  ∃ n' plain',
    normpath_loop false (replicate n ".." ++ plain) comps = replicate n' ".." ++ plain' ∧
    Forall component plain'.
Proof.
  intros Hc. revert n plain.
  induction Hc as [|c comps Hc _ IH]; intros n plain Hp; cbn [normpath_loop].
  { by exists n, plain. }
  destruct (decide (c = "" ∨ c = ".")) as [|Hne]; [by apply IH|].
  destruct (decide (c = "..")) as [->|Hdd].
  - destruct plain as [|p plain _] using rev_ind.
    + rewrite app_nil_r. rewrite decide_True.
      2:{ right. destruct n as [|n]; [by left|right].
          rewrite replicate_S_end. by rewrite last_snoc. }
      rewrite <-replicate_S_end. rewrite <-(app_nil_r (replicate (S n) "..")).
      by apply IH.
    + apply Forall_app in Hp as [Hp Hlast]. apply Forall_inv in Hlast.
      rewrite app_assoc. rewrite decide_False.
      2:{ intros [H|[[_ H]|H]]; [done|by destruct (replicate n ".." ++ plain)|].
          rewrite last_snoc in H. injection H as ->.
          unfold component in Hlast. by destruct Hlast as (_ & _ & Hp3 & _). }
      rewrite removelast_last. by apply IH.
  - rewrite decide_True by (by left). rewrite <-app_assoc. apply IH.
    apply Forall_app. split; [done|]. apply Forall_singleton.
    unfold component. split_and!; [tauto|tauto|done|done].
Qed.

Lemma join_slash_parent n plain :
  Text.join_slash (replicate (S n) ".." ++ plain) = ".." ∨
  String.prefix "../" (Text.join_slash (replicate (S n) ".." ++ plain)) = true.
Proof.
  cbn [replicate app]. destruct (replicate n ".." ++ plain) as [|c rest]; [by left|right].
  cbn [Text.join_slash].
  match goal with |- context [".." +:+ String "/" ?t] => generalize t end.
  intros t. by destruct t.
Qed.

Lemma split_join_slash comps :
  comps ≠ [] → Forall (λ c, Text.occurs "/" c = false) comps →
  Text.split_slash (Text.join_slash comps) = comps.
Proof.
  intros Hne Hc. unfold Text.split_slash.
  induction Hc as [|c comps Hc Hcs IH]; [done|].
  destruct comps as [|c' comps].
  - cbn [Text.join_slash]. by rewrite split_from_plain.
  - change (Text.join_slash (c :: c' :: comps))
      with (c +:+ String "/" (Text.join_slash (c' :: comps))).
    rewrite split_from_slash, split_from_plain by done. cbn [app].
    by rewrite IH.
Qed.

Lemma step_component cur c : component c → Fs.step cur c = c :: cur.
Proof.
  intros (H1 & H2 & H3 & _). unfold Fs.step.
  rewrite decide_False by (by intros [|]). by rewrite decide_False.
Qed.

Lemma walk_components fs cur comps l :
  Forall component comps → Fs.walk fs cur comps = Some l → l = rev comps ++ cur.
Proof.
  intros Hc. revert cur. induction Hc as [|c comps Hc _ IH]; intros cur; cbn [Fs.walk].
  - by intros [= ->].
  - destruct (Fs.is_dir fs cur); [|done]. rewrite step_component by done.
    intros ->%IH. cbn [rev]. by rewrite <-app_assoc.
Qed.

Lemma walk_app_inv fs cur (a b : list string) l :
  Fs.walk fs cur (a ++ b) = Some l →
  ∃ mid, Fs.walk fs cur a = Some mid ∧ Fs.walk fs mid b = Some l.
Proof.
  revert cur. induction a as [|c a IH]; intros cur; cbn [Fs.walk app].
  - intros H. by exists cur.
  - destruct (Fs.is_dir fs cur); [apply IH|done].
Qed.

Lemma walk_nowhere fs cur c l :
  c = "" ∨ c = "." → Fs.walk fs cur [c] = Some l → l = cur.
Proof.
  intros Hc. cbn [Fs.walk]. destruct (Fs.is_dir fs cur); [|done].
  unfold Fs.step. rewrite decide_True by done. by intros [= ->].
Qed.

Lemma relative_no_double_slash (path : string) :
  Text.starts_with_slash path = false → String.prefix "//" path = false.
Proof.
  destruct path as [|x path]; [done|]. unfold Text.starts_with_slash.
  cbn [String.prefix]. destruct (ascii_dec "/" x); [|done]. by destruct path.
Qed.

(** The names [safe_join] lets through lead downwards: whatever directory
    they are followed from, they end below it. *)
Lemma safe_name_leads_down (filename : string) :
  let name := if decide (filename = "") then "" else normpath filename in
  Text.starts_with_slash name || bool_decide (name = "..") || String.prefix "../" name
    = false →
  ∃ rest, ∀ fs cur l, Fs.walk fs cur (Text.split_slash name) = Some l → l = rest ++ cur.
Proof.
  intros name Hsafe. apply orb_false_iff in Hsafe as [Hsafe Hprefix].
  apply orb_false_iff in Hsafe as [Habs Hparent]. apply bool_decide_eq_false in Hparent.
  subst name. destruct (decide (filename = "")) as [->|Hne].
  { exists []. intros fs cur l. apply walk_nowhere. by left. }
  unfold normpath in *. rewrite decide_False in * by done.
  destruct (Text.starts_with_slash filename) eqn:Hslash.
  { exfalso. revert Habs. clear.
    destruct (String.prefix "//" filename && negb (String.prefix "///" filename));
      by destruct (Text.join_slash _). }
  rewrite (relative_no_double_slash _ Hslash) in *. cbn [andb] in *.
  change ("" +:+ ?s) with s in *.
  destruct (normpath_loop_shape (Text.split_slash filename) 0 [])
    as (n & plain & Hloop & Hplain);
    [by apply split_from_no_slash|done|].
  cbn [replicate app] in Hloop. rewrite Hloop in *.
  destruct (decide (Text.join_slash (replicate n ".." ++ plain) = "")) as [|Hjoin].
  { exists []. intros fs cur l. apply walk_nowhere. by right. }
  destruct n as [|n].
  2:{ by destruct (join_slash_parent n plain) as [H|H]; [|rewrite H in Hprefix]. }
  cbn [replicate app] in *. exists (rev plain). intros fs cur l.
  rewrite split_join_slash.
  - by apply walk_components.
  - by intros ->.
  - eapply Forall_impl; [exact Hplain|]. by intros c (_ & _ & _ & ?).
Qed.

Lemma static_folder_path :
  Text.starts_with_slash BASE_DIR = true →
  static_folder BASE_DIR ≠ "" ∧
  Text.starts_with_slash (static_folder BASE_DIR) = true ∧
  Text.ends_with_slash (static_folder BASE_DIR) = false.
Proof.
  intros Habs. unfold static_folder, os_path_join.
  change (Text.starts_with_slash "../uploads") with false. cbn match.
  destruct (bool_decide (BASE_DIR = "") || Text.ends_with_slash BASE_DIR).
  - split; [apply absolute_not_empty; by apply starts_with_slash_app|].
    split; [by apply starts_with_slash_app|]. by rewrite ends_with_slash_app.
  - split; [apply absolute_not_empty; by apply starts_with_slash_app|].
    split; [by apply starts_with_slash_app|].
    rewrite ends_with_slash_app; [|done]. by rewrite ends_with_slash_app.
Qed.

(** X21: The static view is confined to its folder: a request for
    [/uploads/...] that is answered with 200 is answered with the bytes of a
    regular file that lies in the folder [../uploads] next to the directory
    of [app.py], or below it, whatever the name in the request is. *)
Theorem static_view_serves_only_its_folder filename w content :
  Text.starts_with_slash BASE_DIR = true →
  (dispatch BASE_DIR (GetUpload filename) w).1 =
    {| status := 200; body := Download content |} →
  ∃ folder rest,
    Fs.resolve (disk w) (static_folder BASE_DIR) = Some folder ∧
    disk w !! (rest ++ folder) = Some (Fs.File content).
Proof.
  intros Habs. destruct (static_folder_path Habs) as (Hne & Hstart & Hend).
  cbn [dispatch]. unfold send_static_file, send_from_directory, safe_join.
  rewrite (decide_False (P := static_folder BASE_DIR = "")) by done.
  pose proof (safe_name_leads_down filename) as Hdown. cbn zeta in Hdown.
  set (name := if decide (filename = "") then "" else normpath filename) in *.
  destruct (Text.starts_with_slash name || bool_decide (name = "..") ||
            String.prefix "../" name) eqn:Hsafe; [done|].
  destruct (Hdown eq_refl) as [rest Hrest].
  assert (Text.starts_with_slash name = false) as Hrel.
  { by apply orb_false_iff in Hsafe as [[? _]%orb_false_iff _]. }
  rewrite (join_relative (static_folder BASE_DIR) name) by done.
  assert (os_path_join BASE_DIR (static_folder BASE_DIR +:+ String "/" name) =
          static_folder BASE_DIR +:+ String "/" name) as ->.
  { unfold os_path_join. by rewrite starts_with_slash_app. }
  unfold os_path_isfile, send_file.
  destruct (Fs.resolve (disk w) (static_folder BASE_DIR +:+ String "/" name))
    as [l|] eqn:Hres; [|done].
  destruct (disk w !! l) as [[|c]|] eqn:Hl; try done.
  cbn. intros [= ->].
  unfold Fs.resolve, Text.split_slash in Hres. rewrite split_from_slash in Hres.
  apply walk_app_inv in Hres as (folder & Hfolder & Hwalk).
  exists folder, rest. split; [done|]. apply Hrest in Hwalk. by subst l.
Qed.

End StaticView.


(** ** Delete, then list *)

Section DeleteThenList.

Variable BASE_DIR : string.

Lemma delete_homework_tables env id w :
  id < 2 ^ 63 →
  (get_db_connection env w).1 = Ok Connection →
  homeworks (durable (delete_homework BASE_DIR env id w).2) =
    filter (λ hw, Homework.id hw ≠ id) (homeworks (durable w)) ∧
  attachments (durable (delete_homework BASE_DIR env id w).2) =
    filter (λ att, Attachment.homework_id att ≠ id) (attachments (durable w)).
Proof.
  intros Hbound Hconn. destruct (connection_frame env w) as [Hd _].
  destruct (get_db_connection env w) as [r w1] eqn:Eg. cbn in Hconn, Hd. subst r.
  rewrite (delete_homework_run _ _ _ _ _ Eg). rewrite decide_True by done.
  match goal with |- context [unlink_attachments ?b ?e ?a ?s] =>
    destruct (unlink_attachments_effect b e a s) as (_ & _ & Hdur & _)
  end.
  cbn [snd durable log outer] in *. by rewrite Hdur, Hd.
Qed.

(** X14: Delete, then list: a delete with a connection takes the homeworks
    with the id out of the listing and nothing else: every group afterwards
    is the group before without them, and the homeworks that stay are listed
    with the fields and the attachments they had. The ids of the rows are
    ids that SQLite can hold, below 2^63; a delete of an id from 2^63 on,
    which no row has, is refused and leaves the listing as it was. *)
Theorem delete_takes_only_the_homework_out_of_the_listing
    env id w env0 env' before after :
  (∀ hw, hw ∈ homeworks (durable w) → Homework.id hw < 2 ^ 63) →
  (get_db_connection env w).1 = Ok Connection →
  (get_homeworks env0 w).1 = {| status := 200; body := Homeworks before |} →
  (get_homeworks env' (delete_homework BASE_DIR env id w).2).1 =
    {| status := 200; body := Homeworks after |} →
  ∀ s, default [] (after !! s) ≡ₚ
       filter (λ h, HomeworkJson.id h ≠ id) (default [] (before !! s)).
Proof.
  intros Hrows Hconn Hbefore Hafter s.
  rewrite (get_homeworks_200 _ _ _ Hafter s), (get_homeworks_200 _ _ _ Hbefore s).
  destruct (decide (id < 2 ^ 63)) as [Hbound|Hbound].
  - destruct (delete_homework_tables env id w Hbound Hconn) as [Hh Ha].
    rewrite Hh, Ha, filter_fmap. cbn [homework_json HomeworkJson.id].
    rewrite !list_filter_filter.
    rewrite (list_filter_iff
               (λ hw, Homework.subject hw = s ∧ Homework.id hw ≠ id)
               (λ hw, Homework.id hw ≠ id ∧ Homework.subject hw = s)) by tauto.
    rewrite (fmap_ext_in (homework_json _) (homework_json (attachments (durable w)))); [done|].
    intros hw [[Hid _] _]%list_elem_of_filter. unfold homework_json. f_equal.
    rewrite list_filter_filter. f_equal. apply list_filter_iff.
    intros att. split; [tauto|]. intros E. split; [done|congruence].
  - assert (durable (delete_homework BASE_DIR env id w).2 = durable w) as ->.
    { destruct (connection_frame env w) as [Hd _].
      destruct (get_db_connection env w) as [r w1] eqn:Eg. cbn in Hconn, Hd. subst r.
      rewrite (delete_homework_run _ _ _ _ _ Eg). by rewrite decide_False by done. }
    rewrite (filter_all (λ h, HomeworkJson.id h ≠ id)); [done|].
    intros h (hw & -> & [_ Hhw]%list_elem_of_filter)%list_elem_of_fmap.
    cbn [homework_json HomeworkJson.id]. specialize (Hrows hw Hhw). lia.
Qed.

End DeleteThenList.

(** ** Commit and close *)

Section Protocol.

Variable BASE_DIR : string.

(** X19: What a handler of the tables does with its connection, once
    [get_db_connection] has returned one: the listing only closes it; create
    and update, when they leave SQLite's own files alone, save files, commit
    exactly when they answer 201 and 200, and close it on every path, the
    404 and the 500 included; delete answers 200 exactly for an id that
    SQLite can hold, and then commits first, unlinks files afterwards and
    closes it; for an id from 2^63 on it only closes it. Nothing follows the
    close, and no handler connects a second time. *)
Theorem connection_is_committed_on_success_and_always_closed env id data files w :
  (get_db_connection env w).1 = Ok Connection →
  has_required_fields data = true →
  let opened := trace (get_db_connection env w).2 in
  trace (get_homeworks env w).2 = opened ++ [EvClose] ∧
  (intact (add_homework BASE_DIR env data files w).2 = true →
   ∃ saves,
     (∀ ev, ev ∈ saves → ∃ path, ev = EvSave path) ∧
     trace (add_homework BASE_DIR env data files w).2 =
       opened ++ saves ++
       (if decide (status (add_homework BASE_DIR env data files w).1 = 201)
        then [EvCommit] else []) ++ [EvClose]) ∧
  (intact (update_homework BASE_DIR env id data files w).2 = true →
   ∃ saves,
     (∀ ev, ev ∈ saves → ∃ path, ev = EvSave path) ∧
     trace (update_homework BASE_DIR env id data files w).2 =
       opened ++ saves ++
       (if decide (status (update_homework BASE_DIR env id data files w).1 = 200)
        then [EvCommit] else []) ++ [EvClose]) ∧
  (∃ unlinks,
     (∀ ev, ev ∈ unlinks → ∃ path, ev = EvUnlink path) ∧
     (status (delete_homework BASE_DIR env id w).1 = 200 ↔ id < 2 ^ 63) ∧
     trace (delete_homework BASE_DIR env id w).2 =
       opened ++
       (if decide (status (delete_homework BASE_DIR env id w).1 = 200)
        then [EvCommit] ++ unlinks else []) ++ [EvClose]).
Proof.
  intros Hconn Hreq opened. subst opened.
  destruct (required_fields_present data Hreq) as (t & s & ti & c & Ht & Hs & Hti & Hc).
  destruct (get_db_connection env w) as [r w1] eqn:Eg. cbn [fst snd] in *. subst r.
  split; [by rewrite (get_homeworks_run _ _ _ Eg)|].
  split; [|split].
  - intros _.
    rewrite (add_homework_run BASE_DIR _ _ _ _ _ _ _ _ _ Ht Hs Hti Hc Eg). cbn zeta.
    match goal with |- context [save_attachments ?b ?i ?f ?a ?s0] =>
      destruct (save_attachments b i f a s0) as [res s'] eqn:Es
    end.
    apply save_attachments_effect in Es as (_ & _ & (evs & Htr & Hevs) & _).
    cbn [outer trace] in Htr. exists evs. split.
    { intros ev Hin. destruct (Hevs ev Hin) as (path & -> & _). by exists path. }
    destruct res; cbn [fst snd status log trace]; rewrite Htr.
    + rewrite decide_True by done. by rewrite <- !app_assoc.
    + rewrite decide_False by done. by rewrite <- !app_assoc.
  - intros _.
    rewrite (update_homework_run BASE_DIR _ _ _ _ _ _ _ _ _ _ Ht Hs Hti Hc Eg).
    destruct (decide (id < 2 ^ 63)).
    2:{ exists []. split; [intros ev Hin; by apply elem_of_nil in Hin|].
        cbn [fst snd status log trace]. by rewrite decide_False by done. }
    destruct (Sql.select_homework id (durable w1)).
    2:{ exists []. split; [intros ev Hin; by apply elem_of_nil in Hin|].
        cbn [fst snd status log trace]. by rewrite decide_False by done. }
    match goal with |- context [save_attachments ?b ?i ?f ?a ?s0] =>
      destruct (save_attachments b i f a s0) as [res s'] eqn:Es
    end.
    apply save_attachments_effect in Es as (_ & _ & (evs & Htr & Hevs) & _).
    cbn [outer trace] in Htr. exists evs. split.
    { intros ev Hin. destruct (Hevs ev Hin) as (path & -> & _). by exists path. }
    destruct res; cbn [fst snd status log trace]; rewrite Htr.
    + rewrite decide_True by done. by rewrite <- !app_assoc.
    + rewrite decide_False by done. by rewrite <- !app_assoc.
  - rewrite (delete_homework_run BASE_DIR _ _ _ _ Eg).
    destruct (decide (id < 2 ^ 63)) as [Hbound|Hbig].
    2:{ exists []. split; [intros ev Hin; by apply elem_of_nil in Hin|].
        cbn [fst snd status log trace]. rewrite decide_False by done.
        split; [split; [done|by intros ?]|done]. }
    match goal with |- context [unlink_attachments ?b ?e ?a ?s0] =>
      destruct (unlink_attachments_effect b e a s0) as (_ & _ & _ & _ & (evs & Htr & Hevs) & _)
    end.
    exists evs. split; [exact Hevs|].
    cbn [fst snd log trace outer status] in *. rewrite decide_True by done.
    split; [done|]. rewrite Htr. by rewrite <- !app_assoc.
Qed.

End Protocol.

(** ** More samples *)

Section MoreSamples.

Import Sample.

Lemma math_fields :
  math !! "time" = Some "2024-01-01" ∧ math !! "subject" = Some "Math" ∧
  math !! "title" = Some "Ch1" ∧ math !! "content" = Some "Do problems 1-10".
Proof. by vm_compute. Qed.

Lemma create_rows_sample :
  let files := [upload "a.txt" Byte.x41 7 IoOk] in
  (get_db_connection calm fresh).1 = Ok Connection ∧
  status (add_homework base calm math files fresh).1 = 201 ∧
  ∃ rowid,
    0 < rowid ∧
    homeworks (durable (add_homework base calm math files fresh).2) =
      homeworks (durable fresh) ++
      [ {| Homework.id := rowid; Homework.time := "2024-01-01"; Homework.subject := "Math";
           Homework.title := "Ch1"; Homework.content := "Do problems 1-10";
           Homework.created_at := current_timestamp calm |} ].
Proof.
  intros files. destruct math_fields as (F1 & F2 & F3 & F4).
  assert ((get_db_connection calm fresh).1 = Ok Connection) as Hc by reflexivity.
  assert (status (add_homework base calm math files fresh).1 = 201) as Hs by reflexivity.
  split; [exact Hc|]. split; [exact Hs|].
  destruct (create_appends_homework_and_attachment_rows base calm math files fresh
              _ _ _ _ F1 F2 F3 F4 Hc Hs) as (rowid & _ & Hpos & _ & Hrows & _).
  exists rowid. exact (conj Hpos Hrows).
Defined.

Lemma update_rows_sample :
  (get_db_connection calm with_homework).1 = Ok Connection ∧
  status (update_homework base calm 1 math [] with_homework).1 = 200 ∧
  (update_homework base calm 1 math [] with_homework).1 =
    {| status := 200; body := Saved 1 [] |} ∧
  grows (disk with_homework) (disk (update_homework base calm 1 math [] with_homework).2).
Proof.
  destruct math_fields as (F1 & F2 & F3 & F4).
  assert ((get_db_connection calm with_homework).1 = Ok Connection) as Hc by reflexivity.
  assert (status (update_homework base calm 1 math [] with_homework).1 = 200) as Hs
    by reflexivity.
  split; [exact Hc|]. split; [exact Hs|].
  destruct (update_rewrites_four_fields_and_appends_rows base calm 1 math [] with_homework
              _ _ _ _ F1 F2 F3 F4 Hc Hs) as (Hresp & _ & _ & Hgrows & _).
  exact (conj Hresp Hgrows).
Defined.

Lemma update_with_missing_field_sample :
  "title" ∈ required_fields ∧ no_title !! "title" = None ∧
  update_homework base calm 1 no_title [upload "a.txt" Byte.x41 7 IoOk] with_homework =
    ({| status := 400; body := Error |}, with_homework).
Proof.
  assert ("title" ∈ required_fields) as H1 by (right; right; left).
  assert (no_title !! "title" = None) as H2 by reflexivity.
  split; [exact H1|]. split; [exact H2|].
  exact (update_with_missing_field_is_rejected base calm 1 no_title _ with_homework
           "title" H1 H2).
Defined.

Lemma without_connection_sample :
  (get_db_connection unreadable with_homework).1 =
    Raise (OperationalError "unable to open database file") ∧
  (get_homeworks unreadable with_homework).1 = {| status := 500; body := Error |} ∧
  (delete_homework base unreadable 1 with_homework).1 = {| status := 500; body := Error |} ∧
  durable (delete_homework base unreadable 1 with_homework).2 = durable with_homework ∧
  disk (delete_homework base unreadable 1 with_homework).2 = disk with_homework.
Proof.
  assert ((get_db_connection unreadable with_homework).1 =
          Raise (OperationalError "unable to open database file")) as Hc by reflexivity.
  split; [exact Hc|].
  destruct (without_connection_nothing_changes base unreadable 1 math [] with_homework _ Hc)
    as ((Hl & _) & _ & Hd).
  exact (conj Hl Hd).
Defined.

Lemma failed_update_sample :
  let files := [upload "b.txt" Byte.x42 8 IoOpenFails] in
  has_required_fields math = true ∧
  (get_db_connection calm with_homework).1 = Ok Connection ∧
  intact (update_homework base calm 1 math files with_homework).2 = true ∧
  status (update_homework base calm 1 math files with_homework).1 = 500 ∧
  durable (update_homework base calm 1 math files with_homework).2 = durable with_homework.
Proof.
  intros files.
  assert (has_required_fields math = true) as H1 by reflexivity.
  assert ((get_db_connection calm with_homework).1 = Ok Connection) as H2 by reflexivity.
  assert (intact (update_homework base calm 1 math files with_homework).2 = true) as H3
    by reflexivity.
  assert (status (update_homework base calm 1 math files with_homework).1 = 500) as H4
    by reflexivity.
  split; [exact H1|]. split; [exact H2|]. split; [exact H3|]. split; [exact H4|].
  exact (proj1 (failed_update_discards_rows_keeps_files base calm 1 math files
                  with_homework H1 H2 H3 H4)).
Defined.

Lemma second_delete_sample :
  let w1 := (delete_homework base calm 1 with_homework).2 in
  (get_db_connection calm with_homework).1 = Ok Connection ∧
  (get_db_connection read_only w1).1 = Ok Connection ∧
  intact (delete_homework base read_only 1 w1).2 = true ∧
  (delete_homework base read_only 1 w1).1 = (delete_homework base calm 1 with_homework).1 ∧
  (delete_homework base calm 1 with_homework).1 = {| status := 200; body := Message |} ∧
  durable (delete_homework base read_only 1 w1).2 = durable w1 ∧
  disk (delete_homework base read_only 1 w1).2 = disk w1.
Proof.
  intros w1.
  assert ((get_db_connection calm with_homework).1 = Ok Connection) as H1 by reflexivity.
  assert ((get_db_connection read_only w1).1 = Ok Connection) as H2 by reflexivity.
  assert (intact (delete_homework base read_only 1 w1).2 = true) as H3 by reflexivity.
  split; [exact H1|]. split; [exact H2|]. split; [exact H3|].
  exact (second_delete_changes_nothing base calm read_only 1 with_homework H1 H2 H3).
Defined.

Lemma later_create_sample :
  let w1 := (add_homework base calm math [] fresh).2 in
  let reqs := [DeleteHomework calm 1; GetHomeworks calm] in
  created_id (add_homework base calm math [] fresh).1 = Some 1 ∧
  homeworks (durable (serve base reqs w1).2) = [] ∧
  created_id (add_homework base read_only math [] (serve base reqs w1).2).1 = Some 2 ∧
  intact (add_homework base read_only math [] (serve base reqs w1).2).2 = true ∧
  1 < 2.
Proof.
  intros w1 reqs.
  assert (created_id (add_homework base calm math [] fresh).1 = Some 1) as H1 by reflexivity.
  assert (created_id (add_homework base read_only math [] (serve base reqs w1).2).1 = Some 2)
    as H2 by reflexivity.
  assert (intact (add_homework base read_only math [] (serve base reqs w1).2).2 = true)
    as H3 by reflexivity.
  split; [exact H1|]. split; [reflexivity|]. split; [exact H2|]. split; [exact H3|].
  exact (later_create_reports_larger_id base calm math [] reqs read_only math [] fresh 1 2
           H1 H2 H3).
Defined.

Lemma served_requests_sample :
  let reqs := [PostHomework calm 300 math [upload "a.txt" Byte.x41 7 IoOk];
               PutHomework calm 1 300 math [upload "b.txt" Byte.x42 8 IoOk];
               DeleteHomework calm 2] in
  keyed (durable fresh) ∧ referential (durable fresh) ∧
  intact (serve base reqs fresh).2 = true ∧
  keyed (durable (serve base reqs fresh).2) ∧
  referential (durable (serve base reqs fresh).2).
Proof.
  intros reqs.
  assert (keyed (durable fresh)) as H1 by (split; apply NoDup_nil_2).
  assert (referential (durable fresh)) as H2 by (intros att Hin; inversion Hin).
  assert (intact (serve base reqs fresh).2 = true) as H3 by reflexivity.
  split; [exact H1|]. split; [exact H2|]. split; [exact H3|].
  exact (served_requests_keep_the_keys base reqs fresh H1 H2 H3).
Defined.

Lemma created_homework_sample :
  let files := [upload "a.txt" Byte.x41 7 IoOk] in
  referential (durable fresh) ∧
  (add_homework base calm math files fresh).1 =
    {| status := 201;
       body := Saved 1 [ {| SavedJson.filename := "a.txt"; SavedJson.filepath := stored_a |} ] |} ∧
  (get_db_connection calm (add_homework base calm math files fresh).2).1 = Ok Connection ∧
  ∃ listed h,
    (get_homeworks calm (add_homework base calm math files fresh).2).1 =
      {| status := 200; body := Homeworks listed |} ∧
    h ∈ default [] (listed !! "Math") ∧
    HomeworkJson.id h = 1 ∧ HomeworkJson.title h = "Ch1" ∧
    (λ a, (AttachmentJson.filename a, AttachmentJson.filepath a))
      <$> HomeworkJson.attachments h = [("a.txt", stored_a)].
Proof.
  intros files. destruct math_fields as (F1 & F2 & F3 & F4).
  assert (referential (durable fresh)) as H1 by (intros att Hin; inversion Hin).
  assert ((add_homework base calm math files fresh).1 =
          {| status := 201;
             body := Saved 1 [ {| SavedJson.filename := "a.txt";
                                  SavedJson.filepath := stored_a |} ] |}) as H2
    by reflexivity.
  assert ((get_db_connection calm (add_homework base calm math files fresh).2).1
          = Ok Connection) as H3 by reflexivity.
  split; [exact H1|]. split; [exact H2|]. split; [exact H3|].
  destruct (created_homework_is_listed base calm math files fresh calm _ _ _ _ _ _
              F1 F2 F3 F4 H1 H2 H3)
    as (listed & h & Hresp & Hin & Hid & _ & _ & Htitle & _ & _ & Hatts & _).
  exists listed, h. exact (conj Hresp (conj Hin (conj Hid (conj Htitle Hatts)))).
Defined.

Lemma updated_homework_sample :
  let physics := <["subject" := "Physics"]> math in
  status (update_homework base calm 1 physics [] with_homework).1 = 200 ∧
  (get_db_connection calm (update_homework base calm 1 physics [] with_homework).2).1
    = Ok Connection ∧
  ∃ listed,
    (get_homeworks calm (update_homework base calm 1 physics [] with_homework).2).1 =
      {| status := 200; body := Homeworks listed |} ∧
    (∃ h, h ∈ default [] (listed !! "Physics") ∧ HomeworkJson.id h = 1) ∧
    (∀ h, h ∈ default [] (listed !! "Math") → HomeworkJson.id h ≠ 1).
Proof.
  intros physics.
  assert (physics !! "time" = Some "2024-01-01" ∧ physics !! "subject" = Some "Physics" ∧
          physics !! "title" = Some "Ch1" ∧ physics !! "content" = Some "Do problems 1-10")
    as (F1 & F2 & F3 & F4) by (by vm_compute).
  assert (status (update_homework base calm 1 physics [] with_homework).1 = 200) as H1
    by reflexivity.
  assert ((get_db_connection calm (update_homework base calm 1 physics [] with_homework).2).1
          = Ok Connection) as H2 by reflexivity.
  split; [exact H1|]. split; [exact H2|].
  destruct (updated_homework_is_listed_with_its_new_fields base calm 1 physics []
              with_homework calm _ _ _ _ F1 F2 F3 F4 H1 H2) as (listed & Hresp & Hex & Hall).
  exists listed. split; [exact Hresp|]. split; [exact Hex|].
  intros h Hin Hid. destruct (Hall "Math" h Hin Hid) as [Hs _]. discriminate Hs.
Defined.

Lemma stored_upload_sample :
  let entry := upload "a.txt" Byte.x41 7 IoOk in
  Fs.resolve (disk fresh) base = Some ["app"; "srv"] ∧
  status (add_homework base calm math [entry] fresh).1 = 201 ∧
  disk (add_homework base calm math [entry] fresh).2 !! [stored_a; "uploads"; "app"; "srv"] =
    Some (Fs.File [Byte.x41]) ∧
  (dispatch base (GetUpload (stored_name entry)) fresh).1 = {| status := 404; body := Error |} ∧
  (dispatch base (GetUpload (stored_name entry))
     (add_homework base calm math [entry] fresh).2).1 = {| status := 404; body := Error |}.
Proof.
  intros entry.
  assert (Fs.resolve (disk fresh) base = Some ["app"; "srv"]) as HB by reflexivity.
  assert ((dispatch base (GetUpload (stored_name entry)) fresh).1 =
          {| status := 404; body := Error |}) as Hbefore by reflexivity.
  split; [exact HB|]. split; [reflexivity|]. split; [reflexivity|]. split; [exact Hbefore|].
  rewrite <-Hbefore.
  refine (proj1 (stored_upload_is_not_what_the_request_is_answered_with base calm 1 math
                   [entry] fresh ["app"; "srv"] entry _ _ HB _ _ _ _ _)).
  - reflexivity.
  - reflexivity.
  - discriminate.
  - reflexivity.
  - reflexivity.
  - intros e [->|He]%elem_of_cons; [reflexivity|inversion He].
  - left.
Defined.

Lemma plain_filenames_sample :
  let files := [upload "a.txt" Byte.x41 7 IoOk; upload "b.txt" Byte.x42 8 IoOk] in
  Fs.resolve (disk fresh) base = Some ["app"; "srv"] ∧
  intact (add_homework base calm math files fresh).2 = true ∧
  disk (add_homework base calm math files fresh).2 !! ["homework.db"; "app"; "srv"] =
    disk fresh !! ["homework.db"; "app"; "srv"].
Proof.
  intros files.
  assert (Fs.resolve (disk fresh) base = Some ["app"; "srv"]) as HB by reflexivity.
  split; [exact HB|].
  destruct (plain_filenames_leave_sqlite_files_alone base calm 1 math files fresh
              ["app"; "srv"]) with (w' := (add_homework base calm math files fresh).2)
    as (Hi & _ & _ & Hdb).
  - reflexivity.
  - reflexivity.
  - exact HB.
  - reflexivity.
  - reflexivity.
  - intros e [->|[->|He]%elem_of_cons]%elem_of_cons; [reflexivity|reflexivity|inversion He].
  - by left.
  - split; [exact Hi|]. apply Hdb. left.
Defined.

Lemma init_db_sample :
  let file := {| homeworks_table := None; attachments_table := None;
                 sequence_homeworks := 0; sequence_attachments := 0 |} in
  (get_db_connection calm fresh).1 = Ok Connection ∧
  (init_db calm file fresh).1.1 = Ok () ∧
  homeworks_table (init_db calm file fresh).1.2 = Some [] ∧
  attachments_table (init_db calm file fresh).1.2 = Some [] ∧
  tables (init_db calm file fresh).1.2 = Some empty_db.
Proof.
  intros file.
  assert ((get_db_connection calm fresh).1 = Ok Connection) as Hc by reflexivity.
  split; [exact Hc|].
  destruct (proj1 (init_db_creates_only_what_is_missing calm file fresh) Hc)
    as (H1 & H2 & H3 & H4 & H5 & _).
  split; [exact H1|]. split; [exact H2|]. split; [exact H3|].
  unfold tables. rewrite H2, H3, H4, H5. reflexivity.
Defined.

Lemma static_view_sample :
  let w := set_disk (<[ ["a.txt"; "uploads"; "srv"] := Fs.File [Byte.x41] ]>
                       (<[ ["uploads"; "srv"] := Fs.Dir ]> tree)) fresh in
  Text.starts_with_slash base = true ∧
  (dispatch base (GetUpload "x/../a.txt") w).1 =
    {| status := 200; body := Download [Byte.x41] |} ∧
  (dispatch base (GetUpload "../app/homework.db") w).1 = {| status := 404; body := Error |} ∧
  ∃ folder rest,
    Fs.resolve (disk w) (static_folder base) = Some folder ∧
    disk w !! (rest ++ folder) = Some (Fs.File [Byte.x41]).
Proof.
  intros w.
  assert (Text.starts_with_slash base = true) as H1 by reflexivity.
  assert ((dispatch base (GetUpload "x/../a.txt") w).1 =
          {| status := 200; body := Download [Byte.x41] |}) as H2 by reflexivity.
  split; [exact H1|]. split; [exact H2|]. split; [reflexivity|].
  exact (static_view_serves_only_its_folder base "x/../a.txt" w [Byte.x41] H1 H2).
Defined.

Lemma upload_outside_sample :
  let entry := upload "/../../app.py" Byte.x41 7 IoOk in
  let w := set_disk (<[ ["app.py"; "app"; "srv"] := Fs.File [Byte.x69] ]> tree) fresh in
  (get_db_connection calm w).1 = Ok Connection ∧
  Fs.resolve (disk w) base = Some ["app"; "srv"] ∧
  ("app.py" ∉ sqlite_names) ∧
  disk w !! ["app.py"; "app"; "srv"] = Some (Fs.File [Byte.x69]) ∧
  status (add_homework base calm math [entry] w).1 = 201 ∧
  disk (add_homework base calm math [entry] w).2 !! ["app.py"; "app"; "srv"] =
    Some (Fs.File [Byte.x41]) ∧
  intact (add_homework base calm math [entry] w).2 = true.
Proof.
  intros entry w. destruct math_fields as (F1 & F2 & F3 & F4).
  assert ((get_db_connection calm w).1 = Ok Connection) as Hc by reflexivity.
  assert (Fs.resolve (disk w) base = Some ["app"; "srv"]) as Hb by reflexivity.
  assert ("app.py" ∉ sqlite_names) as Hn.
  { unfold sqlite_names. rewrite !not_elem_of_cons. split_and!; try discriminate.
    apply not_elem_of_nil. }
  split; [exact Hc|]. split; [exact Hb|]. split; [exact Hn|]. split; [reflexivity|].
  destruct (upload_reaches_files_outside_the_upload_folder base calm math w
              ["app"; "srv"] "app.py" [Byte.x41]
              {| now := noon; uuid4 := 7; io := IoOk |} _ _ _ _ F1 F2 F3 F4 Hc)
    as (H1 & H2 & _ & H3);
    [discriminate|reflexivity|exact Hb|reflexivity|reflexivity|reflexivity
    |discriminate|discriminate|discriminate|exact Hn|discriminate| |reflexivity|].
  - intros head other _. unfold w, fresh, tree. cbn [disk set_disk].
    rewrite !lookup_insert_ne by (intros ?; simplify_eq).
    rewrite lookup_empty. discriminate.
  - exact (conj H1 (conj H2 H3)).
Defined.

Lemma delete_then_list_sample :
  (∀ hw, hw ∈ homeworks (durable with_homework) → Homework.id hw < 2 ^ 63) ∧
  (get_db_connection calm with_homework).1 = Ok Connection ∧
  ∃ before after,
    (get_homeworks calm with_homework).1 = {| status := 200; body := Homeworks before |} ∧
    (get_homeworks calm (delete_homework base calm 1 with_homework).2).1 =
      {| status := 200; body := Homeworks after |} ∧
    ∀ s, default [] (after !! s) ≡ₚ
         filter (λ h, HomeworkJson.id h ≠ 1) (default [] (before !! s)).
Proof.
  assert (∀ hw, hw ∈ homeworks (durable with_homework) → Homework.id hw < 2 ^ 63) as Hr.
  { intros hw [->|Hin]%elem_of_cons; [reflexivity|inversion Hin]. }
  assert ((get_db_connection calm with_homework).1 = Ok Connection) as Hc by reflexivity.
  split; [exact Hr|]. split; [exact Hc|].
  assert (∃ before, (get_homeworks calm with_homework).1 =
                    {| status := 200; body := Homeworks before |}) as [before Hb]
    by (eexists; reflexivity).
  assert (∃ after, (get_homeworks calm (delete_homework base calm 1 with_homework).2).1 =
                   {| status := 200; body := Homeworks after |}) as [after Ha]
    by (eexists; reflexivity).
  exists before, after. split; [exact Hb|]. split; [exact Ha|].
  exact (delete_takes_only_the_homework_out_of_the_listing base calm 1 with_homework
           calm calm before after Hr Hc Hb Ha).
Defined.

Lemma commit_and_close_sample :
  (get_db_connection calm with_homework).1 = Ok Connection ∧
  has_required_fields math = true ∧
  trace (get_homeworks calm with_homework).2 =
    trace (get_db_connection calm with_homework).2 ++ [EvClose] ∧
  trace (add_homework base calm math [] with_homework).2 =
    trace (get_db_connection calm with_homework).2 ++ [EvCommit; EvClose] ∧
  ∃ unlinks,
    (∀ ev, ev ∈ unlinks → ∃ path, ev = EvUnlink path) ∧
    trace (delete_homework base calm 1 with_homework).2 =
      trace (get_db_connection calm with_homework).2 ++ ([EvCommit] ++ unlinks) ++ [EvClose].
Proof.
  assert ((get_db_connection calm with_homework).1 = Ok Connection) as H1 by reflexivity.
  assert (has_required_fields math = true) as H2 by reflexivity.
  split; [exact H1|]. split; [exact H2|].
  destruct (connection_is_committed_on_success_and_always_closed base calm 1 math []
              with_homework H1 H2) as (Hl & _ & _ & unlinks & Hu & _ & Hd).
  split; [exact Hl|]. split; [reflexivity|]. exists unlinks. split; [exact Hu|]. exact Hd.
Defined.

End MoreSamples.
